(** * Vehicle collision detection: tracker, collision scorer and alert aggregator

    A shallow embedding of [collision_detector.py], [vehicle_tracker.py] and
    [alert_system.py] (with the constants of [config.py]), of the data path
    of [run_detection.py] from the results of the model to the vehicle
    records ([_detect_vehicles], [_process_view]) and of the frame reader of
    [input_handler.py] ([InputHandler]).

    Python floats are idealised as real numbers ([R]); [math.atan2],
    [math.degrees], [np.sqrt] and the float [%] operator are the functions of the
    real analysis library.  Comparisons are the decision procedures [Rlt_dec]
    and [Rle_dec], so every branch of the source is a branch of the model.
    Where the rounding of binary64 decides a property, the lines concerned
    are embedded a second time over the floats of the machine
    ([Binary64]). *)

From Stdlib Require Import Reals Lra List String Ascii Bool Arith Lia.
From Stdlib Require Import ZArith Permutation Sorted.
From Stdlib Require PrimFloat.
Import ListNotations.

Open Scope R_scope.

(** ** config.py *)

Module Config.

Definition CRITICAL_DISTANCE : R := 5.
Definition HIGH_DISTANCE : R := 10.
Definition MEDIUM_DISTANCE : R := 20.
Definition LOW_DISTANCE : R := 30.

Definition CRITICAL_SPEED : R := 20.
Definition HIGH_SPEED : R := 15.
Definition MEDIUM_SPEED : R := 10.
Definition LOW_SPEED : R := 5.

Definition CRITICAL_ANGLE : R := 15.
Definition HIGH_ANGLE : R := 30.
Definition MEDIUM_ANGLE : R := 45.
Definition LOW_ANGLE : R := 60.

Definition SPEED_THRESHOLD : R := 5.

Definition FOCAL_LENGTH : R := 700.
Definition REAL_VEHICLE_WIDTH : R := 18 / 10.
Definition PIXELS_PER_METER : R := 50.

End Config.

(** ** Python built-ins on numbers *)

(** [max(a, b)] keeps [a] unless [b > a]; [min(a, b)] keeps [a] unless [b < a]. *)
Definition py_max (a b : R) : R := if Rlt_dec a b then b else a.
Definition py_min (a b : R) : R := if Rlt_dec b a then b else a.

(** [a <= b], [a < b] as booleans, for conjunctions of tests. *)
Definition Rleb (a b : R) : bool := if Rle_dec a b then true else false.
Definition Rltb (a b : R) : bool := if Rlt_dec a b then true else false.

(** Float [a % m] for a positive modulus: the result has the sign of [m]. *)
Definition py_mod (a m : R) : R := a - m * IZR (Int_part (a / m)).

(** [math.atan2(y, x)], from the arc tangent, by quadrant. *)
Definition atan2 (y x : R) : R :=
  if Rlt_dec 0 x then atan (y / x)
  else if Rlt_dec x 0 then
    (if Rle_dec 0 y then atan (y / x) + PI else atan (y / x) - PI)
  else if Rlt_dec 0 y then PI / 2
  else if Rlt_dec y 0 then - (PI / 2)
  else 0.

(** [math.degrees]. *)
Definition degrees (r : R) : R := r * 180 / PI.

(** A float that may be [float('inf')]. *)
Inductive ExtR : Type :=
| Finite (r : R)
| PosInf.

(** ** Data model *)

Inductive Severity : Type := none | low | medium | high | critical.

Definition severity_eq_dec (a b : Severity) : {a = b} + {a <> b}.
Proof. decide equality. Defined.

(** [severity_levels] of [check_alerts]. *)
Definition severity_levels (s : Severity) : nat :=
  match s with
  | none => 0 | low => 1 | medium => 2 | high => 3 | critical => 4
  end%nat.

(** A bounding box [(x, y, w, h)]. *)
Definition BBox : Type := (R * R * R * R)%type.

(** The vehicle dictionary that flows from the tracker through the scorer to
    the aggregator.  Keys that the scorer or the caller add later, and that the
    readers fetch with [dict.get(key, default)], are optional. *)
Record VehicleInfo : Type := mkVehicleInfo {
  vi_position : R * R;
  vi_velocity : R * R;
  vi_speed : R;
  vi_distance : option R;
  vi_angle : option R;
  vi_id : nat;
  vi_collision_detected : option bool;
  vi_time_to_collision : option ExtR;
  vi_severity : option Severity;
  vi_view : option string
}.

(** [d.get(key, default)]. *)
Definition get {A : Type} (field : option A) (default : A) : A :=
  match field with Some v => v | None => default end.

(** What [VehicleTracker.get_tracked_vehicles] yields for one track. *)
Record TrackedVehicle : Type := mkTrackedVehicle {
  tv_id : nat;
  tv_position : R * R;
  tv_velocity : R * R;
  tv_speed : R;
  tv_trajectory : list (R * R);
  tv_bbox : BBox
}.

(** ** collision_detector.py *)

Module CollisionDetector.
Import Config.

Record t : Type := mk {
  frame_width : R;
  frame_height : R
}.

Definition frame_center (self : t) : R * R :=
  (frame_width self / 2, frame_height self / 2).

Definition calculate_distance (self : t) (bbox : BBox) (view : string) : R :=
  let '(x, y, w, h) := bbox in
  let pixel_height := h in
  if Rlt_dec 0 pixel_height then
    let distance_pixels := (REAL_VEHICLE_WIDTH * FOCAL_LENGTH) / pixel_height in
    let distance_meters := distance_pixels / PIXELS_PER_METER in
    py_max 1 (py_min distance_meters 200)
  else 100.

(** In exact arithmetic the bearing in degrees lies in (-180, 180], so that
    [angle_deg + 360] stays below 360.  In binary64 that sum rounds, and for a
    tiny negative bearing it is 360.0: see [Binary64.calculate_angle]. *)
Definition calculate_angle (self : t) (bbox : BBox) (view : string) : R :=
  let '(x, y, w, h) := bbox in
  let cx := x + w / 2 in
  let cy := y + h / 2 in
  let dx := cx - fst (frame_center self) in
  let dy := cy - snd (frame_center self) in
  let angle_rad := atan2 dy dx in
  let angle_deg := degrees angle_rad in
  let angle_deg := if Rlt_dec angle_deg 0 then angle_deg + 360 else angle_deg in
  if String.eqb view "front" then angle_deg
  else if String.eqb view "back" then py_mod (angle_deg + 180) 360
  else if String.eqb view "left" then py_mod (angle_deg + 90) 360
  else if String.eqb view "right" then py_mod (angle_deg - 90) 360
  else angle_deg.

(** [actual_speed = max(speed, np.sqrt(vx**2 + vy**2))]. *)
Definition actual_speed_of (speed : R) (velocity : R * R) : R :=
  let '(vx, vy) := velocity in
  let speed_magnitude := sqrt (vx ^ 2 + vy ^ 2) in
  py_max speed speed_magnitude.

Definition angle_from_center_of (view : string) (angle : R) : R :=
  let angle_from_center :=
    if String.eqb view "front" || String.eqb view "back"
    then Rabs (angle - 0) else Rabs (angle - 90) in
  if Rlt_dec 180 angle_from_center then 360 - angle_from_center
  else angle_from_center.

Definition time_to_collision_of (self : t) (position velocity : R * R)
    (distance actual_speed : R) : ExtR :=
  let '(vx, vy) := velocity in
  let dx := fst position - fst (frame_center self) in
  let dy := snd position - snd (frame_center self) in
  let velocity_towards_center := Rltb (vx * dx + vy * dy) 0 in
  if Rltb SPEED_THRESHOLD actual_speed && velocity_towards_center then
    let speed_ms := actual_speed * (1 / 10) in
    if Rlt_dec 0 speed_ms then Finite (distance / speed_ms) else PosInf
  else PosInf.

Definition distance_score (distance : R) : R :=
  if Rle_dec distance CRITICAL_DISTANCE then 1
  else if Rle_dec distance HIGH_DISTANCE then 8 / 10
  else if Rle_dec distance MEDIUM_DISTANCE then 6 / 10
  else if Rle_dec distance LOW_DISTANCE then 4 / 10
  else py_max 0 (1 - (distance - LOW_DISTANCE) / 50).

Definition speed_score (actual_speed : R) : R :=
  if Rle_dec CRITICAL_SPEED actual_speed then 1
  else if Rle_dec HIGH_SPEED actual_speed then 8 / 10
  else if Rle_dec MEDIUM_SPEED actual_speed then 6 / 10
  else if Rle_dec LOW_SPEED actual_speed then 4 / 10
  else actual_speed / LOW_SPEED * (4 / 10).

Definition angle_score (angle_from_center : R) : R :=
  if Rle_dec angle_from_center CRITICAL_ANGLE then 1
  else if Rle_dec angle_from_center HIGH_ANGLE then 8 / 10
  else if Rle_dec angle_from_center MEDIUM_ANGLE then 6 / 10
  else if Rle_dec angle_from_center LOW_ANGLE then 4 / 10
  else py_max 0 (1 - (angle_from_center - LOW_ANGLE) / 60).

Definition combined_score (distance actual_speed angle_from_center : R) : R :=
  distance_score distance * (4 / 10)
  + speed_score actual_speed * (35 / 100)
  + angle_score angle_from_center * (25 / 100).

(** The [if]/[elif] chain that sets [(is_collision, severity)] from the
    thresholds and, failing those, from the combined score. *)
Definition base_severity (distance actual_speed angle_from_center : R)
  : bool * Severity :=
  if Rleb distance CRITICAL_DISTANCE && Rleb LOW_SPEED actual_speed
     && Rleb angle_from_center CRITICAL_ANGLE then (true, critical)
  else if Rleb distance HIGH_DISTANCE && Rleb MEDIUM_SPEED actual_speed
     && Rleb angle_from_center HIGH_ANGLE then (true, high)
  else if Rleb distance MEDIUM_DISTANCE && Rleb LOW_SPEED actual_speed
     && Rleb angle_from_center MEDIUM_ANGLE then (true, medium)
  else if Rleb distance LOW_DISTANCE && Rleb LOW_SPEED actual_speed
     && Rleb angle_from_center LOW_ANGLE then (true, low)
  else
    let score := combined_score distance actual_speed angle_from_center in
    if Rle_dec (7 / 10) score then (true, high)
    else if Rle_dec (5 / 10) score then (true, medium)
    else if Rle_dec (3 / 10) score then (true, low)
    else (false, none).

(** The two "additional checks" that follow the chain. *)
Definition very_close_check (distance : R) (st : bool * Severity)
  : bool * Severity :=
  let '(is_collision, severity) := st in
  if Rle_dec distance (CRITICAL_DISTANCE / 2) then
    (true,
     if severity_eq_dec severity none then high
     else if severity_eq_dec severity low then high
     else if severity_eq_dec severity critical then severity
     else critical)
  else (is_collision, severity).

Definition very_fast_check (distance actual_speed angle_from_center : R)
    (st : bool * Severity) : bool * Severity :=
  let '(is_collision, severity) := st in
  if Rleb CRITICAL_SPEED actual_speed && Rleb distance HIGH_DISTANCE
     && Rleb angle_from_center HIGH_ANGLE
  then (true, if severity_eq_dec severity critical then severity else critical)
  else (is_collision, severity).

Definition escalation_overrides (distance actual_speed angle_from_center : R)
    (st : bool * Severity) : bool * Severity :=
  very_fast_check distance actual_speed angle_from_center
    (very_close_check distance st).

(** Severity and flag as a function of the three quantities they depend on. *)
Definition classify (distance actual_speed angle_from_center : R)
  : bool * Severity :=
  escalation_overrides distance actual_speed angle_from_center
    (base_severity distance actual_speed angle_from_center).

Definition predict_collision (self : t) (vehicle_info : VehicleInfo)
    (view : string) : bool * ExtR * Severity :=
  let position := vi_position vehicle_info in
  let velocity := vi_velocity vehicle_info in
  let speed := vi_speed vehicle_info in
  let distance := get (vi_distance vehicle_info) 100 in
  let angle := get (vi_angle vehicle_info) 0 in
  let actual_speed := actual_speed_of speed velocity in
  let angle_from_center := angle_from_center_of view angle in
  let time_to_collision :=
    time_to_collision_of self position velocity distance actual_speed in
  let '(is_collision, severity) :=
    classify distance actual_speed angle_from_center in
  (is_collision, time_to_collision, severity).

Definition analyze_vehicle (self : t) (bbox : BBox)
    (vehicle_tracker_info : TrackedVehicle) (view : string) : VehicleInfo :=
  let distance := calculate_distance self bbox view in
  let angle := calculate_angle self bbox view in
  let vehicle_info :=
    {| vi_position := tv_position vehicle_tracker_info;
       vi_velocity := tv_velocity vehicle_tracker_info;
       vi_speed := tv_speed vehicle_tracker_info;
       vi_distance := Some distance;
       vi_angle := Some angle;
       vi_id := tv_id vehicle_tracker_info;
       vi_collision_detected := None;
       vi_time_to_collision := None;
       vi_severity := None;
       vi_view := None |} in
  let '(is_collision, time_to_collision, severity) :=
    predict_collision self vehicle_info view in
  {| vi_position := vi_position vehicle_info;
     vi_velocity := vi_velocity vehicle_info;
     vi_speed := vi_speed vehicle_info;
     vi_distance := vi_distance vehicle_info;
     vi_angle := vi_angle vehicle_info;
     vi_id := vi_id vehicle_info;
     vi_collision_detected := Some is_collision;
     vi_time_to_collision := Some time_to_collision;
     vi_severity := Some severity;
     vi_view := None |}.

End CollisionDetector.

(** ** collision_detector.py: [calculate_angle] in binary64

    The same lines over the floats of the machine: every [+], [-], [/] and
    [<] is the IEEE 754 operation that CPython runs.  The integers of a box
    and of a frame size convert to floats without rounding. *)

Module Binary64.
Import PrimFloat.
Local Open Scope float_scope.

Definition FULL_TURN : float := 360.

(** [a < b] on floats. *)
Definition below (a b : float) : bool := a <? b.

(** [math.degrees] of CPython: the product with [180.0 / pi], the float
    57.29577951308232. *)
Definition RAD_TO_DEG : float := 0x1.ca5dc1a63c1f8p+5.
Definition degrees (angle_rad : float) : float := angle_rad * RAD_TO_DEG.

(** [self.frame_center], as [__init__] computes it. *)
Definition frame_center (frame_width frame_height : float) : float * float :=
  (frame_width / 2, frame_height / 2).

Section MathLibrary.
(** [math.atan2] of the C library and the [%] of Python floats. *)
Variable atan2 : float -> float -> float.
Variable py_mod : float -> float -> float.

Definition calculate_angle (frame_center : float * float)
    (bbox : float * float * float * float) (view : string) : float :=
  let '(x, y, w, h) := bbox in
  let cx := x + w / 2 in
  let cy := y + h / 2 in
  let dx := cx - fst frame_center in
  let dy := cy - snd frame_center in
  let angle_rad := atan2 dy dx in
  let angle_deg := degrees angle_rad in
  let angle_deg := if angle_deg <? 0 then angle_deg + 360 else angle_deg in
  if String.eqb view "front" then angle_deg
  else if String.eqb view "back" then py_mod (angle_deg + 180) 360
  else if String.eqb view "left" then py_mod (angle_deg + 90) 360
  else if String.eqb view "right" then py_mod (angle_deg - 90) 360
  else angle_deg.

End MathLibrary.

(** A box whose center lies 1000 pixels right of the center of a 1280 x 720
    frame and 2^-43 pixels above it, and the library at the one place where
    [calculate_angle] calls it for this box: [math.atan2(-2**-43, 1000.0)]
    is -0x1.0624dd2f1a9fcp-53 (about -1.137e-16, the quotient of its
    arguments).  The [%] operator is not reached for a view that is none of
    the four. *)
Definition example_frame_center : float * float := frame_center 1280 720.
Definition example_box : float * float * float * float :=
  (1590, 359 - 0x1p-43, 100, 2).
Definition example_atan2 (y x : float) : float := -0x1.0624dd2f1a9fcp-53.
Definition example_py_mod (a m : float) : float := a.

End Binary64.

(** ** alert_system.py *)

Module AlertSystem.
Import Config.

Record t : Type := mk {
  alert_sound_enabled : bool;
  alert_active : bool;
  current_severity : Severity
}.

(** [severity.upper()]. *)
Definition upper (s : Severity) : string :=
  match s with
  | none => "NONE" | low => "LOW" | medium => "MEDIUM"
  | high => "HIGH" | critical => "CRITICAL"
  end.

(** The two bytes of the degree sign in the messages. *)
Definition degree_sign : string :=
  String (ascii_of_nat 194) (String (ascii_of_nat 176) EmptyString).

(** [sep.join(parts)]. *)
Fixpoint join (sep : string) (parts : list string) : string :=
  match parts with
  | [] => EmptyString
  | [p] => p
  | p :: rest => (p ++ sep ++ join sep rest)%string
  end.

Section Formatting.
(** Python's number formatting: [f"{v:.1f}"] of a float and [f"{v}"] of a
    vehicle id. *)
Variable format_1f : R -> string.
Variable format_id : nat -> string.

Definition distance_factors (distance : R) : list string :=
  if Rle_dec distance CRITICAL_DISTANCE
  then ["CLOSE (Dist: " ++ format_1f distance ++ "m)"]%string
  else if Rle_dec distance HIGH_DISTANCE
  then ["Near (Dist: " ++ format_1f distance ++ "m)"]%string
  else [].

Definition speed_factors (speed : R) : list string :=
  if Rle_dec CRITICAL_SPEED speed
  then ["FAST (Speed: " ++ format_1f speed ++ "px/s)"]%string
  else if Rle_dec HIGH_SPEED speed
  then ["Fast (Speed: " ++ format_1f speed ++ "px/s)"]%string
  else [].

Definition angle_factors (view : string) (angle : R) : list string :=
  let angle_from_center :=
    if String.eqb view "front" || String.eqb view "back"
    then Rabs (angle - 0) else Rabs (angle - 90) in
  let angle_from_center :=
    if Rlt_dec 180 angle_from_center then 360 - angle_from_center
    else angle_from_center in
  if Rle_dec angle_from_center CRITICAL_ANGLE
  then ["DIRECT PATH (Angle: " ++ format_1f angle ++ degree_sign ++ ")"]%string
  else if Rle_dec angle_from_center HIGH_ANGLE
  then ["On Path (Angle: " ++ format_1f angle ++ degree_sign ++ ")"]%string
  else [].

Definition alert_message (vehicle : VehicleInfo) (severity : Severity) : string :=
  let view := get (vi_view vehicle) "unknown"%string in
  let distance := get (vi_distance vehicle) 0 in
  let speed := vi_speed vehicle in
  let angle := get (vi_angle vehicle) 0 in
  let ttc := get (vi_time_to_collision vehicle) PosInf in
  let vehicle_id := vi_id vehicle in
  let factors :=
    distance_factors distance ++ speed_factors speed
    ++ angle_factors view angle in
  let factors_str :=
    match factors with
    | [] => "Risk detected"%string
    | _ => join " | " factors
    end in
  match ttc with
  | Finite ttc =>
      ("Vehicle ID:" ++ format_id vehicle_id ++ " [" ++ upper severity
       ++ "] - " ++ factors_str ++ " | TTC: " ++ format_1f ttc ++ "s")%string
  | PosInf =>
      ("Vehicle ID:" ++ format_id vehicle_id ++ " [" ++ upper severity
       ++ "] - " ++ factors_str)%string
  end.

(** One iteration of the loop of [check_alerts] over
    [(should_alert, max_severity, alert_messages)]. *)
Definition check_vehicle (acc : bool * Severity * list string)
    (vehicle : VehicleInfo) : bool * Severity * list string :=
  let '(should_alert, max_severity, alert_messages) := acc in
  if get (vi_collision_detected vehicle) false then
    let severity := get (vi_severity vehicle) medium in
    let max_severity :=
      if (severity_levels max_severity <? severity_levels severity)%nat
      then severity else max_severity in
    (true, max_severity, alert_messages ++ [alert_message vehicle severity])
  else acc.

Definition check_alerts (self : t) (vehicles_info : list VehicleInfo)
  : (bool * Severity * list string) * t :=
  let '(should_alert, max_severity, alert_messages) :=
    fold_left check_vehicle vehicles_info (false, none, []) in
  ((should_alert, max_severity, alert_messages),
   {| alert_sound_enabled := alert_sound_enabled self;
      alert_active := should_alert;
      current_severity := max_severity |}).

End Formatting.

End AlertSystem.

(** ** Python dictionaries

    A [dict] keeps its keys in insertion order: assigning to a present key
    keeps its place, assigning to a new key appends it, deleting a key leaves
    the order of the others.  [list(d.keys())[i]] depends on that order. *)

Module PyDict.

Definition t (V : Type) : Type := list (nat * V).

Fixpoint lookup {V : Type} (d : t V) (k : nat) : option V :=
  match d with
  | [] => None
  | (k', v) :: rest => if (k' =? k)%nat then Some v else lookup rest k
  end.

Fixpoint set {V : Type} (d : t V) (k : nat) (v : V) : t V :=
  match d with
  | [] => [(k, v)]
  | (k', v') :: rest =>
      if (k' =? k)%nat then (k', v) :: rest else (k', v') :: set rest k v
  end.

Fixpoint del {V : Type} (d : t V) (k : nat) : t V :=
  match d with
  | [] => []
  | (k', v') :: rest =>
      if (k' =? k)%nat then rest else (k', v') :: del rest k
  end.

Definition keys {V : Type} (d : t V) : list nat := map fst d.

End PyDict.

(** ** The Kalman filter of filterpy, as [vehicle_tracker.py] configures it *)

Module Kalman.

Definition Vector : Type := list R.
Definition Matrix : Type := list (list R).

Definition dot (u v : Vector) : R :=
  fold_right Rplus 0 (map (fun p => fst p * snd p) (combine u v)).

Definition mat_vec (A : Matrix) (v : Vector) : Vector :=
  map (fun row => dot row v) A.

Fixpoint transpose (n : nat) (A : Matrix) : Matrix :=
  match n with
  | O => []
  | S n' => map (fun row => hd 0 row) A :: transpose n' (map (@tl R) A)
  end.

Definition mat_mul (n : nat) (A B : Matrix) : Matrix :=
  map (fun row => map (fun col => dot row col) (transpose n B)) A.

Definition mat_add (A B : Matrix) : Matrix :=
  map (fun p => map (fun q => fst q + snd q) (combine (fst p) (snd p)))
      (combine A B).

Definition mat_scale (c : R) (A : Matrix) : Matrix :=
  map (map (Rmult c)) A.

Definition eye4 : Matrix :=
  [[1; 0; 0; 0]; [0; 1; 0; 0]; [0; 0; 1; 0]; [0; 0; 0; 1]].

(** The attributes of a [KalmanFilter(dim_x=4, dim_z=2)] that the tracker
    sets or reads: state [x = [x, y, vx, vy]] and its covariance [P],
    transition [F], measurement function [H], and the noise covariances. *)
Record KalmanFilter : Type := mkKalmanFilter {
  x : Vector;
  P : Matrix;
  F : Matrix;
  H : Matrix;
  R_noise : Matrix;
  Q : Matrix
}.

(** [_create_kalman_filter], followed by the assignment of [kf.x] in
    [_create_tracker]. *)
Definition _create_kalman_filter (x0 : Vector) : KalmanFilter :=
  {| x := x0;
     P := mat_scale 1000 eye4;
     F := [[1; 0; 1; 0]; [0; 1; 0; 1]; [0; 0; 1; 0]; [0; 0; 0; 1]];
     H := [[1; 0; 0; 0]; [0; 1; 0; 0]];
     R_noise := [[5; 0]; [0; 5]];
     Q := mat_scale (3 / 100) eye4 |}.

(** [kf.predict()]: the prediction equations [x = F x], [P = F P F' + Q]. *)
Definition predict (kf : KalmanFilter) : KalmanFilter :=
  {| x := mat_vec (F kf) (x kf);
     P := mat_add (mat_mul 4 (mat_mul 4 (F kf) (P kf)) (transpose 4 (F kf)))
                  (Q kf);
     F := F kf; H := H kf; R_noise := R_noise kf; Q := Q kf |}.

(** [kf.x[i]]. *)
Definition x_at (kf : KalmanFilter) (i : nat) : R := nth i (x kf) 0.

End Kalman.

(** ** vehicle_tracker.py *)

Module VehicleTracker.
Import Kalman.

Record t : Type := mk {
  next_id : nat;
  trackers : PyDict.t KalmanFilter;
  disappeared : PyDict.t nat;
  max_disappeared : nat;
  speeds : PyDict.t (list R);
  positions_history : PyDict.t (list (R * R));
  timestamps : PyDict.t (list R);
  bboxes : PyDict.t BBox
}.

(** [VehicleTracker(max_disappeared)]. *)
Definition init (max_disappeared : nat) : t :=
  {| next_id := 0; trackers := []; disappeared := [];
     max_disappeared := max_disappeared; speeds := [];
     positions_history := []; timestamps := []; bboxes := [] |}.

Definition set_next_id (n : nat) (s : t) : t :=
  mk n (trackers s) (disappeared s) (max_disappeared s) (speeds s)
     (positions_history s) (timestamps s) (bboxes s).
Definition set_trackers (d : PyDict.t KalmanFilter) (s : t) : t :=
  mk (next_id s) d (disappeared s) (max_disappeared s) (speeds s)
     (positions_history s) (timestamps s) (bboxes s).
Definition set_disappeared (d : PyDict.t nat) (s : t) : t :=
  mk (next_id s) (trackers s) d (max_disappeared s) (speeds s)
     (positions_history s) (timestamps s) (bboxes s).
Definition set_speeds (d : PyDict.t (list R)) (s : t) : t :=
  mk (next_id s) (trackers s) (disappeared s) (max_disappeared s) d
     (positions_history s) (timestamps s) (bboxes s).
Definition set_positions_history (d : PyDict.t (list (R * R))) (s : t) : t :=
  mk (next_id s) (trackers s) (disappeared s) (max_disappeared s) (speeds s)
     d (timestamps s) (bboxes s).
Definition set_timestamps (d : PyDict.t (list R)) (s : t) : t :=
  mk (next_id s) (trackers s) (disappeared s) (max_disappeared s) (speeds s)
     (positions_history s) d (bboxes s).
Definition set_bboxes (d : PyDict.t BBox) (s : t) : t :=
  mk (next_id s) (trackers s) (disappeared s) (max_disappeared s) (speeds s)
     (positions_history s) (timestamps s) d.

(** *** Methods as state transformers that may raise *)

Inductive Exception : Type :=
| IndexError
| KeyError
| LoopBound. (* the bound given to [while True] was reached: never raised *)

Inductive Outcome (A : Type) : Type :=
| Returned (a : A) (s : t)
| Raised (e : Exception) (s : t).
Arguments Returned {A} a s.
Arguments Raised {A} e s.

Definition M (A : Type) : Type := t -> Outcome A.

Definition ret {A : Type} (a : A) : M A := fun s => Returned a s.
Definition raise {A : Type} (e : Exception) : M A := fun s => Raised e s.
Definition bind {A B : Type} (m : M A) (k : A -> M B) : M B :=
  fun s => match m s with
           | Returned a s' => k a s'
           | Raised e s' => Raised e s'
           end.
Definition gets {A : Type} (f : t -> A) : M A := fun s => Returned (f s) s.
Definition modify (f : t -> t) : M unit := fun s => Returned tt (f s).

(** The tracker object as the call leaves it, whether it returned or raised. *)
Definition final_state {A : Type} (o : Outcome A) : t :=
  match o with Returned _ s => s | Raised _ s => s end.

Declare Scope tracker_scope.
Delimit Scope tracker_scope with tracker.
Notation "x <- m ;; k" := (bind m (fun x => k))
  (at level 61, m at next level, right associativity) : tracker_scope.
Notation "m ;; k" := (bind m (fun _ => k))
  (at level 61, right associativity) : tracker_scope.
Open Scope tracker_scope.

(** [for a in l: body(a)]. *)
Fixpoint for_each {A : Type} (l : list A) (body : A -> M unit) : M unit :=
  match l with
  | [] => ret tt
  | a :: rest => body a ;; for_each rest body
  end.

(** [l[i]] and [d[k]] raise when the index or key is missing. *)
Definition list_item {A : Type} (l : list A) (i : nat) : M A :=
  match nth_error l i with
  | Some a => ret a
  | None => raise IndexError
  end.

Definition dict_item {V : Type} (d : PyDict.t V) (k : nat) : M V :=
  match PyDict.lookup d k with
  | Some v => ret v
  | None => raise KeyError
  end.

(** [l[-1]]. *)
Definition last_item {A : Type} (l : list A) : M A :=
  match rev l with
  | a :: _ => ret a
  | [] => raise IndexError
  end.

(** [d[k]] on a [defaultdict(list)]: a missing key is first bound to [[]].
    [field] reads the dictionary out of the tracker, [set_field] puts it
    back. *)
Definition default_item {A : Type} (field : t -> PyDict.t (list A))
    (set_field : PyDict.t (list A) -> t -> t) (k : nat) : M (list A) :=
  fun s =>
    match PyDict.lookup (field s) k with
    | Some l => Returned l s
    | None => Returned [] (set_field (PyDict.set (field s) k []) s)
    end.

(** The center [(x + w / 2, y + h / 2)] of a detection. *)
Definition center (detection : BBox) : R * R :=
  let '(x, y, w, h) := detection in (x + w / 2, y + h / 2).

Definition _remove_tracker (object_id : nat) : M unit :=
  modify (fun s => set_trackers (PyDict.del (trackers s) object_id) s) ;;
  modify (fun s => set_disappeared (PyDict.del (disappeared s) object_id) s) ;;
  modify (fun s => set_speeds (PyDict.del (speeds s) object_id) s) ;;
  modify (fun s =>
    set_positions_history (PyDict.del (positions_history s) object_id) s) ;;
  modify (fun s => set_timestamps (PyDict.del (timestamps s) object_id) s) ;;
  modify (fun s => set_bboxes (PyDict.del (bboxes s) object_id) s).

Definition _create_tracker (detection : BBox) (frame_center : R * R)
    (current_time : R) : M unit :=
  let '(cx, cy) := center detection in
  let kf := _create_kalman_filter [cx; cy; 0; 0] in
  object_id <- gets next_id ;;
  modify (fun s => set_next_id (next_id s + 1) s) ;;
  modify (fun s => set_trackers (PyDict.set (trackers s) object_id kf) s) ;;
  modify (fun s => set_disappeared (PyDict.set (disappeared s) object_id 0%nat) s) ;;
  modify (fun s =>
    set_positions_history
      (PyDict.set (positions_history s) object_id [(cx, cy)]) s) ;;
  modify (fun s =>
    set_timestamps (PyDict.set (timestamps s) object_id [current_time]) s) ;;
  modify (fun s => set_speeds (PyDict.set (speeds s) object_id [0]) s) ;;
  modify (fun s => set_bboxes (PyDict.set (bboxes s) object_id detection) s).

(** [self.disappeared[object_id] += 1], then the eviction test: the body
    shared by the two loops that age tracks. *)
Definition age_tracker (object_id : nat) : M unit :=
  count <- (d <- gets disappeared ;; dict_item d object_id) ;;
  modify (fun s =>
    set_disappeared (PyDict.set (disappeared s) object_id (count + 1)%nat) s) ;;
  count <- (d <- gets disappeared ;; dict_item d object_id) ;;
  limit <- gets max_disappeared ;;
  if (limit <? count)%nat then _remove_tracker object_id else ret tt.

Section Filterpy.
(** [kf.update(z)], the measurement update of filterpy, whose result the
    tracker stores without looking into it. *)
Variable kf_update : KalmanFilter -> R * R -> KalmanFilter.

Definition _update_tracker (trk_idx : nat) (detection : BBox)
    (frame_center : R * R) (current_time : R) : M unit :=
  object_id <- (d <- gets trackers ;; list_item (PyDict.keys d) trk_idx) ;;
  kf <- (d <- gets trackers ;; dict_item d object_id) ;;
  let '(cx, cy) := center detection in
  let kf := predict kf in
  let kf := kf_update kf (cx, cy) in
  modify (fun s => set_trackers (PyDict.set (trackers s) object_id kf) s) ;;
  history <- default_item positions_history set_positions_history object_id ;;
  (if (0 <? List.length history)%nat then
     prev <- last_item history ;;
     let '(prev_x, prev_y) := prev in
     prev_time <- (times <- default_item timestamps set_timestamps object_id ;;
                   last_item times) ;;
     let dt := current_time - prev_time in
     if Rlt_dec 0 dt then
       let dx := cx - prev_x in
       let dy := cy - prev_y in
       let speed := sqrt (dx ^ 2 + dy ^ 2) / dt in
       recent <- default_item speeds set_speeds object_id ;;
       let recent := recent ++ [speed] in
       let recent := if (10 <? List.length recent)%nat then tl recent else recent in
       modify (fun s => set_speeds (PyDict.set (speeds s) object_id recent) s)
     else ret tt
   else ret tt) ;;
  history <- default_item positions_history set_positions_history object_id ;;
  modify (fun s =>
    set_positions_history
      (PyDict.set (positions_history s) object_id (history ++ [(cx, cy)])) s) ;;
  times <- default_item timestamps set_timestamps object_id ;;
  modify (fun s =>
    set_timestamps
      (PyDict.set (timestamps s) object_id (times ++ [current_time])) s) ;;
  modify (fun s => set_disappeared (PyDict.set (disappeared s) object_id 0%nat) s) ;;
  modify (fun s => set_bboxes (PyDict.set (bboxes s) object_id detection) s) ;;
  history <- default_item positions_history set_positions_history object_id ;;
  if (30 <? List.length history)%nat then
    modify (fun s =>
      set_positions_history
        (PyDict.set (positions_history s) object_id (tl history)) s) ;;
    times <- default_item timestamps set_timestamps object_id ;;
    match times with
    | [] => raise IndexError
    | _ :: times' =>
        modify (fun s =>
          set_timestamps (PyDict.set (timestamps s) object_id times') s)
    end
  else ret tt.

(** *** Association *)

(** The inner loop over [self.trackers.items()] for one detection: every
    filter is advanced by [kf.predict()] and its distance to the detection
    center appended to the row. *)
Fixpoint cost_row (det_cx det_cy : R) (items : PyDict.t KalmanFilter)
  : list R * PyDict.t KalmanFilter :=
  match items with
  | [] => ([], [])
  | (object_id, kf) :: rest =>
      let kf := predict kf in
      let pred_x := x_at kf 0 in
      let pred_y := x_at kf 1 in
      let distance := sqrt ((det_cx - pred_x) ^ 2 + (det_cy - pred_y) ^ 2) in
      let '(row, rest') := cost_row det_cx det_cy rest in
      (distance :: row, (object_id, kf) :: rest')
  end.

(** The outer loop over the detections. *)
Fixpoint build_cost_matrix (detections : list BBox)
    (items : PyDict.t KalmanFilter) : list (list R) * PyDict.t KalmanFilter :=
  match detections with
  | [] => ([], items)
  | detection :: rest =>
      let '(det_cx, det_cy) := center detection in
      let '(row, items) := cost_row det_cx det_cy items in
      let '(rows, items) := build_cost_matrix rest items in
      (row :: rows, items)
  end.

(** [cost_matrix[det_idx][trk_idx]]; the indices come from
    [range(len(detections))] and [range(len(self.trackers))]. *)
Definition cost_at (cost_matrix : list (list R)) (det_idx trk_idx : nat) : R :=
  nth trk_idx (nth det_idx cost_matrix []) 0.

(** The two nested [for] loops that look for the smallest remaining cost.
    [None] stands for [min_cost = inf, min_det = -1, min_trk = -1]. *)
Definition scan_trks (cost_matrix : list (list R)) (det_idx : nat)
    (unmatched_trks : list nat) (best : option (R * nat * nat))
  : option (R * nat * nat) :=
  fold_left
    (fun best trk_idx =>
       let cost := cost_at cost_matrix det_idx trk_idx in
       match best with
       | None => Some (cost, det_idx, trk_idx)
       | Some (min_cost, _, _) =>
           if Rlt_dec cost min_cost then Some (cost, det_idx, trk_idx)
           else best
       end)
    unmatched_trks best.

Definition scan_min (cost_matrix : list (list R))
    (unmatched_dets unmatched_trks : list nat) : option (R * nat * nat) :=
  fold_left
    (fun best det_idx => scan_trks cost_matrix det_idx unmatched_trks best)
    unmatched_dets None.

(** [l.remove(v)]: drops the first occurrence. *)
Fixpoint list_remove (v : nat) (l : list nat) : list nat :=
  match l with
  | [] => []
  | a :: rest => if (a =? v)%nat then rest else a :: list_remove v rest
  end.

Definition max_distance : R := 100.

(** The [while True] loop, run for at most [fuel] iterations. *)
Fixpoint greedy_loop (fuel : nat) (cost_matrix : list (list R))
    (matched : list (nat * nat)) (unmatched_dets unmatched_trks : list nat)
  : option (list (nat * nat) * list nat * list nat) :=
  match fuel with
  | O => None
  | S fuel' =>
      match scan_min cost_matrix unmatched_dets unmatched_trks with
      | Some (min_cost, min_det, min_trk) =>
          if Rlt_dec min_cost max_distance then
            greedy_loop fuel' cost_matrix (matched ++ [(min_det, min_trk)])
              (list_remove min_det unmatched_dets)
              (list_remove min_trk unmatched_trks)
          else Some (matched, unmatched_dets, unmatched_trks)
      | None => Some (matched, unmatched_dets, unmatched_trks)
      end
  end.

(** The matching part of [_associate_detections_to_trackers], given the
    cost matrix.  Every iteration but the last removes a detection, so
    [len(detections) + 1] iterations are enough. *)
Definition greedy_matching (cost_matrix : list (list R))
    (n_detections n_trackers : nat)
  : option (list (nat * nat) * list nat * list nat) :=
  let matched := [] in
  let unmatched_dets := seq 0 n_detections in
  let unmatched_trks := seq 0 n_trackers in
  if (0 <? List.length cost_matrix)%nat && (0 <? List.length (hd [] cost_matrix))%nat
  then greedy_loop (S n_detections) cost_matrix matched
         unmatched_dets unmatched_trks
  else Some (matched, unmatched_dets, unmatched_trks).

Definition _associate_detections_to_trackers (detections : list BBox)
    (frame_center : R * R) (current_time : R)
  : M (list (nat * nat) * list nat * list nat) :=
  items <- gets trackers ;;
  if (List.length items =? 0)%nat then
    ret ([], seq 0 (List.length detections), [])
  else
    let '(cost_matrix, items) := build_cost_matrix detections items in
    modify (set_trackers items) ;;
    n_trackers <- gets (fun s => List.length (trackers s)) ;;
    match greedy_matching cost_matrix (List.length detections) n_trackers with
    | Some result => ret result
    | None => raise LoopBound
    end.

(** *** update *)

(** [current_time] is the reading of [time.time()] at the call. *)
Definition update (detections : list BBox) (frame_center : R * R)
    (current_time : R) : M unit :=
  if (List.length detections =? 0)%nat then
    ids <- gets (fun s => PyDict.keys (disappeared s)) ;;
    for_each ids age_tracker
  else
    items <- gets trackers ;;
    if (List.length items =? 0)%nat then
      for_each detections
        (fun detection => _create_tracker detection frame_center current_time)
    else
      r <- _associate_detections_to_trackers detections frame_center
             current_time ;;
      let '(matched, unmatched_dets, unmatched_trks) := r in
      for_each matched
        (fun '(det_idx, trk_idx) =>
           detection <- list_item detections det_idx ;;
           _update_tracker trk_idx detection frame_center current_time) ;;
      for_each unmatched_dets
        (fun det_idx =>
           detection <- list_item detections det_idx ;;
           _create_tracker detection frame_center current_time) ;;
      for_each unmatched_trks
        (fun trk_idx =>
           object_id <- (d <- gets trackers ;;
                         list_item (PyDict.keys d) trk_idx) ;;
           age_tracker object_id).

End Filterpy.

(** *** get_tracked_vehicles *)

(** [np.mean(l)] of a non-empty list. *)
Definition mean (l : list R) : R := fold_right Rplus 0 l / INR (List.length l).

(** [int(r)]: truncation towards zero. *)
Definition py_int (r : R) : R :=
  if Rle_dec 0 r then IZR (Int_part r) else - IZR (Int_part (- r)).

Definition tracked_vehicle (object_id : nat) (kf : KalmanFilter)
  : M (option TrackedVehicle) :=
  gone <- gets disappeared ;;
  match PyDict.lookup gone object_id with
  | Some (S _) => ret None
  | _ =>
      let '(x, y) := (x_at kf 0, x_at kf 1) in
      let '(vx, vy) := (x_at kf 2, x_at kf 3) in
      recent <- default_item speeds set_speeds object_id ;;
      let avg_speed := match recent with [] => 0 | _ => mean recent end in
      histories <- gets positions_history ;;
      let trajectory := get (PyDict.lookup histories object_id) [] in
      boxes <- gets bboxes ;;
      let bbox :=
        get (PyDict.lookup boxes object_id)
            (py_int (x - 50), py_int (y - 50), 100, 100) in
      ret (Some {| tv_id := object_id; tv_position := (x, y);
                   tv_velocity := (vx, vy); tv_speed := avg_speed;
                   tv_trajectory := trajectory; tv_bbox := bbox |})
  end.

Fixpoint collect_vehicles (items : PyDict.t KalmanFilter)
  : M (list TrackedVehicle) :=
  match items with
  | [] => ret []
  | (object_id, kf) :: rest =>
      v <- tracked_vehicle object_id kf ;;
      vs <- collect_vehicles rest ;;
      ret (match v with Some v => v :: vs | None => vs end)
  end.

Definition get_tracked_vehicles : M (list TrackedVehicle) :=
  items <- gets trackers ;;
  collect_vehicles items.

End VehicleTracker.

(** ** run_detection.py: from the results of the model to [vehicles_info] *)

Module VehicleCollisionDetectionSystem.

(** [config.VEHICLE_CLASSES]: car, motorcycle, bus, truck. *)
Definition VEHICLE_CLASSES : list R := [2; 3; 5; 7].

(** What [_detect_vehicles] reads of one box of a result: [box.cls[0]],
    [box.conf[0]] and [box.xyxy[0]]. *)
Record Box : Type := mkBox {
  box_cls : R;
  box_conf : R;
  box_xyxy : R * R * R * R
}.

(** [result.boxes] of one result of the model, which may be [None]. *)
Definition Result : Type := option (list Box).

Definition Reqb (a b : R) : bool := if Req_dec_T a b then true else false.

(** The body of the loop over the boxes of a result: the detection that it
    appends for [box], if any. *)
Definition box_detection (box : Box) : option BBox :=
  let cls := VehicleTracker.py_int (box_cls box) in
  if existsb (Reqb cls) VEHICLE_CLASSES then
    let '(x1, y1, x2, y2) := box_xyxy box in
    let '(x, y, w, h) :=
      (VehicleTracker.py_int x1, VehicleTracker.py_int y1,
       VehicleTracker.py_int (x2 - x1), VehicleTracker.py_int (y2 - y1)) in
    if Rltb 0 w && Rltb 0 h && Rleb 0 x && Rleb 0 y then Some (x, y, w, h)
    else None
  else None.

Fixpoint boxes_detections (boxes : list Box) : list BBox :=
  match boxes with
  | [] => []
  | box :: rest =>
      match box_detection box with
      | Some detection => detection :: boxes_detections rest
      | None => boxes_detections rest
      end
  end.

(** [vehicle_info['view'] = view]. *)
Definition set_view (view : string) (vehicle_info : VehicleInfo) : VehicleInfo :=
  {| vi_position := vi_position vehicle_info;
     vi_velocity := vi_velocity vehicle_info;
     vi_speed := vi_speed vehicle_info;
     vi_distance := vi_distance vehicle_info;
     vi_angle := vi_angle vehicle_info;
     vi_id := vi_id vehicle_info;
     vi_collision_detected := vi_collision_detected vehicle_info;
     vi_time_to_collision := vi_time_to_collision vehicle_info;
     vi_severity := vi_severity vehicle_info;
     vi_view := Some view |}.

Section Pipeline.
(** The frames of OpenCV, which this code hands on without looking into
    them. *)
Variable Frame : Type.
(** [self._draw_detections], which draws on the frame and changes none of its
    other arguments. *)
Variable _draw_detections :
  Frame -> list BBox -> list TrackedVehicle -> list VehicleInfo -> string -> Frame.
Variable kf_update : Kalman.KalmanFilter -> R * R -> Kalman.KalmanFilter.

(** [model] is [self.model]; called on a frame it yields its results, or
    [None] when the call raises, which the [except] clause turns into no
    detections. *)
Definition _detect_vehicles (model : option (Frame -> option (list Result)))
    (frame : Frame) : list BBox :=
  match model with
  | None => []
  | Some run =>
      match run frame with
      | Some results =>
          flat_map (fun result : Result =>
                      match result with
                      | Some boxes =>
                          if (0 <? List.length boxes)%nat
                          then boxes_detections boxes else []
                      | None => []
                      end)
                   results
      | None => []
      end
  end.

(** [_process_view] for one view: [frame_size] is [self.frame_sizes[view]],
    [collision_detector] is [self.collision_detectors[view]] and the state is
    the tracker [self.trackers[view]].  A tracked vehicle always carries its
    'bbox', so the default box of the loop is never built. *)
Definition _process_view (model : option (Frame -> option (list Result)))
    (frame_size : R * R) (collision_detector : CollisionDetector.t)
    (frame : option Frame) (view : string) (current_time : R)
  : VehicleTracker.M (option Frame * list VehicleInfo) :=
  match frame with
  | None => VehicleTracker.ret (None, [])
  | Some frame =>
      let detections := _detect_vehicles model frame in
      let '(w, h) := frame_size in
      VehicleTracker.bind
        (VehicleTracker.update kf_update detections (w / 2, h / 2) current_time)
        (fun _ =>
           VehicleTracker.bind VehicleTracker.get_tracked_vehicles
             (fun tracked_vehicles =>
                let vehicles_info :=
                  map (fun vehicle_tracker_info =>
                         set_view view
                           (CollisionDetector.analyze_vehicle collision_detector
                              (tv_bbox vehicle_tracker_info)
                              vehicle_tracker_info view))
                      tracked_vehicles in
                let frame :=
                  _draw_detections frame detections tracked_vehicles
                    vehicles_info view in
                VehicleTracker.ret (Some frame, vehicles_info)))
  end.

End Pipeline.

End VehicleCollisionDetectionSystem.

(** ** input_handler.py: reading frames *)

Module InputHandler.

Section Capture.
(** The frames and the [cv2.VideoCapture] objects of OpenCV, with the two
    calls that the handler makes on a capture while frames are read:
    [cap.read()], which yields [(ret, frame)] and moves the capture on, and
    [cap.set(cv2.CAP_PROP_POS_FRAMES, 0)]. *)
Variable Frame : Type.
Variable Capture : Type.
Variable cap_read : Capture -> bool * option Frame * Capture.
Variable cap_rewind : Capture -> Capture.

Record t : Type := mk {
  input_type : string;
  cap : option Capture;
  is_image : bool;
  is_video : bool;
  is_live : bool;
  image : option Frame;
  frame_count : Z;
  total_frames : Z;
  fps : R
}.

Definition set_frame_count (n : Z) (self : t) : t :=
  mk (input_type self) (cap self) (is_image self) (is_video self)
     (is_live self) (image self) n (total_frames self) (fps self).

Definition set_cap (c : option Capture) (self : t) : t :=
  mk (input_type self) c (is_image self) (is_video self) (is_live self)
     (image self) (frame_count self) (total_frames self) (fps self).

(** [read]: [None] stands for the [AttributeError] of a call on [None], when
    the image or the capture is missing. *)
Definition read (self : t) : option (bool * option Frame * t) :=
  if is_image self then
    if (frame_count self =? 0)%Z then
      match image self with
      | Some img => Some (true, Some img, set_frame_count 1 self)
      | None => None
      end
    else Some (false, None, self)
  else if is_video self || is_live self then
    match cap self with
    | Some c =>
        let '(ret, frame, c') := cap_read c in
        let self := set_cap (Some c') self in
        Some (ret, frame,
              if ret then set_frame_count (frame_count self + 1) self else self)
    | None => None
    end
  else Some (false, None, self).

Definition get_frame_number (self : t) : Z := frame_count self.

Definition get_total_frames (self : t) : Z := total_frames self.

Definition is_finished (self : t) : bool :=
  if is_image self then (0 <? frame_count self)%Z
  else if is_video self then (total_frames self <=? frame_count self)%Z
  else if is_live self then false
  else true.

Definition reset (self : t) : t :=
  if is_image self then set_frame_count 0 self
  else
    match is_video self, cap self with
    | true, Some c => set_frame_count 0 (set_cap (Some (cap_rewind c)) self)
    | _, _ => self
    end.

Definition release (self : t) : t := set_cap None self.

End Capture.

Arguments input_type {Frame Capture} _.
Arguments cap {Frame Capture} _.
Arguments is_image {Frame Capture} _.
Arguments is_video {Frame Capture} _.
Arguments is_live {Frame Capture} _.
Arguments image {Frame Capture} _.
Arguments frame_count {Frame Capture} _.
Arguments total_frames {Frame Capture} _.
Arguments fps {Frame Capture} _.
Arguments set_frame_count {Frame Capture} n self.
Arguments set_cap {Frame Capture} c self.
Arguments read {Frame Capture} cap_read self.
Arguments is_finished {Frame Capture} self.
Arguments reset {Frame Capture} cap_rewind self.
Arguments release {Frame Capture} self.

End InputHandler.

(** * Vocabulary of the properties *)

(** [clamp(v, lo, hi)] as the specification writes it. *)
Definition clamp (v lo hi : R) : R := Rmax lo (Rmin v hi).

(** The bearing of the box center seen from the frame center, in degrees,
    brought into [0, 360) by adding a full turn to negative values. *)
Definition normalized_bearing (self : CollisionDetector.t) (bbox : BBox) : R :=
  let '(x, y, w, h) := bbox in
  let b := degrees (atan2 (y + h / 2 - CollisionDetector.frame_height self / 2)
                          (x + w / 2 - CollisionDetector.frame_width self / 2)) in
  if Rlt_dec b 0 then b + 360 else b.

(** The order [none < low < medium < high < critical]. *)
Definition rank_le (a b : Severity) : Prop :=
  (severity_levels a <= severity_levels b)%nat.

(** The greater of two severities, and the greatest of a list ([none] when it
    is empty). *)
Definition severity_max (a b : Severity) : Severity :=
  if (severity_levels a <? severity_levels b)%nat then b else a.

Definition max_severity_of (l : list Severity) : Severity :=
  fold_right severity_max none l.

(** A record is flagged when its [collision_detected] entry is true. *)
Definition flagged (v : VehicleInfo) : bool := get (vi_collision_detected v) false.

(** The severity that [check_alerts] reads from a record. *)
Definition recorded_severity (v : VehicleInfo) : Severity :=
  get (vi_severity v) medium.

(** A scored record with the given flag and severity. *)
Definition scored_vehicle (is_collision : bool) (severity : Severity)
  : VehicleInfo :=
  {| vi_position := (640, 360); vi_velocity := (0, 0); vi_speed := 0;
     vi_distance := Some 8; vi_angle := Some 0; vi_id := 0;
     vi_collision_detected := Some is_collision;
     vi_time_to_collision := Some PosInf;
     vi_severity := Some severity; vi_view := Some "front"%string |}.

(** The three quantities on which [predict_collision] grades a vehicle. *)
Definition graded_distance (vehicle_info : VehicleInfo) : R :=
  get (vi_distance vehicle_info) 100.
Definition graded_speed (vehicle_info : VehicleInfo) : R :=
  CollisionDetector.actual_speed_of (vi_speed vehicle_info)
    (vi_velocity vehicle_info).
Definition graded_angle (vehicle_info : VehicleInfo) (view : string) : R :=
  CollisionDetector.angle_from_center_of view (get (vi_angle vehicle_info) 0).

(** Flag and severity of the result of [predict_collision]. *)
Definition verdict (r : bool * ExtR * Severity) : bool * Severity :=
  let '(is_collision, _, severity) := r in (is_collision, severity).

(** The two escalation overrides applied once more to a verdict of
    [predict_collision] on the same vehicle. *)
Definition override_again (vehicle_info : VehicleInfo) (view : string)
    (v : bool * Severity) : bool * Severity :=
  CollisionDetector.escalation_overrides (graded_distance vehicle_info)
    (graded_speed vehicle_info) (graded_angle vehicle_info view) v.

Definition severity_of (r : bool * ExtR * Severity) : Severity := snd (verdict r).

(** A vehicle record with the given distance, tracked speed and angle, at rest
    at the frame center of the example. *)
Definition vehicle_at (distance speed angle : R) : VehicleInfo :=
  {| vi_position := (640, 360); vi_velocity := (0, 0); vi_speed := speed;
     vi_distance := Some distance; vi_angle := Some angle; vi_id := 0;
     vi_collision_detected := None; vi_time_to_collision := None;
     vi_severity := None; vi_view := None |}.

(** The example of the specification: a 1280 x 720 frame, the box
    (500, 300, 80, 160), and the vehicle record of a track on its first tick. *)
Definition example_detector : CollisionDetector.t :=
  CollisionDetector.mk 1280 720.
Definition example_bbox : BBox := (500, 300, 80, 160).

(** The vehicles that [get_tracked_vehicles] reports right after a fresh
    tracker has created the track of the example box (what [update] does with
    the first detection list), and the flag and severity that [analyze_vehicle]
    gives each of them in view 'front'. *)
Definition first_tick_vehicles : list TrackedVehicle :=
  match
    VehicleTracker.bind
      (VehicleTracker._create_tracker example_bbox
         (CollisionDetector.frame_center example_detector) 0)
      (fun _ => VehicleTracker.get_tracked_vehicles)
      (VehicleTracker.init 30)
  with
  | VehicleTracker.Returned vehicles _ => vehicles
  | VehicleTracker.Raised _ _ => []
  end.

Definition first_tick_verdict (vehicle : TrackedVehicle)
  : option bool * option Severity :=
  let info :=
    CollisionDetector.analyze_vehicle example_detector (tv_bbox vehicle)
      vehicle "front" in
  (vi_collision_detected info, vi_severity info).

(** ** Vocabulary of the tracker *)

(** The cost matrix that the association step builds. *)
Definition association_costs (detections : list BBox) (self : VehicleTracker.t)
  : list (list R) :=
  fst (VehicleTracker.build_cost_matrix detections (VehicleTracker.trackers self)).

(** The ids of the live tracks, in the order of the dictionary. *)
Definition live_ids (self : VehicleTracker.t) : list nat :=
  PyDict.keys (VehicleTracker.trackers self).

Section Runs.
Variable kf_update : Kalman.KalmanFilter -> R * R -> Kalman.KalmanFilter.

(** The tracker after one more call of [update], returned or raised. *)
Definition after_update (self : VehicleTracker.t) (detections : list BBox)
    (frame_center : R * R) (current_time : R) : VehicleTracker.t :=
  VehicleTracker.final_state
    (VehicleTracker.update kf_update detections frame_center current_time self).

(** The trackers that a sequence of calls of [update] can reach from a new
    [VehicleTracker]. *)
Inductive reachable : VehicleTracker.t -> Prop :=
| reachable_init (max_disappeared : nat) :
    reachable (VehicleTracker.init max_disappeared)
| reachable_update (self : VehicleTracker.t) (detections : list BBox)
    (frame_center : R * R) (current_time : R) :
    reachable self ->
    reachable (after_update self detections frame_center current_time).

(** [later self self']: some calls of [update], maybe none, lead from [self]
    to [self']. *)
Inductive later (self : VehicleTracker.t) : VehicleTracker.t -> Prop :=
| later_now : later self self
| later_update (self' : VehicleTracker.t) (detections : list BBox)
    (frame_center : R * R) (current_time : R) :
    later self self' ->
    later self (after_update self' detections frame_center current_time).

End Runs.

(** The ids in use are distinct and below the counter. *)
Definition ids_fresh (self : VehicleTracker.t) : Prop :=
  NoDup (live_ids self)
  /\ forall id, In id (live_ids self) -> (id < VehicleTracker.next_id self)%nat.

(** From [self] to [self'] the counter does not go back, a live id of [self']
    was live in [self] or was drawn from the counter since, and [ids_fresh]
    is kept. *)
Definition grows (self self' : VehicleTracker.t) : Prop :=
  (VehicleTracker.next_id self <= VehicleTracker.next_id self')%nat
  /\ (forall id, In id (live_ids self') ->
        In id (live_ids self) \/ (VehicleTracker.next_id self <= id)%nat)
  /\ (ids_fresh self -> ids_fresh self').

(** A method keeps the ids in order when every call of it does. *)
Definition keeps {A : Type} (m : VehicleTracker.M A) : Prop :=
  forall self, grows self (VehicleTracker.final_state (m self)).

(** The Euclidean distance from a point to the position of a filter. *)
Definition distance_to (p : R * R) (kf : Kalman.KalmanFilter) : R :=
  sqrt ((fst p - Kalman.x_at kf 0) ^ 2 + (snd p - Kalman.x_at kf 1) ^ 2).

(** Three boxes more than the gate apart from one another. *)
Definition box_a : BBox := (0, 0, 10, 10).
Definition box_b : BBox := (300, 0, 10, 10).
Definition box_c : BBox := (0, 400, 10, 10).

Section Scenarios.
Variable kf_update : Kalman.KalmanFilter -> R * R -> Kalman.KalmanFilter.

(** A tracker with the default [max_disappeared = 30]: one tick creates the
    tracks 0 and 1 from [box_a] and [box_b], and thirty ticks without
    detections age both to 30. *)
Definition aged_pair : VehicleTracker.t :=
  Nat.iter 30
    (fun self => after_update kf_update self [] (640, 360) 1)
    (after_update kf_update (VehicleTracker.init 30) [box_a; box_b]
       (640, 360) 0).

(** The next tick sees one detection, far from both tracks. *)
Definition after_far_detection : VehicleTracker.t :=
  after_update kf_update aged_pair [box_c] (640, 360) 2.

End Scenarios.

(** A track at (100, 100) that moves 10 pixels to the right on every tick, in
    a tracker of its own, and two detections on its way: at (110, 100), where
    it is after one tick, and at (120, 100), where it is after two. *)
Definition moving_filter : Kalman.KalmanFilter :=
  Kalman._create_kalman_filter [100; 100; 10; 0].
Definition moving_track : VehicleTracker.t :=
  VehicleTracker.mk 1 [(0%nat, moving_filter)] [(0%nat, 0%nat)] 30
    [(0%nat, [0; 10])] [(0%nat, [(90, 100); (100, 100)])]
    [(0%nat, [0; 1])] [(0%nat, (95, 95, 10, 10))].
Definition box_one_ahead : BBox := (105, 95, 10, 10).
Definition box_two_ahead : BBox := (115, 95, 10, 10).

(** ** Vocabulary of the further properties *)

(** A record as the pipeline hands it to [check_alerts]: flag and severity
    are present and agree. *)
Definition scored (v : VehicleInfo) : Prop :=
  exists is_collision severity,
    vi_collision_detected v = Some is_collision
    /\ vi_severity v = Some severity
    /\ (is_collision = true <-> severity <> none).

(** The costs of the matched pairs, in the order in which they were matched. *)
Definition matched_costs (cost_matrix : list (list R))
    (matched : list (nat * nat)) : list R :=
  map (fun pair => VehicleTracker.cost_at cost_matrix (fst pair) (snd pair))
      matched.

(** [below best x]: the scan holds an entry that is at most [x]. *)
Definition below (best : option (R * nat * nat)) (x : R) : Prop :=
  exists c d t, best = Some (c, d, t) /\ c <= x.

(** What the loop keeps true of [(matched, unmatched_dets, unmatched_trks)]:
    matched and unmatched indices together are the indices it started from,
    the matched costs ascend, and none of them exceeds the cost of a pair
    that is still unmatched. *)
Definition greedy_state (cost_matrix : list (list R)) (all_dets all_trks : list nat)
    (matched : list (nat * nat)) (unmatched_dets unmatched_trks : list nat)
  : Prop :=
  Permutation (map fst matched ++ unmatched_dets) all_dets
  /\ Permutation (map snd matched ++ unmatched_trks) all_trks
  /\ StronglySorted Rle (matched_costs cost_matrix matched)
  /\ forall c d t, In c (matched_costs cost_matrix matched) ->
       In d unmatched_dets -> In t unmatched_trks ->
       c <= VehicleTracker.cost_at cost_matrix d t.

(** ** Well-formed trackers *)

(** The six dictionaries of the tracker hold the same ids in the same order. *)
Definition synced (self : VehicleTracker.t) : Prop :=
  PyDict.keys (VehicleTracker.disappeared self) = live_ids self
  /\ PyDict.keys (VehicleTracker.speeds self) = live_ids self
  /\ PyDict.keys (VehicleTracker.positions_history self) = live_ids self
  /\ PyDict.keys (VehicleTracker.timestamps self) = live_ids self
  /\ PyDict.keys (VehicleTracker.bboxes self) = live_ids self.

(** Every position history has between 1 and 30 entries and as many
    timestamps; every speed history has between 1 and 10 entries, none
    negative. *)
Definition histories_bounded (self : VehicleTracker.t) : Prop :=
  (forall id h, PyDict.lookup (VehicleTracker.positions_history self) id = Some h ->
     (1 <= List.length h <= 30)%nat
     /\ exists ts, PyDict.lookup (VehicleTracker.timestamps self) id = Some ts
                   /\ List.length ts = List.length h)
  /\ (forall id sp, PyDict.lookup (VehicleTracker.speeds self) id = Some sp ->
        (1 <= List.length sp <= 10)%nat /\ Forall (Rle 0) sp).

Definition well_formed (self : VehicleTracker.t) : Prop :=
  ids_fresh self /\ synced self /\ histories_bounded self.

(** [triple P m Q E]: from a tracker that satisfies [P], the call [m] either
    returns [a] and leaves a tracker with [Q a], or raises [e] and leaves a
    tracker with [E e]. *)
Definition triple {A : Type} (P : VehicleTracker.t -> Prop)
    (m : VehicleTracker.M A) (Q : A -> VehicleTracker.t -> Prop)
    (E : VehicleTracker.Exception -> VehicleTracker.t -> Prop) : Prop :=
  forall self, P self ->
    match m self with
    | VehicleTracker.Returned a self' => Q a self'
    | VehicleTracker.Raised e self' => E e self'
    end.

(** The tracker after [_create_tracker] and after [_remove_tracker]. *)
Definition created (self : VehicleTracker.t) (detection : BBox)
    (current_time : R) : VehicleTracker.t :=
  let id := VehicleTracker.next_id self in
  let c := VehicleTracker.center detection in
  VehicleTracker.mk (id + 1)
    (PyDict.set (VehicleTracker.trackers self) id
       (Kalman._create_kalman_filter [fst c; snd c; 0; 0]))
    (PyDict.set (VehicleTracker.disappeared self) id 0%nat)
    (VehicleTracker.max_disappeared self)
    (PyDict.set (VehicleTracker.speeds self) id [0])
    (PyDict.set (VehicleTracker.positions_history self) id [c])
    (PyDict.set (VehicleTracker.timestamps self) id [current_time])
    (PyDict.set (VehicleTracker.bboxes self) id detection).

Definition removed (self : VehicleTracker.t) (object_id : nat)
  : VehicleTracker.t :=
  VehicleTracker.mk (VehicleTracker.next_id self)
    (PyDict.del (VehicleTracker.trackers self) object_id)
    (PyDict.del (VehicleTracker.disappeared self) object_id)
    (VehicleTracker.max_disappeared self)
    (PyDict.del (VehicleTracker.speeds self) object_id)
    (PyDict.del (VehicleTracker.positions_history self) object_id)
    (PyDict.del (VehicleTracker.timestamps self) object_id)
    (PyDict.del (VehicleTracker.bboxes self) object_id).

(** The counter of track [id], 0 when it has none. *)
Definition count_of (self : VehicleTracker.t) (id : nat) : nat :=
  get (PyDict.lookup (VehicleTracker.disappeared self) id) 0%nat.

(** Track [id] outlives one more tick on which it is not seen. *)
Definition survives (self : VehicleTracker.t) (id : nat) : bool :=
  (count_of self id + 1 <=? VehicleTracker.max_disappeared self)%nat.

(** What the tracker holds for track [id] besides its counter. *)
Definition track_record (self : VehicleTracker.t) (id : nat)
  : option Kalman.KalmanFilter * option (list R) * option (list (R * R))
    * option (list R) * option BBox :=
  (PyDict.lookup (VehicleTracker.trackers self) id,
   PyDict.lookup (VehicleTracker.speeds self) id,
   PyDict.lookup (VehicleTracker.positions_history self) id,
   PyDict.lookup (VehicleTracker.timestamps self) id,
   PyDict.lookup (VehicleTracker.bboxes self) id).

(** Track [id] is reported by [get_tracked_vehicles]: its counter is not
    positive. *)
Definition shown (self : VehicleTracker.t) (id : nat) : bool :=
  match PyDict.lookup (VehicleTracker.disappeared self) id with
  | Some (S _) => false
  | _ => true
  end.

(** [same_except id d d']: the dictionaries have the same keys in the same
    order and the same values but for key [id]. *)
Definition same_except {V : Type} (id : nat) (d d' : PyDict.t V) : Prop :=
  PyDict.keys d' = PyDict.keys d
  /\ forall id', id' <> id -> PyDict.lookup d' id' = PyDict.lookup d id'.

(** The tracker [self'] is [self] but for what it holds for track [id]. *)
Definition same_but_track (id : nat) (self self' : VehicleTracker.t) : Prop :=
  VehicleTracker.next_id self' = VehicleTracker.next_id self
  /\ VehicleTracker.max_disappeared self' = VehicleTracker.max_disappeared self
  /\ same_except id (VehicleTracker.trackers self) (VehicleTracker.trackers self')
  /\ same_except id (VehicleTracker.disappeared self)
       (VehicleTracker.disappeared self')
  /\ same_except id (VehicleTracker.speeds self) (VehicleTracker.speeds self')
  /\ same_except id (VehicleTracker.positions_history self)
       (VehicleTracker.positions_history self')
  /\ same_except id (VehicleTracker.timestamps self)
       (VehicleTracker.timestamps self')
  /\ same_except id (VehicleTracker.bboxes self) (VehicleTracker.bboxes self').

(** The histories of track [id] are within their bounds. *)
Definition track_bounded (id : nat) (self : VehicleTracker.t) : Prop :=
  exists h ts sp,
    PyDict.lookup (VehicleTracker.positions_history self) id = Some h
    /\ PyDict.lookup (VehicleTracker.timestamps self) id = Some ts
    /\ PyDict.lookup (VehicleTracker.speeds self) id = Some sp
    /\ (1 <= List.length h <= 30)%nat /\ List.length ts = List.length h
    /\ (1 <= List.length sp <= 10)%nat /\ Forall (Rle 0) sp.

(** The tracker after the association step for [detections]: every filter
    has been advanced once for each detection and nothing else has changed. *)
Definition after_association (detections : list BBox)
    (self self' : VehicleTracker.t) : Prop :=
  VehicleTracker.trackers self'
  = map (fun item =>
           (fst item,
            Nat.iter (List.length detections) Kalman.predict (snd item)))
        (VehicleTracker.trackers self)
  /\ VehicleTracker.next_id self' = VehicleTracker.next_id self
  /\ VehicleTracker.disappeared self' = VehicleTracker.disappeared self
  /\ VehicleTracker.max_disappeared self' = VehicleTracker.max_disappeared self
  /\ VehicleTracker.speeds self' = VehicleTracker.speeds self
  /\ VehicleTracker.positions_history self'
     = VehicleTracker.positions_history self
  /\ VehicleTracker.timestamps self' = VehicleTracker.timestamps self
  /\ VehicleTracker.bboxes self' = VehicleTracker.bboxes self.

(** The tracker with the counter of track [id] raised by one. *)
Definition aged (self : VehicleTracker.t) (id count : nat) : VehicleTracker.t :=
  VehicleTracker.set_disappeared
    (PyDict.set (VehicleTracker.disappeared self) id (count + 1)%nat) self.

(** Every box that the tracker stores satisfies [P]. *)
Definition boxes_satisfy (P : BBox -> Prop) (self : VehicleTracker.t) : Prop :=
  forall id bbox,
    PyDict.lookup (VehicleTracker.bboxes self) id = Some bbox -> P bbox.

Definition kept (P : BBox -> Prop) (self : VehicleTracker.t) : Prop :=
  well_formed self /\ boxes_satisfy P self.

(** [IndexError], raised from a tracker that still satisfies [J]. *)
Definition index_error_keeping (J : VehicleTracker.t -> Prop)
    (e : VehicleTracker.Exception) (self : VehicleTracker.t) : Prop :=
  e = VehicleTracker.IndexError /\ J self.

(** A box as [_detect_vehicles] lets it through: whole-number coordinates,
    not left of or above the frame origin, at least one pixel wide and
    tall. *)
Definition valid_box (bbox : BBox) : Prop :=
  let '(x, y, w, h) := bbox in
  (exists zx zy zw zh, x = IZR zx /\ y = IZR zy /\ w = IZR zw /\ h = IZR zh)
  /\ 0 <= x /\ 0 <= y /\ 1 <= w /\ 1 <= h.

(** ** Vocabulary of the input handler *)

(** The handler after [n] calls of [read], as long as none of them fails. *)
Fixpoint after_reads {Frame Capture : Type}
    (cap_read : Capture -> bool * option Frame * Capture) (n : nat)
    (self : InputHandler.t Frame Capture)
  : option (InputHandler.t Frame Capture) :=
  match n with
  | O => Some self
  | S n' =>
      match InputHandler.read cap_read self with
      | Some (_, _, self') => after_reads cap_read n' self'
      | None => None
      end
  end.

(** An image handler as [_initialize_image] leaves it, and a camera handler
    as [_initialize_live] leaves it; the camera of the example yields the
    same frame for ever. *)
Definition image_handler (img : nat) : InputHandler.t nat unit :=
  InputHandler.mk nat unit "image" None true false false (Some img) 0 1 30.
Definition live_handler : InputHandler.t nat unit :=
  InputHandler.mk nat unit "live" (Some tt) false false true None 0 (-1) 30.
Definition steady_camera (c : unit) : bool * option nat * unit :=
  (true, Some 0%nat, c).

(** * Properties of the collision scorer *)

Ltac unfold_config :=
  unfold Config.CRITICAL_DISTANCE, Config.HIGH_DISTANCE, Config.MEDIUM_DISTANCE,
    Config.LOW_DISTANCE, Config.CRITICAL_SPEED, Config.HIGH_SPEED,
    Config.MEDIUM_SPEED, Config.LOW_SPEED, Config.CRITICAL_ANGLE,
    Config.HIGH_ANGLE, Config.MEDIUM_ANGLE, Config.LOW_ANGLE,
    Config.SPEED_THRESHOLD, Config.FOCAL_LENGTH, Config.REAL_VEHICLE_WIDTH,
    Config.PIXELS_PER_METER in *.

(** Decides the comparisons of the goal, innermost first, by linear
    arithmetic. *)
Ltac plain_real a :=
  lazymatch a with
  | context [Rle_dec] => fail
  | context [Rlt_dec] => fail
  | _ => idtac
  end.

Ltac decide_reals :=
  repeat match goal with
  | |- context [Rle_dec ?a ?b] =>
      plain_real a; plain_real b; destruct (Rle_dec a b); try lra
  | |- context [Rlt_dec ?a ?b] =>
      plain_real a; plain_real b; destruct (Rlt_dec a b); try lra
  end.

Lemma py_max_Rmax (a b : R) : py_max a b = Rmax a b.
Proof.
  unfold py_max, Rmax. destruct (Rlt_dec a b), (Rle_dec a b); lra.
Qed.

Lemma py_min_Rmin (a b : R) : py_min a b = Rmin a b.
Proof.
  unfold py_min, Rmin. destruct (Rlt_dec b a), (Rle_dec a b); lra.
Qed.

Lemma Rleb_true (a b : R) : a <= b -> Rleb a b = true.
Proof. intros H. unfold Rleb. destruct (Rle_dec a b); [reflexivity | lra]. Qed.

Lemma Rleb_false (a b : R) : b < a -> Rleb a b = false.
Proof. intros H. unfold Rleb. destruct (Rle_dec a b); [lra | reflexivity]. Qed.

Lemma calculate_distance_height_160 (self : CollisionDetector.t) (x y w : R)
    (view : string) :
  CollisionDetector.calculate_distance self (x, y, w, 160) view = 1.
Proof.
  unfold CollisionDetector.calculate_distance, py_max, py_min,
    Config.REAL_VEHICLE_WIDTH, Config.FOCAL_LENGTH, Config.PIXELS_PER_METER.
  decide_reals.
Qed.

(** C7. [calculate_distance] is the clamp of
    [(REAL_VEHICLE_WIDTH * FOCAL_LENGTH) / h / PIXELS_PER_METER] to [1, 200]
    when the box height is positive, and 100 otherwise; a box of height 160
    is at 1 meter. *)
Theorem calculate_distance_clamp :
  (forall self x y w h view, 0 < h ->
     CollisionDetector.calculate_distance self (x, y, w, h) view
     = clamp (Config.REAL_VEHICLE_WIDTH * Config.FOCAL_LENGTH / h
              / Config.PIXELS_PER_METER) 1 200)
  /\ (forall self x y w h view, h <= 0 ->
        CollisionDetector.calculate_distance self (x, y, w, h) view = 100)
  /\ (forall self x y w view,
        CollisionDetector.calculate_distance self (x, y, w, 160) view = 1).
Proof.
  split; [| split].
  - intros self x y w h view Hh. unfold CollisionDetector.calculate_distance, clamp.
    destruct (Rlt_dec 0 h) as [_ | Hn]; [| lra].
    now rewrite py_max_Rmax, py_min_Rmin.
  - intros self x y w h view Hh. unfold CollisionDetector.calculate_distance.
    destruct (Rlt_dec 0 h); [lra | reflexivity].
  - apply calculate_distance_height_160.
Qed.

Lemma calculate_distance_clamp_witness :
  0 < 160
  /\ CollisionDetector.calculate_distance example_detector example_bbox "front"
     = clamp (Config.REAL_VEHICLE_WIDTH * Config.FOCAL_LENGTH / 160
              / Config.PIXELS_PER_METER) 1 200.
Proof.
  split; [lra |].
  apply (proj1 calculate_distance_clamp example_detector 500 300 80 160 "front"%string).
  lra.
Defined.

Lemma atan2_bound (y x : R) : - PI < atan2 y x <= PI.
Proof.
  assert (Hpi := PI_RGT_0).
  unfold atan2.
  destruct (Rlt_dec 0 x) as [Hx | Hx].
  - destruct (atan_bound (y / x)). lra.
  - destruct (Rlt_dec x 0) as [Hx' | Hx'].
    + assert (Hinv : / x < 0) by (apply Rinv_lt_0_compat; exact Hx').
      destruct (atan_bound (y / x)) as [Hlo Hhi].
      destruct (Rle_dec 0 y) as [Hy | Hy].
      * assert (Hq : y / x <= 0) by (unfold Rdiv; nra).
        assert (atan (y / x) <= 0).
        { destruct Hq as [Hq | Hq].
          - apply atan_increasing in Hq. rewrite atan_0 in Hq. lra.
          - rewrite Hq, atan_0. lra. }
        lra.
      * assert (Hq : 0 < y / x) by (unfold Rdiv; nra).
        apply atan_increasing in Hq. rewrite atan_0 in Hq. lra.
    + destruct (Rlt_dec 0 y); [lra |].
      destruct (Rlt_dec y 0); lra.
Qed.

Lemma degrees_bound (r : R) : - PI < r <= PI -> -180 < degrees r <= 180.
Proof.
  intros [Hlo Hhi]. assert (Hpi := PI_RGT_0).
  unfold degrees.
  assert (Hk : 0 < 180 / PI) by (apply Rdiv_lt_0_compat; lra).
  assert (Hu : PI * (180 / PI) = 180) by (field; lra).
  replace (r * 180 / PI) with (r * (180 / PI)) by (field; lra).
  split; nra.
Qed.

Lemma normalized_bearing_range (self : CollisionDetector.t) (bbox : BBox) :
  0 <= normalized_bearing self bbox < 360.
Proof.
  destruct bbox as [[[x y] w] h]. unfold normalized_bearing.
  match goal with
  | |- context [degrees (atan2 ?a ?b)] =>
      destruct (degrees_bound (atan2 a b) (atan2_bound a b)) as [Hlo Hhi];
      destruct (Rlt_dec (degrees (atan2 a b)) 0); lra
  end.
Qed.

Lemma calculate_angle_front (self : CollisionDetector.t) (bbox : BBox) :
  CollisionDetector.calculate_angle self bbox "front" = normalized_bearing self bbox.
Proof. destruct bbox as [[[x y] w] h]. reflexivity. Qed.

(** C10, as the code has it.  For a view tag other than 'front', 'back',
    'left' and 'right', [calculate_angle] returns what it returns for 'front',
    in exact arithmetic and in binary64 alike: the bearing of the box center
    from the frame center with a full turn added when it is negative, not
    remapped.  That value lies between 0 and 360, both ends included. *)
Theorem calculate_angle_unknown_view (self : CollisionDetector.t) (bbox : BBox)
    (view : string) :
  view <> "front"%string -> view <> "back"%string ->
  view <> "left"%string -> view <> "right"%string ->
  CollisionDetector.calculate_angle self bbox view
  = CollisionDetector.calculate_angle self bbox "front"
  /\ CollisionDetector.calculate_angle self bbox view = normalized_bearing self bbox
  /\ 0 <= CollisionDetector.calculate_angle self bbox view <= 360
  /\ forall atan2 py_mod frame_center box,
       Binary64.calculate_angle atan2 py_mod frame_center box view
       = Binary64.calculate_angle atan2 py_mod frame_center box "front".
Proof.
  intros Hf Hb Hl Hr.
  apply String.eqb_neq in Hf, Hb, Hl, Hr.
  assert (E : CollisionDetector.calculate_angle self bbox view
              = normalized_bearing self bbox).
  { destruct bbox as [[[x y] w] h].
    unfold CollisionDetector.calculate_angle.
    rewrite Hf, Hb, Hl, Hr. reflexivity. }
  rewrite E, calculate_angle_front.
  pose proof (normalized_bearing_range self bbox) as Hrange.
  split; [reflexivity |]. split; [reflexivity |]. split; [lra |].
  intros atan2 py_mod frame_center [[[x y] w] h].
  unfold Binary64.calculate_angle. rewrite Hf, Hb, Hl, Hr. reflexivity.
Qed.

Lemma calculate_angle_unknown_view_witness :
  CollisionDetector.calculate_angle example_detector example_bbox "top"
  = CollisionDetector.calculate_angle example_detector example_bbox "front".
Proof.
  apply (calculate_angle_unknown_view example_detector example_bbox "top"%string);
    discriminate.
Defined.

(** C10, as the specification states it, fails in the arithmetic that the
    program runs.  For the view 'top' and the box (1590, 359 - 2^-43, 100, 2)
    in a 1280 x 720 frame, [dx] is 1000 and [dy] is -2^-43, the bearing in
    degrees is about -6.5e-15, and [angle_deg += 360] rounds it to 360.0:
    the result is exactly 360.0, which is not below 360. *)
Lemma unknown_view_reaches_full_turn :
  Binary64.calculate_angle Binary64.example_atan2 Binary64.example_py_mod
    Binary64.example_frame_center Binary64.example_box "top"
  = Binary64.FULL_TURN
  /\ Binary64.below
       (Binary64.calculate_angle Binary64.example_atan2 Binary64.example_py_mod
          Binary64.example_frame_center Binary64.example_box "top")
       Binary64.FULL_TURN
     = false.
Proof. split; reflexivity. Qed.

(** ** The example on the first tick of its track *)

Lemma first_tick_vehicles_eq :
  first_tick_vehicles
  = [ {| tv_id := 0;
         tv_position := (Kalman.x_at (Kalman._create_kalman_filter
                                        [500 + 80 / 2; 300 + 160 / 2; 0; 0]) 0,
                         Kalman.x_at (Kalman._create_kalman_filter
                                        [500 + 80 / 2; 300 + 160 / 2; 0; 0]) 1);
         tv_velocity := (0, 0);
         tv_speed := VehicleTracker.mean [0];
         tv_trajectory := [(500 + 80 / 2, 300 + 160 / 2)];
         tv_bbox := example_bbox |} ].
Proof. reflexivity. Qed.

(** On a new tracker [update] does nothing but create the track. *)
Lemma first_tick_by_update
    (kf_update : Kalman.KalmanFilter -> R * R -> Kalman.KalmanFilter) :
  VehicleTracker.update kf_update [example_bbox]
    (CollisionDetector.frame_center example_detector) 0 (VehicleTracker.init 30)
  = VehicleTracker._create_tracker example_bbox
      (CollisionDetector.frame_center example_detector) 0
      (VehicleTracker.init 30).
Proof. reflexivity. Qed.

Lemma example_distance :
  CollisionDetector.calculate_distance example_detector example_bbox "front" = 1.
Proof. apply calculate_distance_height_160. Qed.

Lemma example_angle :
  135 < CollisionDetector.calculate_angle example_detector example_bbox "front" < 180.
Proof.
  assert (Hpi := PI_RGT_0).
  rewrite calculate_angle_front.
  unfold normalized_bearing, example_bbox, example_detector,
    CollisionDetector.frame_height, CollisionDetector.frame_width.
  replace (300 + 160 / 2 - 720 / 2) with 20 by lra.
  replace (500 + 80 / 2 - 1280 / 2) with (-100) by lra.
  assert (Hrad : 3 * (PI / 4) < atan2 20 (-100) < PI).
  { unfold atan2.
    destruct (Rlt_dec 0 (-100)) as [H | _]; [lra |].
    destruct (Rlt_dec (-100) 0) as [_ | H]; [| lra].
    destruct (Rle_dec 0 20) as [_ | H]; [| lra].
    assert (Hlo : atan (Ropp 1) < atan (20 / -100))
      by (apply atan_increasing; lra).
    assert (Hhi : atan (20 / -100) < atan 0)
      by (apply atan_increasing; lra).
    rewrite atan_opp, atan_1 in Hlo. rewrite atan_0 in Hhi. lra. }
  assert (Hdeg : 135 < degrees (atan2 20 (-100)) < 180).
  { unfold degrees.
    assert (Hk : 0 < 180 / PI) by (apply Rdiv_lt_0_compat; lra).
    assert (Hu : PI * (180 / PI) = 180) by (field; lra).
    replace (atan2 20 (-100) * 180 / PI)
      with (atan2 20 (-100) * (180 / PI)) by (field; lra).
    split; nra. }
  destruct (Rlt_dec (degrees (atan2 20 (-100))) 0); lra.
Qed.

Lemma actual_speed_still :
  CollisionDetector.actual_speed_of (VehicleTracker.mean [0]) (0, 0) = 0.
Proof.
  unfold CollisionDetector.actual_speed_of, VehicleTracker.mean. simpl.
  replace (0 * (0 * 1) + 0 * (0 * 1)) with 0 by lra.
  rewrite sqrt_0.
  replace ((0 + 0) / 1) with 0 by lra.
  unfold py_max. destruct (Rlt_dec 0 0); lra.
Qed.

Lemma angle_from_center_front (angle : R) :
  0 <= angle <= 180 ->
  CollisionDetector.angle_from_center_of "front" angle = angle.
Proof.
  intros H. unfold CollisionDetector.angle_from_center_of. simpl.
  replace (angle - 0) with angle by lra.
  rewrite Rabs_pos_eq by lra.
  destruct (Rlt_dec 180 angle); lra.
Qed.

(** A vehicle at 1 m that does not move, 120 degrees or more off the axis:
    the thresholds all fail on speed, the combined score is 0.4 ('low'), and
    the check for a very close vehicle raises 'low' to 'high'. *)
Lemma classify_near_still (a : R) :
  120 <= a -> CollisionDetector.classify 1 0 a = (true, high).
Proof.
  intros Ha.
  unfold CollisionDetector.classify, CollisionDetector.escalation_overrides,
    CollisionDetector.base_severity.
  rewrite !(Rleb_false Config.LOW_SPEED 0) by (unfold Config.LOW_SPEED; lra).
  rewrite !(Rleb_false Config.MEDIUM_SPEED 0) by (unfold Config.MEDIUM_SPEED; lra).
  rewrite !andb_false_r. simpl.
  assert (Hs : CollisionDetector.combined_score 1 0 a = 4 / 10).
  { unfold CollisionDetector.combined_score, CollisionDetector.distance_score,
      CollisionDetector.speed_score, CollisionDetector.angle_score, py_max.
    unfold_config. decide_reals. }
  rewrite Hs.
  destruct (Rle_dec (7 / 10) (4 / 10)); [lra |].
  destruct (Rle_dec (5 / 10) (4 / 10)); [lra |].
  destruct (Rle_dec (3 / 10) (4 / 10)); [| lra].
  unfold CollisionDetector.very_close_check, CollisionDetector.very_fast_check,
    Config.CRITICAL_DISTANCE.
  destruct (Rle_dec 1 (5 / 2)); [| lra]. simpl.
  rewrite (Rleb_false Config.CRITICAL_SPEED 0) by (unfold Config.CRITICAL_SPEED; lra).
  reflexivity.
Qed.

Lemma first_tick_verdict_eq (vehicle : TrackedVehicle) :
  In vehicle first_tick_vehicles ->
  first_tick_verdict vehicle = (Some true, Some high).
Proof.
  rewrite first_tick_vehicles_eq. intros [<- | []].
  unfold first_tick_verdict, CollisionDetector.analyze_vehicle,
    CollisionDetector.predict_collision.
  cbn [tv_bbox tv_position tv_velocity tv_speed tv_id vi_position vi_velocity
       vi_speed vi_distance vi_angle get].
  rewrite example_distance, actual_speed_still.
  rewrite angle_from_center_front by (pose proof example_angle; lra).
  rewrite classify_near_still by (pose proof example_angle; lra).
  reflexivity.
Qed.

(** C1, as the code has it.  On the first tick of its track (speed history
    [0], velocity (0, 0)) the example box is at 1 m, and [analyze_vehicle]
    flags it with severity 'high'. *)
Theorem first_tick_example_high :
  map first_tick_verdict first_tick_vehicles = [(Some true, Some high)]
  /\ map tv_speed first_tick_vehicles = [VehicleTracker.mean [0]]
  /\ VehicleTracker.mean [0] = 0
  /\ map tv_velocity first_tick_vehicles = [(0, 0)]
  /\ map tv_bbox first_tick_vehicles = [example_bbox].
Proof.
  assert (H := first_tick_verdict_eq).
  rewrite first_tick_vehicles_eq in *.
  cbn [map] in *. rewrite H by (left; reflexivity).
  repeat split. unfold VehicleTracker.mean. simpl. lra.
Qed.

(** C1, as the specification states it, fails: the vehicle of the example is
    reported on its first tick, still, and its severity is not 'none'. *)
Lemma first_tick_example_not_none :
  exists vehicle,
    In vehicle first_tick_vehicles
    /\ tv_bbox vehicle = example_bbox
    /\ tv_velocity vehicle = (0, 0)
    /\ tv_speed vehicle = 0
    /\ snd (first_tick_verdict vehicle) <> Some none.
Proof.
  assert (H := first_tick_verdict_eq).
  rewrite first_tick_vehicles_eq in *.
  eexists. split; [left; reflexivity |].
  rewrite H by (left; reflexivity).
  cbn [tv_bbox tv_velocity tv_speed snd].
  repeat split; [| discriminate].
  unfold VehicleTracker.mean. simpl. lra.
Qed.

(** ** The escalation overrides *)

Lemma verdict_classify (self : CollisionDetector.t) (vehicle_info : VehicleInfo)
    (view : string) :
  verdict (CollisionDetector.predict_collision self vehicle_info view)
  = CollisionDetector.classify (graded_distance vehicle_info)
      (graded_speed vehicle_info) (graded_angle vehicle_info view).
Proof.
  unfold CollisionDetector.predict_collision, graded_distance, graded_speed,
    graded_angle.
  destruct (CollisionDetector.classify _ _ _) as [flag sev]. reflexivity.
Qed.

(** With the distance at most half the critical one, a pass of the overrides
    ends in 'high' or 'critical', and a pass that starts from 'high' ends in
    'critical'. *)
Lemma escalation_twice (d s a : R) (st : bool * Severity) :
  let once := CollisionDetector.escalation_overrides d s a st in
  let twice := CollisionDetector.escalation_overrides d s a once in
  fst twice = fst once
  /\ rank_le (snd once) (snd twice)
  /\ (snd twice = snd once
      <-> Config.CRITICAL_DISTANCE / 2 < d \/ snd once = critical).
Proof.
  destruct st as [flag sev].
  unfold CollisionDetector.escalation_overrides,
    CollisionDetector.very_fast_check, CollisionDetector.very_close_check,
    rank_le.
  destruct (Rleb Config.CRITICAL_SPEED s && Rleb d Config.HIGH_DISTANCE
            && Rleb a Config.HIGH_ANGLE);
    destruct (Rle_dec d (Config.CRITICAL_DISTANCE / 2)) as [Hd | Hd];
    destruct sev; cbn;
    repeat split; try lia; try tauto; try (intros; right; reflexivity);
    try (intros; left; lra); try discriminate;
    try (intros [H | H]; [lra | discriminate]).
Qed.

Lemma actual_speed_no_velocity (speed : R) :
  0 <= speed -> CollisionDetector.actual_speed_of speed (0, 0) = speed.
Proof.
  intros H. unfold CollisionDetector.actual_speed_of.
  replace (0 ^ 2 + 0 ^ 2) with 0 by lra.
  rewrite sqrt_0. unfold py_max. destruct (Rlt_dec speed 0); lra.
Qed.

Lemma graded_vehicle_at (d s a : R) :
  0 <= s -> 0 <= a <= 180 ->
  graded_distance (vehicle_at d s a) = d
  /\ graded_speed (vehicle_at d s a) = s
  /\ graded_angle (vehicle_at d s a) "front" = a.
Proof.
  intros Hs Ha. unfold graded_distance, graded_speed, graded_angle, vehicle_at.
  cbn [vi_speed vi_velocity vi_distance vi_angle get].
  rewrite actual_speed_no_velocity by exact Hs.
  rewrite angle_from_center_front by exact Ha. auto.
Qed.

(** C2, as the code has it.  A second pass of the two overrides leaves the
    collision flag as it is and never lowers the severity; it leaves the
    severity as it is exactly when the distance is above half the critical
    distance or the first pass already ended in 'critical'. *)
Theorem overrides_second_pass (self : CollisionDetector.t)
    (vehicle_info : VehicleInfo) (view : string) :
  let once := verdict (CollisionDetector.predict_collision self vehicle_info view) in
  let twice := override_again vehicle_info view once in
  fst twice = fst once
  /\ rank_le (snd once) (snd twice)
  /\ (snd twice = snd once
      <-> Config.CRITICAL_DISTANCE / 2 < graded_distance vehicle_info
          \/ snd once = critical).
Proof.
  cbv zeta. rewrite verdict_classify. unfold override_again.
  apply escalation_twice.
Qed.

Lemma overrides_second_pass_witness :
  snd (override_again (vehicle_at 8 0 170) "front"
         (verdict (CollisionDetector.predict_collision example_detector
                     (vehicle_at 8 0 170) "front")))
  = snd (verdict (CollisionDetector.predict_collision example_detector
                    (vehicle_at 8 0 170) "front")).
Proof.
  apply (proj2 (proj2 (overrides_second_pass example_detector
                         (vehicle_at 8 0 170) "front"%string))).
  left. unfold graded_distance, vehicle_at, get, vi_distance.
  unfold_config. lra.
Defined.

(** C2, as the specification states it, fails: for a still vehicle at 1 m,
    170 degrees off the axis, [predict_collision] answers 'high', and the
    overrides applied to that answer give 'critical'. *)
Lemma overrides_not_idempotent :
  verdict (CollisionDetector.predict_collision example_detector
             (vehicle_at 1 0 170) "front") = (true, high)
  /\ override_again (vehicle_at 1 0 170) "front"
       (verdict (CollisionDetector.predict_collision example_detector
                   (vehicle_at 1 0 170) "front")) = (true, critical).
Proof.
  destruct (graded_vehicle_at 1 0 170) as (Ed & Es & Ea); [lra | lra |].
  rewrite verdict_classify. unfold override_again.
  rewrite Ed, Es, Ea, classify_near_still by lra.
  split; [reflexivity |].
  unfold CollisionDetector.escalation_overrides,
    CollisionDetector.very_close_check, CollisionDetector.very_fast_check.
  unfold_config.
  destruct (Rle_dec 1 (5 / 2)); [| lra]. cbn.
  rewrite (Rleb_false 20 0) by lra. reflexivity.
Qed.

(** ** Severity along one axis *)

Ltac unfold_classify :=
  unfold CollisionDetector.classify, CollisionDetector.escalation_overrides,
    CollisionDetector.very_fast_check, CollisionDetector.very_close_check,
    CollisionDetector.base_severity, CollisionDetector.combined_score,
    CollisionDetector.distance_score, CollisionDetector.speed_score,
    CollisionDetector.angle_score, py_max, Rleb;
  unfold_config.

(** Inside the gates of the lowest tier one of the four tiers decides. *)
Lemma base_severity_within (d s a : R) :
  d <= Config.LOW_DISTANCE -> Config.LOW_SPEED <= s -> a <= Config.LOW_ANGLE ->
  CollisionDetector.base_severity d s a
  = if Rleb d Config.CRITICAL_DISTANCE && Rleb a Config.CRITICAL_ANGLE
    then (true, critical)
    else if Rleb d Config.HIGH_DISTANCE && Rleb Config.MEDIUM_SPEED s
            && Rleb a Config.HIGH_ANGLE then (true, high)
    else if Rleb d Config.MEDIUM_DISTANCE && Rleb a Config.MEDIUM_ANGLE
    then (true, medium)
    else (true, low).
Proof.
  intros Hd Hs Ha. unfold CollisionDetector.base_severity.
  rewrite (Rleb_true Config.LOW_SPEED s), (Rleb_true d Config.LOW_DISTANCE),
    (Rleb_true a Config.LOW_ANGLE) by assumption.
  rewrite !andb_true_r. cbn [andb].
  repeat match goal with
         | |- context [if ?c then _ else _] => destruct c; try reflexivity
         end.
Qed.

Ltac within_tiers :=
  unfold rank_le, CollisionDetector.classify;
  rewrite !base_severity_within by (unfold_config; lra);
  unfold CollisionDetector.escalation_overrides,
    CollisionDetector.very_fast_check, CollisionDetector.very_close_check, Rleb;
  unfold_config;
  decide_reals; cbn; lia.

(** Nearer, faster and more central can only reach an earlier tier, and the
    overrides raise a higher severity at least as high. *)
Lemma classify_monotone_distance (d1 d2 s a : R) :
  d1 <= d2 -> d2 <= Config.LOW_DISTANCE -> Config.LOW_SPEED <= s ->
  a <= Config.LOW_ANGLE ->
  rank_le (snd (CollisionDetector.classify d2 s a))
          (snd (CollisionDetector.classify d1 s a)).
Proof. intros Hd H2 Hs Ha. within_tiers. Qed.

Lemma classify_monotone_speed (d s1 s2 a : R) :
  s2 <= s1 -> d <= Config.LOW_DISTANCE -> Config.LOW_SPEED <= s2 ->
  a <= Config.LOW_ANGLE ->
  rank_le (snd (CollisionDetector.classify d s2 a))
          (snd (CollisionDetector.classify d s1 a)).
Proof. intros Hd H2 Hs Ha. within_tiers. Qed.

Lemma classify_monotone_angle (d s a1 a2 : R) :
  a1 <= a2 -> d <= Config.LOW_DISTANCE -> Config.LOW_SPEED <= s ->
  a2 <= Config.LOW_ANGLE ->
  rank_le (snd (CollisionDetector.classify d s a2))
          (snd (CollisionDetector.classify d s a1)).
Proof. intros Hd H2 Hs Ha. within_tiers. Qed.

Lemma severity_vehicle_at (d s a : R) :
  0 <= s -> 0 <= a <= 180 ->
  severity_of (CollisionDetector.predict_collision example_detector
                 (vehicle_at d s a) "front")
  = snd (CollisionDetector.classify d s a).
Proof.
  intros Hs Ha. unfold severity_of. rewrite verdict_classify.
  destruct (graded_vehicle_at d s a Hs Ha) as (-> & -> & ->). reflexivity.
Qed.

Ltac eval_classify := unfold_classify; decide_reals; reflexivity.

Lemma classify_30_20_0 : snd (CollisionDetector.classify 30 20 0) = low.
Proof. eval_classify. Qed.
Lemma classify_31_20_0 : snd (CollisionDetector.classify 31 20 0) = high.
Proof. eval_classify. Qed.
Lemma classify_25_49_0 : snd (CollisionDetector.classify 25 (49 / 10) 0) = medium.
Proof. eval_classify. Qed.
Lemma classify_25_5_0 : snd (CollisionDetector.classify 25 5 0) = low.
Proof. eval_classify. Qed.
Lemma classify_25_5_60 : snd (CollisionDetector.classify 25 5 60) = low.
Proof. eval_classify. Qed.
Lemma classify_25_5_61 : snd (CollisionDetector.classify 25 5 61) = medium.
Proof. eval_classify. Qed.

(** Outside the gates of the lowest tier no tier matches, and the combined
    score decides. *)
Lemma base_severity_outside (d s a : R) :
  ~ (d <= Config.LOW_DISTANCE /\ Config.LOW_SPEED <= s /\ a <= Config.LOW_ANGLE) ->
  CollisionDetector.base_severity d s a
  = let score := CollisionDetector.combined_score d s a in
    if Rle_dec (7 / 10) score then (true, high)
    else if Rle_dec (5 / 10) score then (true, medium)
    else if Rle_dec (3 / 10) score then (true, low)
    else (false, none).
Proof.
  intros Hout. unfold CollisionDetector.base_severity.
  assert (Hgate : Config.LOW_DISTANCE < d \/ s < Config.LOW_SPEED
                  \/ Config.LOW_ANGLE < a).
  { destruct (Rle_dec d Config.LOW_DISTANCE); [| lra].
    destruct (Rle_dec Config.LOW_SPEED s); [| lra].
    destruct (Rle_dec a Config.LOW_ANGLE); [| lra].
    exfalso. apply Hout. auto. }
  unfold_config.
  destruct Hgate as [Hd | [Hs | Ha]].
  - rewrite (Rleb_false d 5), (Rleb_false d 10), (Rleb_false d 20),
      (Rleb_false d 30) by lra. reflexivity.
  - rewrite (Rleb_false 5 s), (Rleb_false 10 s) by lra.
    rewrite !andb_false_r. reflexivity.
  - rewrite (Rleb_false a 15), (Rleb_false a 30), (Rleb_false a 45),
      (Rleb_false a 60) by lra.
    rewrite !andb_false_r. reflexivity.
Qed.

(** The distance score falls with the distance on each side of LOW_DISTANCE
    (just beyond it the linear decay starts again from 1); the angle score
    likewise around LOW_ANGLE; the speed score rises with the speed
    everywhere. *)
Lemma distance_score_antitone (d1 d2 : R) :
  d1 <= d2 -> d2 <= Config.LOW_DISTANCE \/ Config.LOW_DISTANCE < d1 ->
  CollisionDetector.distance_score d2 <= CollisionDetector.distance_score d1.
Proof.
  intros H Hside. unfold CollisionDetector.distance_score, py_max.
  unfold_config. destruct Hside; decide_reals.
Qed.

Lemma speed_score_monotone (s1 s2 : R) :
  s2 <= s1 ->
  CollisionDetector.speed_score s2 <= CollisionDetector.speed_score s1.
Proof.
  intros H. unfold CollisionDetector.speed_score. unfold_config. decide_reals.
Qed.

Lemma angle_score_antitone (a1 a2 : R) :
  a1 <= a2 -> a2 <= Config.LOW_ANGLE \/ Config.LOW_ANGLE < a1 ->
  CollisionDetector.angle_score a2 <= CollisionDetector.angle_score a1.
Proof.
  intros H Hside. unfold CollisionDetector.angle_score, py_max.
  unfold_config. destruct Hside; decide_reals.
Qed.

(** Where no tier matches either input, the one with the greater combined
    score that is also at least as near, as fast and as central ranks at
    least as high: the combined score and the two overrides agree on it. *)
Lemma classify_monotone_outside (d1 s1 a1 d2 s2 a2 : R) :
  ~ (d1 <= Config.LOW_DISTANCE /\ Config.LOW_SPEED <= s1
     /\ a1 <= Config.LOW_ANGLE) ->
  ~ (d2 <= Config.LOW_DISTANCE /\ Config.LOW_SPEED <= s2
     /\ a2 <= Config.LOW_ANGLE) ->
  d1 <= d2 -> s2 <= s1 -> a1 <= a2 ->
  CollisionDetector.combined_score d2 s2 a2
  <= CollisionDetector.combined_score d1 s1 a1 ->
  rank_le (snd (CollisionDetector.classify d2 s2 a2))
          (snd (CollisionDetector.classify d1 s1 a1)).
Proof.
  intros H1 H2 Hd Hs Ha.
  unfold rank_le, CollisionDetector.classify.
  rewrite (base_severity_outside d1 s1 a1 H1), (base_severity_outside d2 s2 a2 H2).
  cbv zeta.
  generalize (CollisionDetector.combined_score d1 s1 a1) as c1.
  generalize (CollisionDetector.combined_score d2 s2 a2) as c2.
  intros c2 c1 Hc. clear H1 H2.
  unfold CollisionDetector.escalation_overrides,
    CollisionDetector.very_fast_check, CollisionDetector.very_close_check, Rleb.
  unfold_config.
  decide_reals; cbn; lia.
Qed.

Lemma classify_monotone_distance_off_gate (d1 d2 s a : R) :
  d1 <= d2 -> d2 <= Config.LOW_DISTANCE \/ Config.LOW_DISTANCE < d1 ->
  rank_le (snd (CollisionDetector.classify d2 s a))
          (snd (CollisionDetector.classify d1 s a)).
Proof.
  intros Hd Hside.
  destruct (Rle_dec d2 Config.LOW_DISTANCE) as [H2 |];
    [destruct (Rle_dec Config.LOW_SPEED s) as [Hs |];
     [destruct (Rle_dec a Config.LOW_ANGLE) as [Ha |] |] |].
  1: apply classify_monotone_distance; assumption.
  all: apply classify_monotone_outside;
    try (intros (A & B & C); unfold_config; lra); try lra;
    unfold CollisionDetector.combined_score;
    pose proof (distance_score_antitone d1 d2 Hd Hside); lra.
Qed.

Lemma classify_monotone_speed_off_gate (d s1 s2 a : R) :
  s2 <= s1 ->
  Config.LOW_SPEED <= s2 \/ s1 < Config.LOW_SPEED
  \/ Config.LOW_DISTANCE < d \/ Config.LOW_ANGLE < a ->
  rank_le (snd (CollisionDetector.classify d s2 a))
          (snd (CollisionDetector.classify d s1 a)).
Proof.
  intros Hs Hside.
  destruct (Rle_dec Config.LOW_SPEED s2) as [H2 |];
    [destruct (Rle_dec d Config.LOW_DISTANCE) as [Hd |];
     [destruct (Rle_dec a Config.LOW_ANGLE) as [Ha |] |] |].
  1: apply classify_monotone_speed; assumption.
  all: apply classify_monotone_outside;
    try (intros (A & B & C); unfold_config; lra); try lra;
    unfold CollisionDetector.combined_score;
    pose proof (speed_score_monotone s1 s2 Hs); lra.
Qed.

Lemma classify_monotone_angle_off_gate (d s a1 a2 : R) :
  a1 <= a2 -> a2 <= Config.LOW_ANGLE \/ Config.LOW_ANGLE < a1 ->
  rank_le (snd (CollisionDetector.classify d s a2))
          (snd (CollisionDetector.classify d s a1)).
Proof.
  intros Ha Hside.
  destruct (Rle_dec a2 Config.LOW_ANGLE) as [H2 |];
    [destruct (Rle_dec d Config.LOW_DISTANCE) as [Hd |];
     [destruct (Rle_dec Config.LOW_SPEED s) as [Hs |] |] |].
  1: apply classify_monotone_angle; assumption.
  all: apply classify_monotone_outside;
    try (intros (A & B & C); unfold_config; lra); try lra;
    unfold CollisionDetector.combined_score;
    pose proof (angle_score_antitone a1 a2 Ha Hside); lra.
Qed.

(** C3, as the code has it.  With the other two quantities equal, the nearer
    vehicle never gets a lower rank when both distances lie on the same side
    of LOW_DISTANCE, and the more central one never when both angles lie on
    the same side of LOW_ANGLE; the faster one never gets a lower rank unless
    it alone passes the speed gate LOW_SPEED of the tiers while distance and
    angle pass theirs. *)
Theorem severity_monotone_off_gate (self : CollisionDetector.t)
    (near far : VehicleInfo) (view_near view_far : string) :
  let rank_kept :=
    rank_le (severity_of (CollisionDetector.predict_collision self far view_far))
            (severity_of (CollisionDetector.predict_collision self near view_near)) in
  (graded_speed near = graded_speed far ->
   graded_angle near view_near = graded_angle far view_far ->
   graded_distance near <= graded_distance far ->
   graded_distance far <= Config.LOW_DISTANCE
   \/ Config.LOW_DISTANCE < graded_distance near ->
   rank_kept)
  /\ (graded_distance near = graded_distance far ->
      graded_angle near view_near = graded_angle far view_far ->
      graded_speed far <= graded_speed near ->
      Config.LOW_SPEED <= graded_speed far
      \/ graded_speed near < Config.LOW_SPEED
      \/ Config.LOW_DISTANCE < graded_distance near
      \/ Config.LOW_ANGLE < graded_angle near view_near ->
      rank_kept)
  /\ (graded_distance near = graded_distance far ->
      graded_speed near = graded_speed far ->
      graded_angle near view_near <= graded_angle far view_far ->
      graded_angle far view_far <= Config.LOW_ANGLE
      \/ Config.LOW_ANGLE < graded_angle near view_near ->
      rank_kept).
Proof.
  cbv zeta. unfold severity_of. rewrite !verdict_classify.
  split; [| split].
  - intros Es Ea Hd Hside. rewrite Es, Ea.
    apply classify_monotone_distance_off_gate; assumption.
  - intros Ed Ea Hs Hside. rewrite Ed, Ea in *.
    apply classify_monotone_speed_off_gate; assumption.
  - intros Ed Es Ha Hside. rewrite Ed, Es.
    apply classify_monotone_angle_off_gate; assumption.
Qed.

Lemma severity_monotone_off_gate_witness :
  rank_le (severity_of (CollisionDetector.predict_collision example_detector
                          (vehicle_at 25 20 0) "front"))
          (severity_of (CollisionDetector.predict_collision example_detector
                          (vehicle_at 8 20 0) "front")).
Proof.
  destruct (graded_vehicle_at 8 20 0) as (Ed1 & Es1 & Ea1); [lra | lra |].
  destruct (graded_vehicle_at 25 20 0) as (Ed2 & Es2 & Ea2); [lra | lra |].
  apply (proj1 (severity_monotone_off_gate example_detector
                  (vehicle_at 8 20 0) (vehicle_at 25 20 0)
                  "front"%string "front"%string)).
  - rewrite Es1, Es2. reflexivity.
  - rewrite Ea1, Ea2. reflexivity.
  - rewrite Ed1, Ed2. lra.
  - left. rewrite Ed2. unfold_config. lra.
Defined.

(** C3, as the specification states it, fails on each axis.  At speed 20 dead
    ahead, 30 m is 'low' (lowest tier) and 31 m is 'high' (combined score);
    at 25 m dead ahead, speed 4.9 is 'medium' (combined score) and speed 5 is
    'low' (lowest tier); at 25 m and speed 5, 61 degrees is 'medium' and
    60 degrees is 'low'. *)
Lemma severity_not_monotone :
  let sev d s a :=
    severity_of (CollisionDetector.predict_collision example_detector
                   (vehicle_at d s a) "front") in
  (sev 30 20 0 = low /\ sev 31 20 0 = high
   /\ ~ rank_le (sev 31 20 0) (sev 30 20 0))
  /\ (sev 25 5 0 = low /\ sev 25 (49 / 10) 0 = medium
      /\ ~ rank_le (sev 25 (49 / 10) 0) (sev 25 5 0))
  /\ (sev 25 5 60 = low /\ sev 25 5 61 = medium
      /\ ~ rank_le (sev 25 5 61) (sev 25 5 60)).
Proof.
  cbv beta zeta.
  rewrite !severity_vehicle_at by lra.
  rewrite classify_30_20_0, classify_31_20_0, classify_25_49_0,
    classify_25_5_0, classify_25_5_60, classify_25_5_61.
  unfold rank_le. cbn. repeat split; lia.
Qed.

(** * Properties of the alert aggregator *)

Lemma severity_max_assoc (a b c : Severity) :
  severity_max (severity_max a b) c = severity_max a (severity_max b c).
Proof. destruct a, b, c; reflexivity. Qed.

Lemma severity_max_none_l (a : Severity) : severity_max none a = a.
Proof. destruct a; reflexivity. Qed.

Lemma severity_max_ub (a b : Severity) :
  rank_le a (severity_max a b) /\ rank_le b (severity_max a b).
Proof. unfold rank_le. destruct a, b; cbn; lia. Qed.

Lemma severity_max_cases (a b : Severity) :
  severity_max a b = a \/ severity_max a b = b.
Proof. destruct a, b; cbn; auto. Qed.

Lemma max_severity_of_ub (l : list Severity) (s : Severity) :
  In s l -> rank_le s (max_severity_of l).
Proof.
  induction l as [| a l IH]; [intros [] |].
  intros [-> | Hin]; cbn [max_severity_of fold_right].
  - apply severity_max_ub.
  - specialize (IH Hin). fold (max_severity_of l).
    destruct (severity_max_ub a (max_severity_of l)) as [_ H].
    unfold rank_le in *. lia.
Qed.

Lemma max_severity_of_attained (l : list Severity) :
  max_severity_of l = none \/ In (max_severity_of l) l.
Proof.
  induction l as [| a l IH]; [left; reflexivity |].
  cbn [max_severity_of fold_right]. fold (max_severity_of l).
  destruct (severity_max_cases a (max_severity_of l)) as [-> | ->].
  - right. left. reflexivity.
  - destruct IH as [IH | IH]; [left; exact IH | right; right; exact IH].
Qed.

Section AlertLoop.
Variable format_1f : R -> string.
Variable format_id : nat -> string.

Let message (v : VehicleInfo) : string :=
  AlertSystem.alert_message format_1f format_id v (recorded_severity v).

Lemma check_vehicle_fold (vs : list VehicleInfo) (flag : bool) (m : Severity)
    (msgs : list string) :
  fold_left (AlertSystem.check_vehicle format_1f format_id) vs (flag, m, msgs)
  = (flag || existsb flagged vs,
     severity_max m (max_severity_of (map recorded_severity (filter flagged vs))),
     msgs ++ map message (filter flagged vs)).
Proof.
  revert flag m msgs.
  induction vs as [| v vs IH]; intros flag m msgs.
  - cbn. rewrite orb_false_r, app_nil_r. now destruct m.
  - cbn [fold_left]. unfold AlertSystem.check_vehicle at 2.
    cbn [existsb filter]. fold (flagged v).
    destruct (flagged v) eqn:Hv.
    + rewrite IH. cbn [map max_severity_of fold_right orb].
      fold (recorded_severity v).
      fold (max_severity_of (map recorded_severity (filter flagged vs))).
      fold (severity_max m (recorded_severity v)).
      rewrite severity_max_assoc, <- app_assoc, orb_true_r. reflexivity.
    + rewrite IH. reflexivity.
Qed.

End AlertLoop.

(** C8. [check_alerts] answers true exactly when some record is flagged; its
    severity is the greatest severity among the flagged records under
    none < low < medium < high < critical, 'none' when no record is flagged;
    it gives one message for each flagged record; and on the empty list it
    answers (false, none, []). *)
Theorem check_alerts_maximum (format_1f : R -> string) (format_id : nat -> string)
    (self : AlertSystem.t) (vehicles_info : list VehicleInfo) :
  let '(should_alert, max_severity, alert_messages) :=
    fst (AlertSystem.check_alerts format_1f format_id self vehicles_info) in
  (should_alert = true <-> exists v, In v vehicles_info /\ flagged v = true)
  /\ max_severity
     = max_severity_of (map recorded_severity (filter flagged vehicles_info))
  /\ (forall v, In v vehicles_info -> flagged v = true ->
        rank_le (recorded_severity v) max_severity)
  /\ (max_severity = none
      \/ exists v, In v vehicles_info /\ flagged v = true
                   /\ recorded_severity v = max_severity)
  /\ List.length alert_messages = List.length (filter flagged vehicles_info)
  /\ fst (AlertSystem.check_alerts format_1f format_id self [])
     = (false, none, []).
Proof.
  unfold AlertSystem.check_alerts.
  rewrite check_vehicle_fold. cbn [fst orb app].
  rewrite severity_max_none_l.
  repeat split.
  - intros H. apply existsb_exists in H. exact H.
  - intros H. apply existsb_exists. exact H.
  - intros v Hin Hv. apply max_severity_of_ub.
    apply in_map. apply filter_In. auto.
  - destruct (max_severity_of_attained
                (map recorded_severity (filter flagged vehicles_info)))
      as [H | H]; [left; exact H | right].
    apply in_map_iff in H. destruct H as (v & Ev & Hv).
    apply filter_In in Hv. exists v. tauto.
  - apply length_map.
Qed.

Lemma check_alerts_maximum_witness :
  snd (fst (fst (AlertSystem.check_alerts (fun _ => EmptyString)
                   (fun _ => EmptyString)
                   (AlertSystem.mk false false none)
                   [scored_vehicle true low; scored_vehicle false critical;
                    scored_vehicle true high; scored_vehicle true medium])))
  = high.
Proof.
  pose proof (check_alerts_maximum (fun _ => EmptyString) (fun _ => EmptyString)
                (AlertSystem.mk false false none)
                [scored_vehicle true low; scored_vehicle false critical;
                 scored_vehicle true high; scored_vehicle true medium]) as H.
  destruct (fst (AlertSystem.check_alerts _ _ _ _)) as [[flag sev] msgs].
  destruct H as (_ & -> & _). reflexivity.
Defined.

(** * Properties of the association step *)

Section Association.
Import VehicleTracker.
Variable cost_matrix : list (list R).
Variables unmatched_dets unmatched_trks : list nat.

(** What the scan may hold as the best entry so far: an entry of the matrix
    at indices that are still unmatched. *)
Let sound (best : option (R * nat * nat)) : Prop :=
  forall c d t, best = Some (c, d, t) ->
    c = cost_at cost_matrix d t /\ In d unmatched_dets /\ In t unmatched_trks.

Lemma scan_trks_sound (det_idx : nat) (trks : list nat)
    (best : option (R * nat * nat)) :
  In det_idx unmatched_dets -> incl trks unmatched_trks ->
  sound best -> sound (scan_trks cost_matrix det_idx trks best).
Proof.
  intros Hd. revert best.
  induction trks as [| trk trks IH]; intros best Hincl Hbest; [exact Hbest |].
  cbn [scan_trks fold_left]. apply IH.
  - intros t Ht. apply Hincl. right. exact Ht.
  - assert (Ht : In trk unmatched_trks) by (apply Hincl; left; reflexivity).
    assert (Hnew : sound (Some (cost_at cost_matrix det_idx trk, det_idx, trk))).
    { intros c d t E. injection E as <- <- <-. auto. }
    destruct best as [[[min_cost min_det] min_trk] |]; [| exact Hnew].
    destruct (Rlt_dec (cost_at cost_matrix det_idx trk) min_cost);
      [exact Hnew | exact Hbest].
Qed.

Lemma scan_dets_sound (dets : list nat) (best : option (R * nat * nat)) :
  incl dets unmatched_dets -> sound best ->
  sound (fold_left
           (fun best det_idx =>
              scan_trks cost_matrix det_idx unmatched_trks best)
           dets best).
Proof.
  revert best.
  induction dets as [| det dets IH]; intros best Hincl Hbest; [exact Hbest |].
  cbn [fold_left]. apply IH.
  - intros d Hd. apply Hincl. right. exact Hd.
  - apply scan_trks_sound; [apply Hincl; left; reflexivity
                           | apply incl_refl | exact Hbest].
Qed.

Lemma scan_min_sound (c : R) (d t : nat) :
  scan_min cost_matrix unmatched_dets unmatched_trks = Some (c, d, t) ->
  c = cost_at cost_matrix d t /\ In d unmatched_dets /\ In t unmatched_trks.
Proof.
  apply (scan_dets_sound unmatched_dets None (incl_refl _)).
  intros ? ? ? E. discriminate E.
Qed.

End Association.

Lemma list_remove_length (v : nat) (l : list nat) :
  In v l -> S (List.length (VehicleTracker.list_remove v l)) = List.length l.
Proof.
  induction l as [| a l IH]; [intros [] |].
  intros Hin. cbn [VehicleTracker.list_remove].
  destruct (Nat.eqb_spec a v) as [E | E]; [reflexivity |].
  destruct Hin as [Hin | Hin]; [contradiction |].
  cbn [List.length]. rewrite IH by exact Hin. reflexivity.
Qed.

(** The loop ends before its bound: every turn that goes on removes one
    unmatched detection. *)
Lemma greedy_loop_returns (cost_matrix : list (list R)) (fuel : nat) :
  forall matched unmatched_dets unmatched_trks,
    (List.length unmatched_dets < fuel)%nat ->
    exists result,
      VehicleTracker.greedy_loop fuel cost_matrix matched unmatched_dets
        unmatched_trks = Some result.
Proof.
  induction fuel as [| fuel IH]; intros matched ud ut Hlen; [lia |].
  cbn [VehicleTracker.greedy_loop].
  destruct (VehicleTracker.scan_min cost_matrix ud ut)
    as [[[min_cost min_det] min_trk] |] eqn:Hscan; [| eauto].
  destruct (Rlt_dec min_cost VehicleTracker.max_distance); [| eauto].
  apply IH.
  apply scan_min_sound in Hscan. destruct Hscan as (_ & Hd & _).
  pose proof (list_remove_length min_det ud Hd). lia.
Qed.

Lemma list_remove_incl (v : nat) (l : list nat) :
  incl (VehicleTracker.list_remove v l) l.
Proof.
  induction l as [| a l IH]; [apply incl_refl |].
  cbn [VehicleTracker.list_remove]. destruct (a =? v)%nat.
  - apply incl_tl, incl_refl.
  - intros x [E | Hin]; [left; exact E | right; apply IH; exact Hin].
Qed.

(** Every pair that the loop adds is an unmatched detection and an unmatched
    track whose cost is below the gate. *)
Lemma greedy_loop_matched (cost_matrix : list (list R)) (Q : nat -> nat -> Prop)
    (fuel : nat) :
  forall matched unmatched_dets unmatched_trks matched' dets' trks',
    VehicleTracker.greedy_loop fuel cost_matrix matched unmatched_dets
      unmatched_trks = Some (matched', dets', trks') ->
    (forall d t, In d unmatched_dets -> In t unmatched_trks ->
       VehicleTracker.cost_at cost_matrix d t < VehicleTracker.max_distance ->
       Q d t) ->
    (forall d t, In (d, t) matched -> Q d t) ->
    forall d t, In (d, t) matched' -> Q d t.
Proof.
  induction fuel as [| fuel IH];
    intros matched ud ut matched' dets' trks' Hrun Hnew Hinv;
    [discriminate Hrun |].
  cbn [VehicleTracker.greedy_loop] in Hrun.
  destruct (VehicleTracker.scan_min cost_matrix ud ut)
    as [[[min_cost min_det] min_trk] |] eqn:Hscan.
  - destruct (Rlt_dec min_cost VehicleTracker.max_distance) as [Hlt | Hge].
    + apply (IH _ _ _ _ _ _ Hrun).
      * intros d t Hd Ht. apply Hnew; eapply list_remove_incl; eassumption.
      * intros d t Hin. apply in_app_or in Hin.
        destruct Hin as [Hin | [E | []]]; [apply Hinv; exact Hin |].
        injection E as <- <-.
        apply scan_min_sound in Hscan. destruct Hscan as (-> & Hd & Ht).
        apply Hnew; assumption.
    + injection Hrun as <- <- <-. exact Hinv.
  - injection Hrun as <- <- <-. exact Hinv.
Qed.

(** * What the association step does to the filters *)

(** The filters of [items] after the loops that build the cost matrix for
    [detections]: each has been advanced once for every detection. *)
Lemma cost_row_predicts (cx cy : R) (items : PyDict.t Kalman.KalmanFilter) :
  snd (VehicleTracker.cost_row cx cy items)
  = map (fun item => (fst item, Kalman.predict (snd item))) items.
Proof.
  induction items as [| [object_id kf] items IH]; [reflexivity |].
  cbn [VehicleTracker.cost_row].
  destruct (VehicleTracker.cost_row cx cy items) as [row rest].
  cbn [snd map fst] in *. rewrite IH. reflexivity.
Qed.

Lemma build_cost_matrix_predicts (detections : list BBox)
    (items : PyDict.t Kalman.KalmanFilter) :
  snd (VehicleTracker.build_cost_matrix detections items)
  = map (fun item =>
           (fst item, Nat.iter (List.length detections) Kalman.predict (snd item)))
        items.
Proof.
  revert items.
  induction detections as [| detection detections IH]; intros items.
  - cbn. rewrite <- (map_id items) at 1. apply map_ext. now intros [k kf].
  - cbn [VehicleTracker.build_cost_matrix].
    destruct (VehicleTracker.center detection) as [cx cy].
    pose proof (cost_row_predicts cx cy items) as Hrow.
    destruct (VehicleTracker.cost_row cx cy items) as [row items1].
    specialize (IH items1).
    destruct (VehicleTracker.build_cost_matrix detections items1)
      as [rows items2].
    cbn [snd] in *. subst items1 items2.
    rewrite map_map. apply map_ext. intros [k kf]. cbn [fst snd List.length].
    rewrite Nat.iter_succ_r. reflexivity.
Qed.

Lemma cost_row_entry (cx cy : R) (items : PyDict.t Kalman.KalmanFilter)
    (j object_id : nat) (kf : Kalman.KalmanFilter) :
  nth_error items j = Some (object_id, kf) ->
  nth j (fst (VehicleTracker.cost_row cx cy items)) 0
  = distance_to (cx, cy) (Kalman.predict kf).
Proof.
  revert j.
  induction items as [| [id' kf'] items IH]; intros j Hj;
    [destruct j; discriminate Hj |].
  cbn [VehicleTracker.cost_row].
  destruct (VehicleTracker.cost_row cx cy items) as [row rest].
  destruct j as [| j]; cbn [nth_error nth fst] in *.
  - injection Hj as -> ->. reflexivity.
  - apply IH. exact Hj.
Qed.

(** Row [i] of the cost matrix is measured against the filters advanced
    [i + 1] times. *)
Lemma cost_matrix_entry (detections : list BBox)
    (items : PyDict.t Kalman.KalmanFilter) (i j object_id : nat)
    (detection : BBox) (kf : Kalman.KalmanFilter) :
  nth_error detections i = Some detection ->
  nth_error items j = Some (object_id, kf) ->
  VehicleTracker.cost_at (fst (VehicleTracker.build_cost_matrix detections items))
    i j
  = distance_to (VehicleTracker.center detection)
      (Nat.iter (S i) Kalman.predict kf).
Proof.
  revert items i kf.
  induction detections as [| d detections IH]; intros items i kf Hi Hj;
    [destruct i; discriminate Hi |].
  cbn [VehicleTracker.build_cost_matrix].
  destruct (VehicleTracker.center d) as [cx cy] eqn:Hc.
  pose proof (cost_row_predicts cx cy items) as Hrow.
  pose proof (cost_row_entry cx cy items j object_id kf Hj) as Hentry.
  destruct (VehicleTracker.cost_row cx cy items) as [row items1].
  cbn [fst snd] in *.
  destruct i as [| i].
  - injection Hi as <-.
    destruct (VehicleTracker.build_cost_matrix detections items1)
      as [rows items2].
    unfold VehicleTracker.cost_at. cbn [fst nth]. rewrite Hc. exact Hentry.
  - cbn [nth_error] in Hi.
    assert (Hj1 : nth_error items1 j = Some (object_id, Kalman.predict kf)).
    { subst items1. rewrite nth_error_map, Hj. reflexivity. }
    specialize (IH items1 i (Kalman.predict kf) Hi Hj1).
    destruct (VehicleTracker.build_cost_matrix detections items1)
      as [rows items2].
    unfold VehicleTracker.cost_at in *. cbn [fst nth] in *. rewrite IH.
    rewrite (Nat.iter_succ_r (S i)). reflexivity.
Qed.

Lemma greedy_matching_returns (cost_matrix : list (list R))
    (n_detections n_trackers : nat) :
  exists matched dets trks,
    VehicleTracker.greedy_matching cost_matrix n_detections n_trackers
    = Some (matched, dets, trks)
    /\ forall d t, In (d, t) matched ->
         (d < n_detections)%nat /\ (t < n_trackers)%nat
         /\ VehicleTracker.cost_at cost_matrix d t < VehicleTracker.max_distance.
Proof.
  unfold VehicleTracker.greedy_matching.
  destruct ((0 <? List.length cost_matrix)%nat
            && (0 <? List.length (hd [] cost_matrix))%nat).
  - destruct (greedy_loop_returns cost_matrix (S n_detections) []
                (seq 0 n_detections) (seq 0 n_trackers))
      as [[[matched dets] trks] Hrun]; [rewrite length_seq; lia |].
    exists matched, dets, trks. split; [exact Hrun |].
    apply (greedy_loop_matched _ _ _ _ _ _ _ _ _ Hrun).
    + intros d t Hd Ht Hlt. apply in_seq in Hd, Ht. repeat split; [lia | lia | exact Hlt].
    + intros d t [].
  - exists [], (seq 0 n_detections), (seq 0 n_trackers).
    split; [reflexivity | intros d t []].
Qed.

(** C6. The association step returns, and every pair (detection, track) that
    it matches has its entry of the cost matrix, the Euclidean distance from
    the center of the detection to the predicted center of the track,
    strictly below the gate of 100 pixels. *)
Theorem matches_below_gate (detections : list BBox) (frame_center : R * R)
    (current_time : R) (self : VehicleTracker.t) :
  exists matched unmatched_dets unmatched_trks self',
    VehicleTracker._associate_detections_to_trackers detections frame_center
      current_time self
    = VehicleTracker.Returned (matched, unmatched_dets, unmatched_trks) self'
    /\ forall det_idx trk_idx, In (det_idx, trk_idx) matched ->
         VehicleTracker.cost_at (association_costs detections self)
           det_idx trk_idx < 100
         /\ exists detection object_id kf,
              nth_error detections det_idx = Some detection
              /\ nth_error (VehicleTracker.trackers self) trk_idx
                 = Some (object_id, kf)
              /\ VehicleTracker.cost_at (association_costs detections self)
                   det_idx trk_idx
                 = distance_to (VehicleTracker.center detection)
                     (Nat.iter (S det_idx) Kalman.predict kf).
Proof.
  unfold VehicleTracker._associate_detections_to_trackers, association_costs,
    VehicleTracker.bind, VehicleTracker.gets, VehicleTracker.modify.
  destruct (List.length (VehicleTracker.trackers self) =? 0)%nat.
  - exists [], (seq 0 (List.length detections)), [], self.
    split; [reflexivity | intros d t []].
  - pose proof (build_cost_matrix_predicts detections
                  (VehicleTracker.trackers self)) as Hsnd.
    pose proof (cost_matrix_entry detections (VehicleTracker.trackers self))
      as Hentry.
    destruct (VehicleTracker.build_cost_matrix detections
                (VehicleTracker.trackers self)) as [cost_matrix items].
    cbn [fst snd] in *.
    cbn [VehicleTracker.trackers VehicleTracker.set_trackers].
    assert (Hlen : List.length items
                   = List.length (VehicleTracker.trackers self))
      by (subst items; apply length_map).
    rewrite Hlen.
    destruct (greedy_matching_returns cost_matrix (List.length detections)
                (List.length (VehicleTracker.trackers self)))
      as (matched & dets & trks & -> & Hgate).
    exists matched, dets, trks. eexists. split; [reflexivity |].
    intros d t Hin. destruct (Hgate d t Hin) as (Hd & Ht & Hlt).
    split; [exact Hlt |].
    destruct (nth_error detections d) as [detection |] eqn:Ed;
      [| apply nth_error_None in Ed; lia].
    destruct (nth_error (VehicleTracker.trackers self) t) as [[object_id kf] |]
      eqn:Et; [| apply nth_error_None in Et; lia].
    exists detection, object_id, kf.
    repeat split. apply (Hentry d t object_id detection kf Ed Et).
Qed.

(** * Properties of the track ids *)

Lemma keys_set_present {V : Type} (d : PyDict.t V) (k : nat) (v : V) :
  In k (PyDict.keys d) -> PyDict.keys (PyDict.set d k v) = PyDict.keys d.
Proof.
  induction d as [| [k' v'] d IH]; [intros [] |].
  intros Hin. cbn [PyDict.set].
  destruct (Nat.eqb_spec k' k) as [E | E]; [reflexivity |].
  destruct Hin as [Hin | Hin]; [contradiction |].
  cbn [PyDict.keys map fst] in *. fold (PyDict.keys d) in *.
  fold (PyDict.keys (PyDict.set d k v)). rewrite IH by exact Hin. reflexivity.
Qed.

Lemma keys_set_absent {V : Type} (d : PyDict.t V) (k : nat) (v : V) :
  ~ In k (PyDict.keys d) -> PyDict.keys (PyDict.set d k v) = PyDict.keys d ++ [k].
Proof.
  induction d as [| [k' v'] d IH]; [reflexivity |].
  intros Hin. cbn [PyDict.set].
  destruct (Nat.eqb_spec k' k) as [E | E].
  - exfalso. apply Hin. left. exact E.
  - cbn [PyDict.keys map fst app] in *. fold (PyDict.keys d) in *.
    fold (PyDict.keys (PyDict.set d k v)).
    rewrite IH by (intros H; apply Hin; right; exact H). reflexivity.
Qed.

Lemma keys_del_incl {V : Type} (d : PyDict.t V) (k : nat) :
  incl (PyDict.keys (PyDict.del d k)) (PyDict.keys d).
Proof.
  induction d as [| [k' v'] d IH]; [apply incl_refl |].
  cbn [PyDict.del]. destruct (k' =? k)%nat.
  - apply incl_tl, incl_refl.
  - cbn [PyDict.keys map fst]. intros x [E | Hin]; [left; exact E |].
    right. apply IH. exact Hin.
Qed.

Lemma keys_del_NoDup {V : Type} (d : PyDict.t V) (k : nat) :
  NoDup (PyDict.keys d) -> NoDup (PyDict.keys (PyDict.del d k)).
Proof.
  induction d as [| [k' v'] d IH]; [trivial |].
  cbn [PyDict.del PyDict.keys map fst]. intros Hnd.
  apply NoDup_cons_iff in Hnd. destruct Hnd as [Hk Hnd].
  destruct (k' =? k)%nat; [exact Hnd |].
  cbn [PyDict.keys map fst]. apply NoDup_cons.
  - intros Hin. apply Hk. apply (keys_del_incl d k). exact Hin.
  - apply IH. exact Hnd.
Qed.

Lemma grows_refl (self : VehicleTracker.t) : grows self self.
Proof. unfold grows. auto. Qed.

Lemma grows_trans (a b c : VehicleTracker.t) : grows a b -> grows b c -> grows a c.
Proof.
  intros (Hn1 & Hl1 & Hf1) (Hn2 & Hl2 & Hf2). repeat split.
  - lia.
  - intros id Hin. destruct (Hl2 id Hin) as [H | H]; [| right; lia].
    destruct (Hl1 id H); auto.
  - destruct (Hf2 (Hf1 H)); auto.
  - apply (Hf2 (Hf1 H)).
Qed.

Lemma grows_same_ids (self self' : VehicleTracker.t) :
  VehicleTracker.next_id self' = VehicleTracker.next_id self ->
  live_ids self' = live_ids self -> grows self self'.
Proof.
  intros En El. unfold grows, ids_fresh. rewrite En, El. auto.
Qed.

Section Keeps.
Import VehicleTracker.

Lemma keeps_ret {A : Type} (a : A) : keeps (ret a).
Proof. intros s. apply grows_refl. Qed.

Lemma keeps_raise {A : Type} (e : Exception) : keeps (@raise A e).
Proof. intros s. apply grows_refl. Qed.

Lemma keeps_gets {A : Type} (f : t -> A) : keeps (gets f).
Proof. intros s. apply grows_refl. Qed.

Lemma keeps_bind {A B : Type} (m : M A) (k : A -> M B) :
  keeps m -> (forall a, keeps (k a)) -> keeps (bind m k).
Proof.
  intros Hm Hk s. unfold bind. specialize (Hm s).
  destruct (m s) as [a s' | e s']; cbn [final_state] in *; [| exact Hm].
  apply (grows_trans _ _ _ Hm). apply Hk.
Qed.

Lemma keeps_modify (f : t -> t) :
  (forall s, next_id (f s) = next_id s) ->
  (forall s, trackers (f s) = trackers s) -> keeps (modify f).
Proof.
  intros Hn Ht s. cbn. apply grows_same_ids; [apply Hn |].
  unfold live_ids. rewrite Ht. reflexivity.
Qed.

Lemma keeps_default_item {A : Type} (field : t -> PyDict.t (list A))
    (set_field : PyDict.t (list A) -> t -> t) (k : nat) :
  (forall d s, next_id (set_field d s) = next_id s) ->
  (forall d s, trackers (set_field d s) = trackers s) ->
  keeps (default_item field set_field k).
Proof.
  intros Hn Ht s. unfold default_item.
  destruct (PyDict.lookup (field s) k); cbn; [apply grows_refl |].
  apply grows_same_ids; [apply Hn |].
  unfold live_ids. rewrite Ht. reflexivity.
Qed.

Lemma keeps_list_item {A : Type} (l : list A) (i : nat) : keeps (list_item l i).
Proof. unfold list_item. destruct (nth_error l i); intros s; apply grows_refl. Qed.

Lemma keeps_dict_item {V : Type} (d : PyDict.t V) (k : nat) :
  keeps (dict_item d k).
Proof.
  unfold dict_item. destruct (PyDict.lookup d k); intros s; apply grows_refl.
Qed.

Lemma keeps_last_item {A : Type} (l : list A) : keeps (last_item l).
Proof. unfold last_item. destruct (rev l); intros s; apply grows_refl. Qed.

Lemma keeps_for_each {A : Type} (l : list A) (body : A -> M unit) :
  (forall a, keeps (body a)) -> keeps (for_each l body).
Proof.
  intros Hb. induction l as [| a l IH]; cbn [for_each].
  - apply keeps_ret.
  - apply keeps_bind; [apply Hb | intros _; exact IH].
Qed.

End Keeps.

(** Steps through a method body made of the operations above. *)
Ltac keeps_step :=
  lazymatch goal with
  | |- keeps (VehicleTracker.bind _ _) =>
      apply keeps_bind; [| intros ?]
  | |- keeps (VehicleTracker.ret _) => apply keeps_ret
  | |- keeps (VehicleTracker.raise _) => apply keeps_raise
  | |- keeps (VehicleTracker.gets _) => apply keeps_gets
  | |- keeps (VehicleTracker.list_item _ _) => apply keeps_list_item
  | |- keeps (VehicleTracker.dict_item _ _) => apply keeps_dict_item
  | |- keeps (VehicleTracker.last_item _) => apply keeps_last_item
  | |- keeps (VehicleTracker.default_item _ _ _) =>
      apply keeps_default_item; intros; reflexivity
  | |- keeps (VehicleTracker.modify _) =>
      apply keeps_modify; intros; reflexivity
  | |- keeps (if ?c then _ else _) => destruct c
  | |- keeps (match ?x with _ => _ end) => destruct x
  end.

Ltac keeps_body := repeat keeps_step.

Lemma keeps_remove_tracker (object_id : nat) :
  keeps (VehicleTracker._remove_tracker object_id).
Proof.
  unfold VehicleTracker._remove_tracker.
  apply keeps_bind; [| intros _; keeps_body].
  intros s. cbn. unfold grows, ids_fresh, live_ids. cbn.
  repeat split.
  - lia.
  - intros id Hin. left. apply (keys_del_incl _ _ _ Hin).
  - apply keys_del_NoDup. tauto.
  - intros id Hin. apply H. apply (keys_del_incl _ _ _ Hin).
Qed.

Lemma final_create_tracker (detection : BBox) (frame_center : R * R)
    (current_time : R) (self : VehicleTracker.t) :
  exists self',
    VehicleTracker._create_tracker detection frame_center current_time self
    = VehicleTracker.Returned tt self'
    /\ VehicleTracker.next_id self' = S (VehicleTracker.next_id self)
    /\ exists kf,
         VehicleTracker.trackers self'
         = PyDict.set (VehicleTracker.trackers self)
             (VehicleTracker.next_id self) kf.
Proof.
  unfold VehicleTracker._create_tracker.
  destruct (VehicleTracker.center detection) as [cx cy].
  eexists. split; [reflexivity |]. cbn. split; [lia | eauto].
Qed.

Lemma keeps_create_tracker (detection : BBox) (frame_center : R * R)
    (current_time : R) :
  keeps (VehicleTracker._create_tracker detection frame_center current_time).
Proof.
  intros s.
  destruct (final_create_tracker detection frame_center current_time s)
    as (s' & -> & En & kf & Et).
  cbn [VehicleTracker.final_state].
  unfold grows, ids_fresh, live_ids. rewrite En, Et.
  assert (Hcases : forall id,
             In id (PyDict.keys (PyDict.set (VehicleTracker.trackers s)
                                   (VehicleTracker.next_id s) kf)) ->
             In id (PyDict.keys (VehicleTracker.trackers s))
             \/ id = VehicleTracker.next_id s).
  { intros id Hin.
    destruct (in_dec Nat.eq_dec (VehicleTracker.next_id s)
                (PyDict.keys (VehicleTracker.trackers s))) as [Hp | Ha].
    - rewrite keys_set_present in Hin by exact Hp. left. exact Hin.
    - rewrite keys_set_absent in Hin by exact Ha.
      apply in_app_or in Hin. destruct Hin as [Hin | [E | []]]; auto. }
  repeat split.
  - lia.
  - intros id Hin. destruct (Hcases id Hin) as [H | ->]; [left; exact H | right; lia].
  - destruct H as [Hnd Hlt].
    assert (Ha : ~ In (VehicleTracker.next_id s)
                      (PyDict.keys (VehicleTracker.trackers s))).
    { intros Hin. specialize (Hlt _ Hin). lia. }
    rewrite keys_set_absent by exact Ha.
    apply NoDup_app; [exact Hnd | repeat constructor; intros [] |].
    intros x Hx [<- | []]. contradiction.
  - destruct H as [_ Hlt]. intros id Hin.
    destruct (Hcases id Hin) as [H | ->]; [specialize (Hlt _ H) |]; lia.
Qed.

Lemma keeps_age_tracker (object_id : nat) :
  keeps (VehicleTracker.age_tracker object_id).
Proof.
  unfold VehicleTracker.age_tracker. keeps_body.
  all: apply keeps_remove_tracker.
Qed.

Section UpdateKeeps.
Variable kf_update : Kalman.KalmanFilter -> R * R -> Kalman.KalmanFilter.

(** A matched track keeps its id: the corrected filter is stored under a key
    read from the dictionary. *)
Lemma keeps_update_tracker (trk_idx : nat) (detection : BBox)
    (frame_center : R * R) (current_time : R) :
  keeps (VehicleTracker._update_tracker kf_update trk_idx detection
           frame_center current_time).
Proof.
  intros s. unfold VehicleTracker._update_tracker.
  unfold VehicleTracker.bind at 1 2. unfold VehicleTracker.gets at 1.
  unfold VehicleTracker.list_item.
  destruct (nth_error (PyDict.keys (VehicleTracker.trackers s)) trk_idx)
    as [object_id |] eqn:Hkey; [| apply grows_refl].
  apply nth_error_In in Hkey.
  unfold VehicleTracker.ret at 1.
  unfold VehicleTracker.bind at 1 2. unfold VehicleTracker.gets at 1.
  unfold VehicleTracker.dict_item.
  destruct (PyDict.lookup (VehicleTracker.trackers s) object_id)
    as [kf |]; [| apply grows_refl].
  unfold VehicleTracker.ret at 1.
  destruct (VehicleTracker.center detection) as [cx cy].
  unfold VehicleTracker.bind at 1. unfold VehicleTracker.modify at 1.
  match goal with
  | |- grows _ (VehicleTracker.final_state (?rest ?s1)) =>
      apply (grows_trans _ s1);
        [| change (grows s1 (VehicleTracker.final_state (rest s1)));
           generalize s1; change (keeps rest) ]
  end.
  - apply grows_same_ids; [reflexivity |].
    unfold live_ids. cbn. apply keys_set_present. exact Hkey.
  - keeps_body.
Qed.

Lemma cost_row_keys (cx cy : R) (items : PyDict.t Kalman.KalmanFilter) :
  PyDict.keys (snd (VehicleTracker.cost_row cx cy items)) = PyDict.keys items.
Proof.
  induction items as [| [object_id kf] items IH]; [reflexivity |].
  cbn [VehicleTracker.cost_row].
  destruct (VehicleTracker.cost_row cx cy items) as [row rest].
  unfold PyDict.keys in *. cbn [snd map fst] in *. rewrite IH. reflexivity.
Qed.

Lemma build_cost_matrix_keys (detections : list BBox)
    (items : PyDict.t Kalman.KalmanFilter) :
  PyDict.keys (snd (VehicleTracker.build_cost_matrix detections items))
  = PyDict.keys items.
Proof.
  revert items.
  induction detections as [| detection detections IH]; intros items;
    [reflexivity |].
  cbn [VehicleTracker.build_cost_matrix].
  destruct (VehicleTracker.center detection) as [cx cy].
  pose proof (cost_row_keys cx cy items) as Hrow.
  destruct (VehicleTracker.cost_row cx cy items) as [row items1].
  specialize (IH items1).
  destruct (VehicleTracker.build_cost_matrix detections items1)
    as [rows items2].
  cbn [snd] in *. congruence.
Qed.

Lemma keeps_associate (detections : list BBox) (frame_center : R * R)
    (current_time : R) :
  keeps (VehicleTracker._associate_detections_to_trackers detections
           frame_center current_time).
Proof.
  intros s. unfold VehicleTracker._associate_detections_to_trackers.
  unfold VehicleTracker.bind at 1. unfold VehicleTracker.gets at 1.
  destruct (List.length (VehicleTracker.trackers s) =? 0)%nat;
    [apply grows_refl |].
  pose proof (build_cost_matrix_keys detections (VehicleTracker.trackers s))
    as Hkeys.
  destruct (VehicleTracker.build_cost_matrix detections
              (VehicleTracker.trackers s)) as [cost_matrix items].
  cbn [snd] in Hkeys.
  unfold VehicleTracker.bind at 1. unfold VehicleTracker.modify at 1.
  match goal with
  | |- grows _ (VehicleTracker.final_state (?rest ?s1)) =>
      apply (grows_trans _ s1);
        [| change (grows s1 (VehicleTracker.final_state (rest s1)));
           generalize s1; change (keeps rest) ]
  end.
  - apply grows_same_ids; [reflexivity | exact Hkeys].
  - keeps_body.
Qed.

Lemma keeps_update (detections : list BBox) (frame_center : R * R)
    (current_time : R) :
  keeps (VehicleTracker.update kf_update detections frame_center current_time).
Proof.
  unfold VehicleTracker.update.
  destruct (List.length detections =? 0)%nat.
  - apply keeps_bind; [apply keeps_gets | intros ids].
    apply keeps_for_each. apply keeps_age_tracker.
  - apply keeps_bind; [apply keeps_gets | intros items].
    destruct (List.length items =? 0)%nat.
    + apply keeps_for_each. intros d. apply keeps_create_tracker.
    + apply keeps_bind; [apply keeps_associate | intros [[matched dets] trks]].
      apply keeps_bind; [| intros _; apply keeps_bind; [| intros _]].
      * apply keeps_for_each. intros [det_idx trk_idx].
        apply keeps_bind; [apply keeps_list_item | intros d].
        apply keeps_update_tracker.
      * apply keeps_for_each. intros det_idx.
        apply keeps_bind; [apply keeps_list_item | intros d].
        apply keeps_create_tracker.
      * apply keeps_for_each. intros trk_idx.
        apply keeps_bind; [| intros id; apply keeps_age_tracker].
        apply keeps_bind; [apply keeps_gets | intros d].
        apply keeps_list_item.
Qed.

Lemma later_grows (self self' : VehicleTracker.t) :
  later kf_update self self' -> grows self self'.
Proof.
  induction 1 as [| s' detections frame_center current_time _ IH].
  - apply grows_refl.
  - apply (grows_trans _ _ _ IH). apply keeps_update.
Qed.

Lemma reachable_ids_fresh (self : VehicleTracker.t) :
  reachable kf_update self -> ids_fresh self.
Proof.
  induction 1 as [n | s detections frame_center current_time _ IH].
  - split; [constructor | intros id []].
  - apply (keeps_update detections frame_center current_time s). exact IH.
Qed.

End UpdateKeeps.

(** C9. In every tracker that calls of [update] can reach from a new one, the
    live ids are pairwise distinct and below the counter [next_id]; over any
    further calls the counter never goes back, every id that becomes live is
    drawn from the counter (it is at least the counter's earlier value), and
    an id that was live and is evicted is never live again. *)
Theorem track_ids_unique_never_reused
    (kf_update : Kalman.KalmanFilter -> R * R -> Kalman.KalmanFilter)
    (self : VehicleTracker.t) :
  reachable kf_update self ->
  NoDup (live_ids self)
  /\ (forall id, In id (live_ids self) -> (id < VehicleTracker.next_id self)%nat)
  /\ (forall self', later kf_update self self' ->
        (VehicleTracker.next_id self <= VehicleTracker.next_id self')%nat
        /\ forall id, In id (live_ids self') ->
             In id (live_ids self) \/ (VehicleTracker.next_id self <= id)%nat)
  /\ (forall self' self'',
        later kf_update self self' -> later kf_update self' self'' ->
        forall id, In id (live_ids self) -> ~ In id (live_ids self') ->
                   ~ In id (live_ids self'')).
Proof.
  intros Hr. destruct (reachable_ids_fresh kf_update self Hr) as [Hnd Hlt].
  repeat split; try assumption.
  - apply (later_grows kf_update _ _ H).
  - apply (later_grows kf_update _ _ H).
  - intros s' s'' H1 H2 id Hlive Hgone Hback.
    destruct (later_grows kf_update _ _ H1) as (Hn1 & _ & _).
    destruct (later_grows kf_update _ _ H2) as (_ & Hl2 & _).
    destruct (Hl2 id Hback) as [H | H]; [contradiction |].
    specialize (Hlt id Hlive). lia.
Qed.

Lemma track_ids_unique_never_reused_witness :
  let kf_update := fun (kf : Kalman.KalmanFilter) (_ : R * R) => kf in
  let s1 := after_update kf_update (VehicleTracker.init 0) [example_bbox] (640, 360) 0 in
  let s2 := after_update kf_update s1 [] (640, 360) 1 in
  let s3 := after_update kf_update s2 [example_bbox] (640, 360) 2 in
  In 0%nat (live_ids s1) /\ ~ In 0%nat (live_ids s2) /\ ~ In 0%nat (live_ids s3).
Proof.
  intros kf_update s1 s2 s3.
  assert (H1 : In 0%nat (live_ids s1)) by (left; reflexivity).
  assert (H2 : ~ In 0%nat (live_ids s2)) by (intros []).
  repeat split; [exact H1 | exact H2 |].
  refine (proj2 (proj2 (proj2 (track_ids_unique_never_reused kf_update s1 _)))
            s2 s3 _ _ 0%nat H1 H2).
  - apply reachable_update, reachable_init.
  - apply later_update, later_now.
  - apply later_update, later_now.
Defined.

(** ** A tick on which nothing matches *)

Lemma greedy_loop_no_match (cost_matrix : list (list R)) (fuel : nat)
    (matched : list (nat * nat)) (unmatched_dets unmatched_trks : list nat) :
  (forall d t, In d unmatched_dets -> In t unmatched_trks ->
     VehicleTracker.max_distance <= VehicleTracker.cost_at cost_matrix d t) ->
  VehicleTracker.greedy_loop (S fuel) cost_matrix matched unmatched_dets
    unmatched_trks
  = Some (matched, unmatched_dets, unmatched_trks).
Proof.
  intros Hfar. cbn [VehicleTracker.greedy_loop].
  destruct (VehicleTracker.scan_min cost_matrix unmatched_dets unmatched_trks)
    as [[[min_cost min_det] min_trk] |] eqn:Hscan; [| reflexivity].
  apply scan_min_sound in Hscan. destruct Hscan as (-> & Hd & Ht).
  specialize (Hfar _ _ Hd Ht).
  destruct (Rlt_dec _ _); [lra | reflexivity].
Qed.

Lemma associate_no_match (detections : list BBox) (frame_center : R * R)
    (current_time : R) (self : VehicleTracker.t) :
  VehicleTracker.trackers self <> [] ->
  (forall d t, (d < List.length detections)%nat ->
     (t < List.length (VehicleTracker.trackers self))%nat ->
     100 <= VehicleTracker.cost_at (association_costs detections self) d t) ->
  VehicleTracker._associate_detections_to_trackers detections frame_center
    current_time self
  = VehicleTracker.Returned
      ([], seq 0 (List.length detections),
       seq 0 (List.length (VehicleTracker.trackers self)))
      (VehicleTracker.set_trackers
         (snd (VehicleTracker.build_cost_matrix detections
                 (VehicleTracker.trackers self))) self).
Proof.
  intros Hne Hfar.
  unfold VehicleTracker._associate_detections_to_trackers, association_costs,
    VehicleTracker.bind, VehicleTracker.gets, VehicleTracker.modify in *.
  destruct (VehicleTracker.trackers self) as [| item items] eqn:Hitems;
    [contradiction |].
  cbn [List.length Nat.eqb].
  pose proof (build_cost_matrix_predicts detections (item :: items)) as Hsnd.
  destruct (VehicleTracker.build_cost_matrix detections (item :: items))
    as [cost_matrix items'].
  cbn [fst snd] in *.
  assert (Hlen : List.length items' = S (List.length items)).
  { subst items'. rewrite length_map. reflexivity. }
  cbn [VehicleTracker.trackers VehicleTracker.set_trackers]. rewrite Hlen.
  unfold VehicleTracker.greedy_matching.
  destruct ((0 <? List.length cost_matrix)%nat
            && (0 <? List.length (hd [] cost_matrix))%nat); [| reflexivity].
  rewrite greedy_loop_no_match; [reflexivity |].
  intros d t Hd Ht. apply in_seq in Hd, Ht. apply Hfar; cbn [List.length]; lia.
Qed.

Lemma update_associates
    (kf_update : Kalman.KalmanFilter -> R * R -> Kalman.KalmanFilter)
    (detection : BBox) (detections : list BBox) (frame_center : R * R)
    (current_time : R) (self : VehicleTracker.t) :
  VehicleTracker.trackers self <> [] ->
  VehicleTracker.update kf_update (detection :: detections) frame_center
    current_time self
  = VehicleTracker.bind
      (VehicleTracker._associate_detections_to_trackers
         (detection :: detections) frame_center current_time)
      (fun r =>
         let '(matched, unmatched_dets, unmatched_trks) := r in
         VehicleTracker.bind
           (VehicleTracker.for_each matched
              (fun '(det_idx, trk_idx) =>
                 VehicleTracker.bind
                   (VehicleTracker.list_item (detection :: detections) det_idx)
                   (fun d =>
                      VehicleTracker._update_tracker kf_update trk_idx d
                        frame_center current_time)))
           (fun _ =>
              VehicleTracker.bind
                (VehicleTracker.for_each unmatched_dets
                   (fun det_idx =>
                      VehicleTracker.bind
                        (VehicleTracker.list_item (detection :: detections) det_idx)
                        (fun d =>
                           VehicleTracker._create_tracker d frame_center
                             current_time)))
                (fun _ =>
                   VehicleTracker.for_each unmatched_trks
                     (fun trk_idx =>
                        VehicleTracker.bind
                          (VehicleTracker.bind
                             (VehicleTracker.gets VehicleTracker.trackers)
                             (fun d =>
                                VehicleTracker.list_item (PyDict.keys d) trk_idx))
                          (fun object_id =>
                             VehicleTracker.age_tracker object_id)))))
      self.
Proof.
  intros Hne. unfold VehicleTracker.update. cbn [List.length Nat.eqb].
  unfold VehicleTracker.bind at 1. unfold VehicleTracker.gets at 1.
  destruct (VehicleTracker.trackers self); [contradiction | reflexivity].
Qed.

Lemma far_apart (dx dy : R) :
  100 <= Rabs dx \/ 100 <= Rabs dy -> 100 <= sqrt (dx ^ 2 + dy ^ 2).
Proof.
  intros H.
  assert (Hx : sqrt (dx ^ 2) = Rabs dx)
    by (replace (dx ^ 2) with (Rsqr dx) by (unfold Rsqr; ring);
        apply sqrt_Rsqr_abs).
  assert (Hy : sqrt (dy ^ 2) = Rabs dy)
    by (replace (dy ^ 2) with (Rsqr dy) by (unfold Rsqr; ring);
        apply sqrt_Rsqr_abs).
  assert (0 <= dx ^ 2) by (apply pow2_ge_0).
  assert (0 <= dy ^ 2) by (apply pow2_ge_0).
  destruct H as [H | H].
  - rewrite <- Hx in H. apply (Rle_trans _ _ _ H).
    apply sqrt_le_1_alt. lra.
  - rewrite <- Hy in H. apply (Rle_trans _ _ _ H).
    apply sqrt_le_1_alt. lra.
Qed.

(** ** A tick that evicts a track while it ages the others *)

Lemma aged_pair_state
    (kf_update : Kalman.KalmanFilter -> R * R -> Kalman.KalmanFilter) :
  VehicleTracker.trackers (aged_pair kf_update)
  = [(0%nat, Kalman._create_kalman_filter [0 + 10 / 2; 0 + 10 / 2; 0; 0]);
     (1%nat, Kalman._create_kalman_filter [300 + 10 / 2; 0 + 10 / 2; 0; 0])]
  /\ VehicleTracker.disappeared (aged_pair kf_update) = [(0, 30); (1, 30)]%nat.
Proof. split; reflexivity. Qed.

Lemma predict_position (x0 y0 vx vy : R) :
  Kalman.x_at (Kalman.predict (Kalman._create_kalman_filter [x0; y0; vx; vy])) 0
  = x0 + vx
  /\ Kalman.x_at (Kalman.predict (Kalman._create_kalman_filter [x0; y0; vx; vy])) 1
     = y0 + vy.
Proof.
  unfold Kalman.x_at, Kalman.predict, Kalman.mat_vec, Kalman.dot. cbn.
  split; ring.
Qed.

Lemma box_c_far (kf_update : Kalman.KalmanFilter -> R * R -> Kalman.KalmanFilter)
    (d t : nat) :
  (d < 1)%nat -> (t < 2)%nat ->
  100 <= VehicleTracker.cost_at
           (association_costs [box_c] (aged_pair kf_update)) d t.
Proof.
  intros Hd Ht. unfold association_costs.
  destruct (aged_pair_state kf_update) as [-> _].
  assert (d = 0%nat) by lia. subst d.
  assert (Hc : VehicleTracker.center box_c = (0 + 10 / 2, 400 + 10 / 2))
    by reflexivity.
  destruct t as [| [| t]]; [| | lia].
  - erewrite cost_matrix_entry by reflexivity.
    unfold distance_to, Nat.iter. cbn [nat_rect]. rewrite Hc. cbn [fst snd].
    destruct (predict_position (0 + 10 / 2) (0 + 10 / 2) 0 0) as [-> ->].
    apply far_apart. right. rewrite Rabs_pos_eq; lra.
  - erewrite cost_matrix_entry by reflexivity.
    unfold distance_to, Nat.iter. cbn [nat_rect]. rewrite Hc. cbn [fst snd].
    destruct (predict_position (300 + 10 / 2) (0 + 10 / 2) 0 0) as [-> ->].
    apply far_apart. right. rewrite Rabs_pos_eq; lra.
Qed.

Lemma aged_pair_eq
    (kf_update : Kalman.KalmanFilter -> R * R -> Kalman.KalmanFilter) :
  aged_pair kf_update
  = VehicleTracker.mk 2
      [(0%nat, Kalman._create_kalman_filter [0 + 10 / 2; 0 + 10 / 2; 0; 0]);
       (1%nat, Kalman._create_kalman_filter [300 + 10 / 2; 0 + 10 / 2; 0; 0])]
      [(0, 30); (1, 30)]%nat 30
      [(0%nat, [0]); (1%nat, [0])]
      [(0%nat, [(0 + 10 / 2, 0 + 10 / 2)]); (1%nat, [(300 + 10 / 2, 0 + 10 / 2)])]
      [(0%nat, [0]); (1%nat, [0])]
      [(0%nat, box_a); (1%nat, box_b)].
Proof. reflexivity. Qed.
(** Runs the tracker on explicit data, leaving the real numbers alone. *)
Ltac run_tracker :=
  cbn -[Rplus Rmult Rdiv Rminus Rinv Ropp IZR sqrt Kalman.predict
        Kalman._create_kalman_filter].

(** C5, on a tick that the code gets wrong.  Tracks 0 and 1 are both at
    counter 30 and both missed; the far detection becomes track 2.  The loop
    over the unmatched indices [0; 1] evicts track 0 at index 0, after which
    index 1 names track 2: the new track gets counter 1, and the missed track 1
    keeps counter 30 and stays. *)
Theorem eviction_shifts_aging
    (kf_update : Kalman.KalmanFilter -> R * R -> Kalman.KalmanFilter) :
  VehicleTracker.disappeared (aged_pair kf_update) = [(0, 30); (1, 30)]%nat
  /\ live_ids (aged_pair kf_update) = [0; 1]%nat
  /\ (exists self',
        VehicleTracker.update kf_update [box_c] (640, 360) 2 (aged_pair kf_update)
        = VehicleTracker.Returned tt self')
  /\ VehicleTracker.disappeared (after_far_detection kf_update)
     = [(1, 30); (2, 1)]%nat
  /\ live_ids (after_far_detection kf_update) = [1; 2]%nat.
Proof.
  assert (Hrun :
    exists self',
      VehicleTracker.update kf_update [box_c] (640, 360) 2 (aged_pair kf_update)
      = VehicleTracker.Returned tt self'
      /\ VehicleTracker.disappeared self' = [(1, 30); (2, 1)]%nat
      /\ live_ids self' = [1; 2]%nat).
  { pose proof (box_c_far kf_update) as Hfar.
    rewrite aged_pair_eq in *.
    rewrite update_associates by discriminate.
    unfold VehicleTracker.bind at 1.
    rewrite associate_no_match; [| discriminate | exact Hfar].
    rewrite build_cost_matrix_predicts.
    run_tracker. eexists. split; [reflexivity | split; reflexivity]. }
  destruct Hrun as (self' & Hret & Hd & Hl).
  unfold after_far_detection, after_update. rewrite Hret.
  rewrite aged_pair_eq.
  repeat split; try assumption. exists self'. reflexivity.
Qed.

(** ** How far a tick advances a filter *)

Lemma predict_state (kf : Kalman.KalmanFilter) (a b c d : R) :
  Kalman.F kf = Kalman.F (Kalman._create_kalman_filter []) ->
  Kalman.x kf = [a; b; c; d] ->
  Kalman.x (Kalman.predict kf) = [a + c; b + d; c; d]
  /\ Kalman.F (Kalman.predict kf) = Kalman.F (Kalman._create_kalman_filter []).
Proof.
  intros HF Hx. split; [| exact HF].
  unfold Kalman.predict. cbn [Kalman.x]. rewrite HF, Hx.
  unfold Kalman.mat_vec, Kalman.dot. cbn -[Rplus Rmult].
  repeat (f_equal; try ring).
Qed.

Lemma predict_twice_differs (x0 : Kalman.Vector) :
  Kalman.predict (Kalman.predict (Kalman._create_kalman_filter x0))
  <> Kalman.predict (Kalman._create_kalman_filter x0).
Proof.
  intros E.
  apply (f_equal (fun kf => nth 0 (nth 0 (Kalman.P kf) []) 0)) in E.
  unfold Kalman.predict, Kalman._create_kalman_filter, Kalman.mat_add,
    Kalman.mat_mul, Kalman.mat_scale, Kalman.eye4, Kalman.dot in E.
  cbn -[Rplus Rmult Rdiv Rminus Rinv Ropp IZR] in E.
  lra.
Qed.

Lemma boxes_far_from_a (d t : nat) :
  (d < 2)%nat -> (t < 1)%nat ->
  100 <= VehicleTracker.cost_at
           (fst (VehicleTracker.build_cost_matrix [box_b; box_c]
                   [(0%nat, Kalman._create_kalman_filter
                              [0 + 10 / 2; 0 + 10 / 2; 0; 0])])) d t.
Proof.
  intros Hd Ht. assert (t = 0%nat) by lia. subst t.
  destruct (predict_state
              (Kalman._create_kalman_filter [0 + 10 / 2; 0 + 10 / 2; 0; 0])
              (0 + 10 / 2) (0 + 10 / 2) 0 0 eq_refl eq_refl) as [Hx1 HF1].
  destruct (predict_state _ _ _ _ _ HF1 Hx1) as [Hx2 _].
  destruct d as [| [| d]]; [| | lia].
  - erewrite cost_matrix_entry by reflexivity.
    unfold distance_to, Nat.iter, Kalman.x_at. cbn [nat_rect].
    rewrite Hx1. cbn [nth VehicleTracker.center box_b fst snd].
    apply far_apart. left. rewrite Rabs_pos_eq; lra.
  - erewrite cost_matrix_entry by reflexivity.
    unfold distance_to, Nat.iter, Kalman.x_at. cbn [nat_rect].
    rewrite Hx2. cbn [nth VehicleTracker.center box_c fst snd].
    apply far_apart. right. rewrite Rabs_pos_eq; lra.
Qed.

Lemma moving_costs :
  association_costs [box_one_ahead; box_two_ahead] moving_track = [[0]; [0]]
  /\ distance_to (VehicleTracker.center box_two_ahead)
       (Kalman.predict moving_filter) = 10.
Proof.
  destruct (predict_state moving_filter 100 100 10 0 eq_refl eq_refl)
    as [Hx1 HF1].
  destruct (predict_state _ _ _ _ _ HF1 Hx1) as [Hx2 _].
  assert (Hzero : forall u v, u = 0 -> v = 0 -> sqrt (u ^ 2 + v ^ 2) = 0).
  { intros u v -> ->. replace (0 ^ 2 + 0 ^ 2) with 0 by ring. apply sqrt_0. }
  split.
  - unfold association_costs, moving_track.
    cbn [VehicleTracker.trackers VehicleTracker.build_cost_matrix
         VehicleTracker.cost_row VehicleTracker.center box_one_ahead
         box_two_ahead fst snd].
    unfold Kalman.x_at. rewrite Hx1, Hx2. cbn [nth].
    rewrite !Hzero by lra. reflexivity.
  - unfold distance_to, Kalman.x_at. rewrite Hx1.
    cbn [nth VehicleTracker.center box_two_ahead fst snd].
    replace ((115 + 10 / 2 - (100 + 10)) ^ 2 + (95 + 10 / 2 - (100 + 0)) ^ 2)
      with (Rsqr 10) by (unfold Rsqr; lra).
    apply sqrt_Rsqr. lra.
Qed.

(** C4, on ticks that the code gets wrong.  A new tracker sees [box_a], then
    [box_b] and [box_c], both far from it: the filter of track 0 comes out of
    the second tick advanced twice, once for each detection, which is not its
    state after one prediction step.  And for a track that moves, the costs of
    two detections are measured against two different predicted centers: the
    detection two ticks ahead of [moving_track] gets cost 0, though it is 10
    pixels from the center predicted one step ahead. *)
Theorem association_predicts_per_detection
    (kf_update : Kalman.KalmanFilter -> R * R -> Kalman.KalmanFilter) :
  let kf_a := Kalman._create_kalman_filter [0 + 10 / 2; 0 + 10 / 2; 0; 0] in
  let s1 := after_update kf_update (VehicleTracker.init 30) [box_a] (640, 360) 0 in
  let s2 := after_update kf_update s1 [box_b; box_c] (640, 360) 1 in
  VehicleTracker.trackers s1 = [(0%nat, kf_a)]
  /\ PyDict.lookup (VehicleTracker.trackers s2) 0
     = Some (Kalman.predict (Kalman.predict kf_a))
  /\ Kalman.predict (Kalman.predict kf_a) <> Kalman.predict kf_a
  /\ association_costs [box_one_ahead; box_two_ahead] moving_track = [[0]; [0]]
  /\ distance_to (VehicleTracker.center box_two_ahead)
       (Kalman.predict moving_filter) = 10
  /\ VehicleTracker.trackers
       (VehicleTracker.final_state
          (VehicleTracker._associate_detections_to_trackers
             [box_one_ahead; box_two_ahead] (640, 360) 2 moving_track))
     = [(0%nat, Kalman.predict (Kalman.predict moving_filter))].
Proof.
  cbv zeta.
  assert (Hs1 :
    after_update kf_update (VehicleTracker.init 30) [box_a] (640, 360) 0
    = VehicleTracker.mk 1
        [(0%nat, Kalman._create_kalman_filter [0 + 10 / 2; 0 + 10 / 2; 0; 0])]
        [(0%nat, 0%nat)] 30 [(0%nat, [0])]
        [(0%nat, [(0 + 10 / 2, 0 + 10 / 2)])] [(0%nat, [0])] [(0%nat, box_a)])
    by reflexivity.
  rewrite Hs1. split; [reflexivity |].
  split.
  { unfold after_update.
    rewrite update_associates by discriminate.
    unfold VehicleTracker.bind at 1.
    rewrite associate_no_match;
      [| discriminate | intros d t Hd Ht; apply boxes_far_from_a; assumption].
    rewrite build_cost_matrix_predicts.
    run_tracker. reflexivity. }
  split; [apply predict_twice_differs |].
  split; [apply moving_costs |]. split; [apply moving_costs |].
  unfold VehicleTracker._associate_detections_to_trackers, moving_track.
  unfold VehicleTracker.bind at 1. unfold VehicleTracker.gets at 1.
  cbn [VehicleTracker.trackers List.length Nat.eqb].
  pose proof (build_cost_matrix_predicts [box_one_ahead; box_two_ahead]
                [(0%nat, moving_filter)]) as Hsnd.
  destruct (VehicleTracker.build_cost_matrix [box_one_ahead; box_two_ahead]
              [(0%nat, moving_filter)]) as [cost_matrix items].
  cbn [snd] in Hsnd. subst items.
  unfold VehicleTracker.bind at 1. unfold VehicleTracker.modify at 1.
  unfold VehicleTracker.bind at 1. unfold VehicleTracker.gets at 1.
  destruct (VehicleTracker.greedy_matching _ _ _); reflexivity.
Qed.

(** * Further properties of the collision scorer *)

(** ** Ranges *)

Lemma py_mod_range (a m : R) : 0 < m -> 0 <= py_mod a m < m.
Proof.
  intros Hm. unfold py_mod.
  destruct (base_Int_part (a / m)) as [Hlo Hhi].
  assert (Ha : a = m * (a / m)) by (field; lra).
  set (q := a / m) in *. set (i := IZR (Int_part q)) in *.
  split; nra.
Qed.

(** X1. The distance estimate of [calculate_distance] lies between 1 and 200
    meters for every box and view. *)
Theorem calculate_distance_range (self : CollisionDetector.t) (bbox : BBox)
    (view : string) :
  1 <= CollisionDetector.calculate_distance self bbox view <= 200.
Proof.
  destruct bbox as [[[x y] w] h].
  unfold CollisionDetector.calculate_distance, py_max, py_min.
  decide_reals.
Qed.

Lemma calculate_angle_in_turn (self : CollisionDetector.t) (bbox : BBox)
    (view : string) :
  0 <= CollisionDetector.calculate_angle self bbox view < 360.
Proof.
  pose proof (normalized_bearing_range self bbox) as Hb.
  destruct bbox as [[[x y] w] h].
  unfold CollisionDetector.calculate_angle.
  unfold normalized_bearing, CollisionDetector.frame_center in *. cbn [fst snd].
  repeat match goal with
         | |- context [String.eqb view ?v] => destruct (String.eqb view v)
         end;
    try exact Hb; apply py_mod_range; lra.
Qed.

(** X2. The angle of [calculate_angle] lies between 0 and 360, both ends
    included, for every box and every view tag, remapped or not.  (The upper
    end is left in: exact arithmetic stays below it, the rounded sums of the
    program reach it.) *)
Theorem calculate_angle_range (self : CollisionDetector.t) (bbox : BBox)
    (view : string) :
  0 <= CollisionDetector.calculate_angle self bbox view <= 360.
Proof.
  pose proof (calculate_angle_in_turn self bbox view) as H. lra.
Qed.

Lemma angle_from_center_in_half_turn (view : string) (angle : R) :
  0 <= angle < 360 ->
  0 <= CollisionDetector.angle_from_center_of view angle <= 180.
Proof.
  intros Ha. unfold CollisionDetector.angle_from_center_of.
  destruct (String.eqb view "front" || String.eqb view "back").
  - replace (angle - 0) with angle by lra. rewrite Rabs_pos_eq by lra.
    destruct (Rlt_dec 180 angle); lra.
  - unfold Rabs. destruct (Rcase_abs (angle - 90));
      match goal with |- context [Rlt_dec ?a ?b] => destruct (Rlt_dec a b) end;
      lra.
Qed.

Lemma actual_speed_nonneg (speed : R) (velocity : R * R) :
  0 <= CollisionDetector.actual_speed_of speed velocity
  /\ speed <= CollisionDetector.actual_speed_of speed velocity
  /\ sqrt (fst velocity ^ 2 + snd velocity ^ 2)
     <= CollisionDetector.actual_speed_of speed velocity.
Proof.
  destruct velocity as [vx vy]. unfold CollisionDetector.actual_speed_of.
  cbn [fst snd]. pose proof (sqrt_pos (vx ^ 2 + vy ^ 2)) as Hs.
  unfold py_max. destruct (Rlt_dec speed (sqrt (vx ^ 2 + vy ^ 2))); lra.
Qed.

(** X3. For the record that [analyze_vehicle] builds, the deviation from the
    reference heading that [predict_collision] grades lies between 0 and 180
    degrees, and the graded speed is at least the tracked speed, at least the
    magnitude of the velocity, and never negative. *)
Theorem graded_quantities_range (self : CollisionDetector.t) (bbox : BBox)
    (vehicle : TrackedVehicle) (view : string) :
  let info := CollisionDetector.analyze_vehicle self bbox vehicle view in
  0 <= graded_angle info view <= 180
  /\ 1 <= graded_distance info <= 200
  /\ 0 <= graded_speed info
  /\ tv_speed vehicle <= graded_speed info
  /\ sqrt (fst (tv_velocity vehicle) ^ 2 + snd (tv_velocity vehicle) ^ 2)
     <= graded_speed info.
Proof.
  cbv zeta. unfold graded_angle, graded_distance, graded_speed,
    CollisionDetector.analyze_vehicle.
  destruct (CollisionDetector.predict_collision _ _ _) as [[flag ttc] sev].
  cbn [vi_angle vi_distance vi_speed vi_velocity get].
  split; [apply angle_from_center_in_half_turn, calculate_angle_in_turn |].
  split.
  { destruct bbox as [[[x y] w] h].
    unfold CollisionDetector.calculate_distance, py_max, py_min.
    decide_reals. }
  apply actual_speed_nonneg.
Qed.

(** ** Flag and severity *)

Lemma base_severity_consistent (d s a : R) :
  fst (CollisionDetector.base_severity d s a) = true
  <-> snd (CollisionDetector.base_severity d s a) <> none.
Proof.
  unfold CollisionDetector.base_severity.
  repeat match goal with
         | |- context [if ?c then _ else _] => destruct c
         end; cbn; split; (discriminate || tauto || auto).
Qed.

Lemma overrides_consistent (d s a : R) (st : bool * Severity) :
  (fst st = true <-> snd st <> none) ->
  fst (CollisionDetector.escalation_overrides d s a st) = true
  <-> snd (CollisionDetector.escalation_overrides d s a st) <> none.
Proof.
  destruct st as [flag sev].
  unfold CollisionDetector.escalation_overrides,
    CollisionDetector.very_fast_check, CollisionDetector.very_close_check.
  destruct (Rleb Config.CRITICAL_SPEED s && Rleb d Config.HIGH_DISTANCE
            && Rleb a Config.HIGH_ANGLE);
    destruct (Rle_dec d (Config.CRITICAL_DISTANCE / 2));
    destruct sev; cbn; intros H; split; intros H'; try discriminate; try tauto;
    try reflexivity.
Qed.

Lemma classify_consistent (d s a : R) :
  fst (CollisionDetector.classify d s a) = true
  <-> snd (CollisionDetector.classify d s a) <> none.
Proof.
  unfold CollisionDetector.classify.
  apply overrides_consistent, base_severity_consistent.
Qed.

(** X4. [predict_collision] raises the collision flag exactly when the
    severity it returns is not 'none'. *)
Theorem collision_flag_iff_severity (self : CollisionDetector.t)
    (vehicle_info : VehicleInfo) (view : string) :
  let '(is_collision, _, severity) :=
    CollisionDetector.predict_collision self vehicle_info view in
  is_collision = true <-> severity <> none.
Proof.
  pose proof (verdict_classify self vehicle_info view) as Hv.
  destruct (CollisionDetector.predict_collision self vehicle_info view)
    as [[flag ttc] sev].
  cbn [verdict] in Hv.
  pose proof (classify_consistent (graded_distance vehicle_info)
                (graded_speed vehicle_info) (graded_angle vehicle_info view)) as H.
  rewrite <- Hv in H. exact H.
Qed.

Lemma classify_very_close (d s a : R) :
  d <= Config.CRITICAL_DISTANCE / 2 ->
  fst (CollisionDetector.classify d s a) = true
  /\ (snd (CollisionDetector.classify d s a) = high
      \/ snd (CollisionDetector.classify d s a) = critical).
Proof.
  intros Hd. unfold CollisionDetector.classify,
    CollisionDetector.escalation_overrides, CollisionDetector.very_fast_check,
    CollisionDetector.very_close_check.
  destruct (CollisionDetector.base_severity d s a) as [flag sev].
  destruct (Rle_dec d (Config.CRITICAL_DISTANCE / 2)); [| lra].
  destruct (Rleb Config.CRITICAL_SPEED s && Rleb d Config.HIGH_DISTANCE
            && Rleb a Config.HIGH_ANGLE);
    destruct sev; cbn; auto.
Qed.

(** X5. A vehicle at half the critical distance or nearer is flagged with
    severity 'high' or 'critical', whatever its speed, velocity and angle. *)
Theorem very_close_always_flagged (self : CollisionDetector.t)
    (vehicle_info : VehicleInfo) (view : string) :
  graded_distance vehicle_info <= Config.CRITICAL_DISTANCE / 2 ->
  let '(is_collision, _, severity) :=
    CollisionDetector.predict_collision self vehicle_info view in
  is_collision = true /\ (severity = high \/ severity = critical).
Proof.
  intros Hd.
  pose proof (verdict_classify self vehicle_info view) as Hv.
  destruct (CollisionDetector.predict_collision self vehicle_info view)
    as [[flag ttc] sev].
  cbn [verdict] in Hv.
  pose proof (classify_very_close _ (graded_speed vehicle_info)
                (graded_angle vehicle_info view) Hd) as H.
  rewrite <- Hv in H. exact H.
Qed.

Lemma very_close_always_flagged_witness :
  let '(is_collision, _, severity) :=
    CollisionDetector.predict_collision example_detector
      (vehicle_at 2 0 170) "front" in
  is_collision = true /\ (severity = high \/ severity = critical).
Proof.
  apply (very_close_always_flagged example_detector (vehicle_at 2 0 170)
           "front"%string).
  unfold graded_distance, vehicle_at, get, vi_distance. unfold_config. lra.
Defined.

(** ** Scores *)

Lemma distance_score_range (d : R) :
  0 <= CollisionDetector.distance_score d <= 1.
Proof.
  unfold CollisionDetector.distance_score, py_max. unfold_config. decide_reals.
Qed.

Lemma speed_score_range (s : R) :
  0 <= s -> 0 <= CollisionDetector.speed_score s <= 1.
Proof.
  intros Hs. unfold CollisionDetector.speed_score. unfold_config. decide_reals.
Qed.

Lemma angle_score_range (a : R) :
  0 <= CollisionDetector.angle_score a <= 1.
Proof.
  unfold CollisionDetector.angle_score, py_max. unfold_config. decide_reals.
Qed.

Lemma combined_score_range (d s a : R) :
  0 <= s -> 0 <= CollisionDetector.combined_score d s a <= 1.
Proof.
  intros Hs. unfold CollisionDetector.combined_score.
  pose proof (distance_score_range d). pose proof (speed_score_range s Hs).
  pose proof (angle_score_range a). lra.
Qed.

(** X6. The three risk scores that [predict_collision] computes, and their
    weighted sum, lie between 0 and 1 for every vehicle record and view. *)
Theorem risk_scores_range (vehicle_info : VehicleInfo) (view : string) :
  let d := graded_distance vehicle_info in
  let s := graded_speed vehicle_info in
  let a := graded_angle vehicle_info view in
  0 <= CollisionDetector.distance_score d <= 1
  /\ 0 <= CollisionDetector.speed_score s <= 1
  /\ 0 <= CollisionDetector.angle_score a <= 1
  /\ 0 <= CollisionDetector.combined_score d s a <= 1.
Proof.
  cbv zeta.
  assert (Hs : 0 <= graded_speed vehicle_info)
    by (unfold graded_speed; apply actual_speed_nonneg).
  repeat split;
    first [ apply distance_score_range | apply speed_score_range; exact Hs
          | apply angle_score_range | apply combined_score_range; exact Hs ].
Qed.

(** ** What the severity tells about the vehicle *)

Lemma base_severity_critical_distance (d s a : R) :
  0 <= s -> d <= Config.CRITICAL_DISTANCE ->
  snd (CollisionDetector.base_severity d s a) <> none.
Proof.
  intros Hs Hd.
  assert (Hscore : 3 / 10 <= CollisionDetector.combined_score d s a).
  { unfold CollisionDetector.combined_score.
    pose proof (speed_score_range s Hs). pose proof (angle_score_range a).
    assert (CollisionDetector.distance_score d = 1)
      by (unfold CollisionDetector.distance_score;
          destruct (Rle_dec d Config.CRITICAL_DISTANCE); [reflexivity | lra]).
    lra. }
  unfold CollisionDetector.base_severity.
  repeat match goal with
         | |- context [if ?c then _ else _] => destruct c
         end; cbn; try discriminate. lra.
Qed.

Lemma overrides_keep_flagged (d s a : R) (st : bool * Severity) :
  snd st <> none ->
  snd (CollisionDetector.escalation_overrides d s a st) <> none.
Proof.
  destruct st as [flag sev].
  unfold CollisionDetector.escalation_overrides,
    CollisionDetector.very_fast_check, CollisionDetector.very_close_check.
  destruct (Rleb Config.CRITICAL_SPEED s && Rleb d Config.HIGH_DISTANCE
            && Rleb a Config.HIGH_ANGLE);
    destruct (Rle_dec d (Config.CRITICAL_DISTANCE / 2));
    destruct sev; cbn; intros H; try discriminate; exact H.
Qed.

(** X7. A vehicle within the critical distance is always flagged: if no tier
    matches, the distance alone brings the combined score to 0.4, above the
    0.3 that 'low' needs. *)
Theorem within_critical_distance_flagged (self : CollisionDetector.t)
    (vehicle_info : VehicleInfo) (view : string) :
  graded_distance vehicle_info <= Config.CRITICAL_DISTANCE ->
  let '(is_collision, _, severity) :=
    CollisionDetector.predict_collision self vehicle_info view in
  is_collision = true /\ severity <> none.
Proof.
  intros Hd.
  pose proof (verdict_classify self vehicle_info view) as Hv.
  destruct (CollisionDetector.predict_collision self vehicle_info view)
    as [[flag ttc] sev].
  cbn [verdict] in Hv.
  assert (Hs : 0 <= graded_speed vehicle_info)
    by (unfold graded_speed; apply actual_speed_nonneg).
  assert (Hsev : snd (CollisionDetector.classify (graded_distance vehicle_info)
                        (graded_speed vehicle_info)
                        (graded_angle vehicle_info view)) <> none).
  { unfold CollisionDetector.classify. apply overrides_keep_flagged.
    apply base_severity_critical_distance; assumption. }
  pose proof (proj2 (classify_consistent _ _ _) Hsev) as Hflag.
  rewrite <- Hv in Hsev, Hflag. split; assumption.
Qed.

Lemma within_critical_distance_flagged_witness :
  let '(is_collision, _, severity) :=
    CollisionDetector.predict_collision example_detector
      (vehicle_at 4 0 170) "front" in
  is_collision = true /\ severity <> none.
Proof.
  apply (within_critical_distance_flagged example_detector (vehicle_at 4 0 170)
           "front"%string).
  unfold graded_distance, vehicle_at, get, vi_distance. unfold_config. lra.
Defined.

Lemma base_severity_critical (d s a : R) :
  snd (CollisionDetector.base_severity d s a) = critical ->
  d <= Config.CRITICAL_DISTANCE /\ Config.LOW_SPEED <= s
  /\ a <= Config.CRITICAL_ANGLE.
Proof.
  unfold CollisionDetector.base_severity, Rleb.
  destruct (Rle_dec d Config.CRITICAL_DISTANCE);
    destruct (Rle_dec Config.LOW_SPEED s);
    destruct (Rle_dec a Config.CRITICAL_ANGLE); cbn [andb];
    try (intros _; repeat split; assumption);
    repeat match goal with
           | |- context [if ?c then _ else _] => destruct c
           end; cbn; discriminate.
Qed.

Lemma classify_critical (d s a : R) :
  snd (CollisionDetector.classify d s a) = critical ->
  d <= Config.HIGH_DISTANCE
  /\ (d <= Config.CRITICAL_DISTANCE / 2 \/ a <= Config.HIGH_ANGLE).
Proof.
  unfold CollisionDetector.classify, CollisionDetector.escalation_overrides,
    CollisionDetector.very_fast_check, CollisionDetector.very_close_check.
  pose proof (base_severity_critical d s a) as Hbase.
  destruct (CollisionDetector.base_severity d s a) as [flag sev].
  cbn [snd] in Hbase. unfold Rleb. unfold_config.
  destruct (Rle_dec 20 s); destruct (Rle_dec d 10); destruct (Rle_dec a 30);
    destruct (Rle_dec d (5 / 2)); cbn [andb snd]; intros H;
    try (split; [lra | (left; lra) || (right; lra)]);
    destruct sev; cbn in H; try discriminate H;
    destruct (Hbase eq_refl) as (H1 & H2 & H3);
    split; try lra; right; lra.
Qed.

(** X8. A vehicle farther than HIGH_DISTANCE is never 'critical': severity
    'critical' means the distance is at most HIGH_DISTANCE and, unless it is
    within half the critical distance, the angle from center is at most
    HIGH_ANGLE. *)
Theorem critical_means_near (self : CollisionDetector.t)
    (vehicle_info : VehicleInfo) (view : string) :
  severity_of (CollisionDetector.predict_collision self vehicle_info view)
  = critical ->
  graded_distance vehicle_info <= Config.HIGH_DISTANCE
  /\ (graded_distance vehicle_info <= Config.CRITICAL_DISTANCE / 2
      \/ graded_angle vehicle_info view <= Config.HIGH_ANGLE).
Proof.
  unfold severity_of. rewrite verdict_classify. apply classify_critical.
Qed.

Lemma classify_4_20_0 : snd (CollisionDetector.classify 4 20 0) = critical.
Proof. eval_classify. Qed.

Lemma critical_means_near_witness :
  graded_distance (vehicle_at 4 20 0) <= Config.HIGH_DISTANCE.
Proof.
  apply (critical_means_near example_detector (vehicle_at 4 20 0) "front"%string).
  rewrite severity_vehicle_at by lra. apply classify_4_20_0.
Defined.

(** ** Time to collision *)



(** ** Tall boxes *)

Lemma tall_box_distance (self : CollisionDetector.t) (x y w h : R)
    (view : string) :
  252 / 25 <= h ->
  CollisionDetector.calculate_distance self (x, y, w, h) view
  <= Config.CRITICAL_DISTANCE / 2.
Proof.
  intros Hh. unfold CollisionDetector.calculate_distance, py_max, py_min.
  unfold_config.
  assert (Hq : 18 / 10 * 700 / h / 50 <= 5 / 2).
  { replace (18 / 10 * 700 / h / 50) with (126 / 5 * / h) by (field; lra).
    assert (/ h <= / (252 / 25)) by (apply Rinv_le_contravar; lra).
    replace (/ (252 / 25)) with (25 / 252) in * by (field; lra). lra. }
  decide_reals.
Qed.

(** X10. A box 10.08 pixels tall or taller is estimated at 2.5 m or nearer,
    so [analyze_vehicle] flags it with severity 'high' or 'critical' whatever
    the track's position, speed and velocity, the view and the frame size. *)
Theorem tall_box_always_flagged (self : CollisionDetector.t) (x y w h : R)
    (vehicle : TrackedVehicle) (view : string) :
  252 / 25 <= h ->
  let info := CollisionDetector.analyze_vehicle self (x, y, w, h) vehicle view in
  vi_collision_detected info = Some true
  /\ (vi_severity info = Some high \/ vi_severity info = Some critical).
Proof.
  intros Hh. cbv zeta. unfold CollisionDetector.analyze_vehicle.
  match goal with
  | |- context [CollisionDetector.predict_collision ?s ?vi ?v] =>
      pose proof (verdict_classify s vi v) as Hv;
      destruct (CollisionDetector.predict_collision s vi v) as [[flag ttc] sev];
      pose proof (classify_very_close (graded_distance vi) (graded_speed vi)
                    (graded_angle vi v)) as Hc
  end.
  cbn [verdict vi_collision_detected vi_severity] in *.
  rewrite <- Hv in Hc. cbn [fst snd] in Hc.
  destruct Hc as [-> Hsev].
  - unfold graded_distance. cbn [vi_distance get].
    apply tall_box_distance. exact Hh.
  - split; [reflexivity |]. destruct Hsev as [-> | ->]; auto.
Qed.

Lemma tall_box_always_flagged_witness :
  vi_collision_detected
    (CollisionDetector.analyze_vehicle example_detector (600, 300, 20, 11)
       (mkTrackedVehicle 0 (610, 305) (0, 0) 0 [] (600, 300, 20, 11)) "front")
  = Some true.
Proof.
  apply (tall_box_always_flagged example_detector 600 300 20 11
           (mkTrackedVehicle 0 (610, 305) (0, 0) 0 [] (600, 300, 20, 11))
           "front"%string).
  lra.
Defined.

(** * Further properties of the alert aggregator *)

Lemma max_severity_of_app (l1 l2 : list Severity) :
  max_severity_of (l1 ++ l2)
  = severity_max (max_severity_of l1) (max_severity_of l2).
Proof.
  induction l1 as [| a l1 IH]; cbn [app max_severity_of fold_right].
  - symmetry. apply severity_max_none_l.
  - fold (max_severity_of (l1 ++ l2)). fold (max_severity_of l1).
    rewrite IH, severity_max_assoc. reflexivity.
Qed.

Lemma check_alerts_result (format_1f : R -> string) (format_id : nat -> string)
    (self : AlertSystem.t) (vehicles_info : list VehicleInfo) :
  AlertSystem.check_alerts format_1f format_id self vehicles_info
  = ((existsb flagged vehicles_info,
      max_severity_of (map recorded_severity (filter flagged vehicles_info)),
      map (fun v => AlertSystem.alert_message format_1f format_id v
                      (recorded_severity v))
          (filter flagged vehicles_info)),
     AlertSystem.mk (AlertSystem.alert_sound_enabled self)
       (existsb flagged vehicles_info)
       (max_severity_of (map recorded_severity (filter flagged vehicles_info)))).
Proof.
  unfold AlertSystem.check_alerts. rewrite check_vehicle_fold.
  cbn [orb app]. rewrite severity_max_none_l. reflexivity.
Qed.

(** X11. [check_alerts] on the vehicles of several views put together, as the
    multi-view loop calls it, is the combination of its answers on the parts:
    the flags are or-ed, the severities maximized, the messages appended in
    order. *)
Theorem check_alerts_app (format_1f : R -> string) (format_id : nat -> string)
    (self1 self2 self : AlertSystem.t) (l1 l2 : list VehicleInfo) :
  let '(flag1, sev1, msgs1) :=
    fst (AlertSystem.check_alerts format_1f format_id self1 l1) in
  let '(flag2, sev2, msgs2) :=
    fst (AlertSystem.check_alerts format_1f format_id self2 l2) in
  fst (AlertSystem.check_alerts format_1f format_id self (l1 ++ l2))
  = (flag1 || flag2, severity_max sev1 sev2, msgs1 ++ msgs2).
Proof.
  rewrite !check_alerts_result. cbn [fst].
  rewrite existsb_app, filter_app, !map_app, max_severity_of_app. reflexivity.
Qed.

Lemma max_severity_of_none (l : list Severity) :
  max_severity_of l = none <-> forall s, In s l -> s = none.
Proof.
  split.
  - intros H s Hin. pose proof (max_severity_of_ub l s Hin) as Hle.
    rewrite H in Hle. unfold rank_le in Hle. destruct s; cbn in Hle; try lia.
    reflexivity.
  - intros H. destruct (max_severity_of_attained l) as [E | Hin]; [exact E |].
    apply H. exact Hin.
Qed.

(** X12. On records whose flag and severity agree, as [analyze_vehicle]
    writes them, [check_alerts] alerts exactly when the severity it returns is
    not 'none'. *)
Theorem check_alerts_scored (format_1f : R -> string) (format_id : nat -> string)
    (self : AlertSystem.t) (vehicles_info : list VehicleInfo) :
  (forall v, In v vehicles_info -> scored v) ->
  let '(should_alert, max_severity, _) :=
    fst (AlertSystem.check_alerts format_1f format_id self vehicles_info) in
  should_alert = true <-> max_severity <> none.
Proof.
  intros Hscored. rewrite check_alerts_result. cbn [fst].
  rewrite max_severity_of_none. split.
  - intros Hex Hall. apply existsb_exists in Hex. destruct Hex as (v & Hin & Hv).
    destruct (Hscored v Hin) as (flag & sev & Ef & Es & Hiff).
    assert (Hr : recorded_severity v = none).
    { apply Hall. apply in_map. apply filter_In. auto. }
    unfold flagged in Hv. unfold recorded_severity in Hr.
    rewrite Ef in Hv. rewrite Es in Hr. cbn in Hv, Hr. subst.
    apply (proj1 Hiff); reflexivity.
  - intros Hnot. destruct (existsb flagged vehicles_info) eqn:Hex;
      [reflexivity |].
    exfalso. apply Hnot. intros s Hin. apply in_map_iff in Hin.
    destruct Hin as (v & _ & Hin). apply filter_In in Hin.
    destruct Hin as [Hin Hv].
    assert (existsb flagged vehicles_info = true)
      by (apply existsb_exists; eauto).
    congruence.
Qed.

Lemma check_alerts_scored_witness :
  let '(should_alert, max_severity, _) :=
    fst (AlertSystem.check_alerts (fun _ => EmptyString) (fun _ => EmptyString)
           (AlertSystem.mk false false none)
           [scored_vehicle true low; scored_vehicle false none]) in
  should_alert = true <-> max_severity <> none.
Proof.
  apply (check_alerts_scored (fun _ => EmptyString) (fun _ => EmptyString)
           (AlertSystem.mk false false none)
           [scored_vehicle true low; scored_vehicle false none]).
  intros v [<- | [<- | []]].
  - exists true, low. repeat split; discriminate.
  - exists false, none. repeat split; [discriminate | intros H; now elim H].
Defined.

(** * Further properties of the association step *)

Section ScanMinimum.
Variable cost_matrix : list (list R).

Lemma scan_trks_below_old (det_idx : nat) (trks : list nat)
    (best : option (R * nat * nat)) (x : R) :
  below best x -> below (VehicleTracker.scan_trks cost_matrix det_idx trks best) x.
Proof.
  revert best. induction trks as [| trk trks IH]; intros best Hb; [exact Hb |].
  cbn [VehicleTracker.scan_trks fold_left]. apply IH.
  destruct Hb as (c & d & t & -> & Hc).
  destruct (Rlt_dec (VehicleTracker.cost_at cost_matrix det_idx trk) c).
  - do 3 eexists. split; [reflexivity | lra].
  - do 3 eexists. split; [reflexivity | exact Hc].
Qed.

Lemma scan_trks_below_new (det_idx : nat) (trks : list nat)
    (best : option (R * nat * nat)) (trk : nat) :
  In trk trks ->
  below (VehicleTracker.scan_trks cost_matrix det_idx trks best)
        (VehicleTracker.cost_at cost_matrix det_idx trk).
Proof.
  revert best. induction trks as [| trk' trks IH]; intros best; [intros [] |].
  intros [-> | Hin]; cbn [VehicleTracker.scan_trks fold_left].
  - apply scan_trks_below_old.
    destruct best as [[[c d] t] |].
    + destruct (Rlt_dec (VehicleTracker.cost_at cost_matrix det_idx trk) c).
      * do 3 eexists. split; [reflexivity | lra].
      * do 3 eexists. split; [reflexivity | lra].
    + do 3 eexists. split; [reflexivity | lra].
  - apply IH. exact Hin.
Qed.

Lemma scan_dets_below_old (dets trks : list nat)
    (best : option (R * nat * nat)) (x : R) :
  below best x ->
  below (fold_left
           (fun best det_idx =>
              VehicleTracker.scan_trks cost_matrix det_idx trks best)
           dets best) x.
Proof.
  revert best. induction dets as [| det dets IH]; intros best Hb; [exact Hb |].
  cbn [fold_left]. apply IH. apply scan_trks_below_old. exact Hb.
Qed.

Lemma scan_dets_below_new (dets trks : list nat)
    (best : option (R * nat * nat)) (det trk : nat) :
  In det dets -> In trk trks ->
  below (fold_left
           (fun best det_idx =>
              VehicleTracker.scan_trks cost_matrix det_idx trks best)
           dets best)
        (VehicleTracker.cost_at cost_matrix det trk).
Proof.
  revert best. induction dets as [| det' dets IH]; intros best; [intros [] |].
  intros [-> | Hin] Ht; cbn [fold_left].
  - apply scan_dets_below_old. apply scan_trks_below_new. exact Ht.
  - apply IH; assumption.
Qed.

(** The scan finds a smallest entry among the unmatched pairs, and finds
    nothing only when there is no such pair. *)
Lemma scan_min_least (dets trks : list nat) (det trk : nat) :
  In det dets -> In trk trks ->
  exists c d t,
    VehicleTracker.scan_min cost_matrix dets trks = Some (c, d, t)
    /\ c <= VehicleTracker.cost_at cost_matrix det trk.
Proof.
  intros Hd Ht. apply (scan_dets_below_new dets trks None det trk Hd Ht).
Qed.

End ScanMinimum.

Lemma list_remove_perm (v : nat) (l : list nat) :
  In v l -> Permutation (v :: VehicleTracker.list_remove v l) l.
Proof.
  induction l as [| a l IH]; [intros [] |].
  intros Hin. cbn [VehicleTracker.list_remove].
  destruct (Nat.eqb_spec a v) as [-> | E]; [reflexivity |].
  destruct Hin as [Hin | Hin]; [contradiction |].
  rewrite perm_swap. apply perm_skip. apply IH. exact Hin.
Qed.

Lemma sorted_snoc (l : list R) (a : R) :
  StronglySorted Rle l -> Forall (fun x => x <= a) l ->
  StronglySorted Rle (l ++ [a]).
Proof.
  induction 1 as [| b l Hs IH Hb]; intros Hall; cbn [app].
  - repeat constructor.
  - apply Forall_cons_iff in Hall. destruct Hall as [Hba Hall].
    constructor; [apply IH; exact Hall |].
    apply Forall_app. split; [exact Hb |].
    apply Forall_cons; [exact Hba | apply Forall_nil].
Qed.

Lemma greedy_loop_state (cost_matrix : list (list R)) (all_dets all_trks : list nat)
    (fuel : nat) :
  forall matched unmatched_dets unmatched_trks matched' dets' trks',
    VehicleTracker.greedy_loop fuel cost_matrix matched unmatched_dets
      unmatched_trks = Some (matched', dets', trks') ->
    greedy_state cost_matrix all_dets all_trks matched unmatched_dets
      unmatched_trks ->
    greedy_state cost_matrix all_dets all_trks matched' dets' trks'
    /\ forall d t, In d dets' -> In t trks' ->
         VehicleTracker.max_distance <= VehicleTracker.cost_at cost_matrix d t.
Proof.
  induction fuel as [| fuel IH];
    intros matched ud ut matched' dets' trks' Hrun Hst; [discriminate Hrun |].
  cbn [VehicleTracker.greedy_loop] in Hrun.
  destruct (VehicleTracker.scan_min cost_matrix ud ut)
    as [[[min_cost min_det] min_trk] |] eqn:Hscan.
  - pose proof (scan_min_sound _ _ _ _ _ _ Hscan) as (Ec & Hd & Ht).
    assert (Hleast : forall d t, In d ud -> In t ut ->
               min_cost <= VehicleTracker.cost_at cost_matrix d t).
    { intros d t Hd' Ht'.
      destruct (scan_min_least cost_matrix ud ut d t Hd' Ht')
        as (c & d0 & t0 & E & Hc).
      rewrite Hscan in E. injection E as <- <- <-. exact Hc. }
    destruct (Rlt_dec min_cost VehicleTracker.max_distance) as [Hlt | Hge].
    + apply (IH _ _ _ _ _ _ Hrun).
      destruct Hst as (Pd & Pt & Hsorted & Hle).
      unfold greedy_state, matched_costs in *.
      rewrite !map_app. cbn [map fst snd]. rewrite <- !app_assoc. cbn [app].
      repeat split.
      * rewrite <- Pd. apply Permutation_app_head. apply list_remove_perm, Hd.
      * rewrite <- Pt. apply Permutation_app_head. apply list_remove_perm, Ht.
      * apply sorted_snoc; [exact Hsorted |].
        apply Forall_forall. intros c Hc. apply Hle; assumption.
      * intros c d t Hc Hd' Ht'. apply in_app_or in Hc.
        apply list_remove_incl in Hd', Ht'.
        destruct Hc as [Hc | [<- | []]]; [apply Hle; assumption |].
        rewrite <- Ec. apply Hleast; assumption.
    + injection Hrun as <- <- <-. split; [exact Hst |].
      intros d t Hd' Ht'. specialize (Hleast d t Hd' Ht'). lra.
  - injection Hrun as <- <- <-. split; [exact Hst |].
    intros d t Hd' Ht'.
    destruct (scan_min_least cost_matrix ud ut d t Hd' Ht')
      as (c & d0 & t0 & E & _).
    rewrite Hscan in E. discriminate E.
Qed.

Lemma cost_row_length (cx cy : R) (items : PyDict.t Kalman.KalmanFilter) :
  List.length (fst (VehicleTracker.cost_row cx cy items)) = List.length items.
Proof.
  induction items as [| [object_id kf] items IH]; [reflexivity |].
  cbn [VehicleTracker.cost_row].
  destruct (VehicleTracker.cost_row cx cy items) as [row rest].
  cbn [fst List.length] in *. rewrite IH. reflexivity.
Qed.

Lemma build_cost_matrix_shape (detections : list BBox)
    (items : PyDict.t Kalman.KalmanFilter) :
  List.length (fst (VehicleTracker.build_cost_matrix detections items))
  = List.length detections
  /\ (detections <> [] ->
      List.length (hd [] (fst (VehicleTracker.build_cost_matrix detections items)))
      = List.length items).
Proof.
  destruct detections as [| detection detections].
  - split; [reflexivity | intros H; now elim H].
  - cbn [VehicleTracker.build_cost_matrix].
    destruct (VehicleTracker.center detection) as [cx cy].
    pose proof (cost_row_length cx cy items) as Hrow.
    destruct (VehicleTracker.cost_row cx cy items) as [row items1].
    assert (Hlen : forall ds its,
               List.length (fst (VehicleTracker.build_cost_matrix ds its))
               = List.length ds).
    { induction ds as [| d ds IH]; intros its; [reflexivity |].
      cbn [VehicleTracker.build_cost_matrix].
      destruct (VehicleTracker.center d) as [cx' cy'].
      destruct (VehicleTracker.cost_row cx' cy' its) as [row' its1].
      specialize (IH its1).
      destruct (VehicleTracker.build_cost_matrix ds its1) as [rows its2].
      cbn [fst List.length] in *. rewrite IH. reflexivity. }
    specialize (Hlen detections items1).
    destruct (VehicleTracker.build_cost_matrix detections items1)
      as [rows items2].
    cbn [fst hd List.length] in *. split; [rewrite Hlen; reflexivity |].
    intros _. exact Hrow.
Qed.

Lemma greedy_matching_state (cost_matrix : list (list R))
    (n_detections n_trackers : nat) :
  (n_detections <> 0%nat -> n_trackers <> 0%nat ->
   List.length cost_matrix <> 0%nat /\ List.length (hd [] cost_matrix) <> 0%nat) ->
  exists matched dets trks,
    VehicleTracker.greedy_matching cost_matrix n_detections n_trackers
    = Some (matched, dets, trks)
    /\ greedy_state cost_matrix (seq 0 n_detections) (seq 0 n_trackers)
         matched dets trks
    /\ forall d t, In d dets -> In t trks ->
         VehicleTracker.max_distance <= VehicleTracker.cost_at cost_matrix d t.
Proof.
  intros Hshape.
  assert (Hstart : greedy_state cost_matrix (seq 0 n_detections)
                     (seq 0 n_trackers) [] (seq 0 n_detections)
                     (seq 0 n_trackers)).
  { unfold greedy_state. cbn. repeat split; try reflexivity.
    - constructor.
    - intros c d t []. }
  unfold VehicleTracker.greedy_matching.
  destruct ((0 <? List.length cost_matrix)%nat
            && (0 <? List.length (hd [] cost_matrix))%nat) eqn:Hguard.
  - destruct (greedy_loop_returns cost_matrix (S n_detections) []
                (seq 0 n_detections) (seq 0 n_trackers))
      as [[[matched dets] trks] Hrun]; [rewrite length_seq; lia |].
    exists matched, dets, trks. split; [exact Hrun |].
    apply (greedy_loop_state _ _ _ _ _ _ _ _ _ _ Hrun Hstart).
  - exists [], (seq 0 n_detections), (seq 0 n_trackers).
    split; [reflexivity | split; [exact Hstart |]].
    intros d t Hd Ht. apply in_seq in Hd, Ht. exfalso.
    destruct Hshape as [H1 H2]; [lia | lia |].
    apply andb_false_iff in Hguard.
    destruct Hguard as [Hg | Hg]; apply Nat.ltb_ge in Hg; lia.
Qed.

(** The association step returns; its three lists split the detection and
    track indices, the matched costs ascend and stay at or below every
    unmatched pair, and no unmatched pair is below the gate. *)
Lemma associate_greedy (detections : list BBox) (frame_center : R * R)
    (current_time : R) (self : VehicleTracker.t) :
  exists matched unmatched_dets unmatched_trks self',
    VehicleTracker._associate_detections_to_trackers detections frame_center
      current_time self
    = VehicleTracker.Returned (matched, unmatched_dets, unmatched_trks) self'
    /\ greedy_state (association_costs detections self)
         (seq 0 (List.length detections))
         (seq 0 (List.length (VehicleTracker.trackers self)))
         matched unmatched_dets unmatched_trks
    /\ forall d t, In d unmatched_dets -> In t unmatched_trks ->
         100 <= VehicleTracker.cost_at (association_costs detections self) d t.
Proof.
  unfold VehicleTracker._associate_detections_to_trackers, association_costs,
    VehicleTracker.bind, VehicleTracker.gets, VehicleTracker.modify.
  destruct (List.length (VehicleTracker.trackers self) =? 0)%nat eqn:Hempty.
  - apply Nat.eqb_eq in Hempty. rewrite Hempty.
    exists [], (seq 0 (List.length detections)), [], self.
    split; [reflexivity |]. split; [| intros d t _ []].
    unfold greedy_state. cbn [map app matched_costs seq].
    repeat split; try reflexivity; [constructor |].
    intros c d t [].
  - apply Nat.eqb_neq in Hempty.
    pose proof (build_cost_matrix_predicts detections
                  (VehicleTracker.trackers self)) as Hsnd.
    pose proof (build_cost_matrix_shape detections
                  (VehicleTracker.trackers self)) as [Hrows Hcols].
    destruct (VehicleTracker.build_cost_matrix detections
                (VehicleTracker.trackers self)) as [cost_matrix items].
    cbn [fst snd] in *.
    cbn [VehicleTracker.trackers VehicleTracker.set_trackers].
    assert (Hlen : List.length items
                   = List.length (VehicleTracker.trackers self))
      by (subst items; apply length_map).
    rewrite Hlen.
    destruct (greedy_matching_state cost_matrix (List.length detections)
                (List.length (VehicleTracker.trackers self)))
      as (matched & dets & trks & -> & Hst & Hmax).
    { intros Hd Ht. rewrite Hrows. split; [exact Hd |].
      rewrite Hcols; [exact Ht |]. intros ->. apply Hd. reflexivity. }
    exists matched, dets, trks. eexists.
    split; [reflexivity | split; [exact Hst | exact Hmax]].
Qed.

(** X13. The association step splits the indices: the matched detections
    followed by the unmatched ones are a rearrangement of
    [range(len(detections))], and likewise for the tracks, so that no
    detection and no track is matched twice or both matched and left over. *)
Theorem association_partitions (detections : list BBox) (frame_center : R * R)
    (current_time : R) (self : VehicleTracker.t) :
  exists matched unmatched_dets unmatched_trks self',
    VehicleTracker._associate_detections_to_trackers detections frame_center
      current_time self
    = VehicleTracker.Returned (matched, unmatched_dets, unmatched_trks) self'
    /\ Permutation (map fst matched ++ unmatched_dets)
         (seq 0 (List.length detections))
    /\ Permutation (map snd matched ++ unmatched_trks)
         (seq 0 (List.length (VehicleTracker.trackers self)))
    /\ NoDup (map fst matched ++ unmatched_dets)
    /\ NoDup (map snd matched ++ unmatched_trks).
Proof.
  destruct (associate_greedy detections frame_center current_time self)
    as (matched & ud & ut & self' & Hret & (Pd & Pt & _) & _).
  exists matched, ud, ut, self'. repeat split; try assumption.
  - apply (Permutation_NoDup (Permutation_sym Pd)), seq_NoDup.
  - apply (Permutation_NoDup (Permutation_sym Pt)), seq_NoDup.
Qed.

(** X14. The association step leaves nothing to match: every detection and
    track that it leaves unmatched are at least the gate of 100 pixels
    apart (in the cost matrix). *)
Theorem association_is_maximal (detections : list BBox) (frame_center : R * R)
    (current_time : R) (self : VehicleTracker.t) :
  exists matched unmatched_dets unmatched_trks self',
    VehicleTracker._associate_detections_to_trackers detections frame_center
      current_time self
    = VehicleTracker.Returned (matched, unmatched_dets, unmatched_trks) self'
    /\ forall det_idx trk_idx,
         In det_idx unmatched_dets -> In trk_idx unmatched_trks ->
         100 <= VehicleTracker.cost_at (association_costs detections self)
                  det_idx trk_idx.
Proof.
  destruct (associate_greedy detections frame_center current_time self)
    as (matched & ud & ut & self' & Hret & _ & Hmax).
  exists matched, ud, ut, self'. split; assumption.
Qed.

(** X15. The association step matches cheapest first: the costs of the
    matched pairs ascend in the order of matching, and each is at most the
    cost of any pair of a detection and a track left unmatched. *)
Theorem association_cheapest_first (detections : list BBox)
    (frame_center : R * R) (current_time : R) (self : VehicleTracker.t) :
  exists matched unmatched_dets unmatched_trks self',
    VehicleTracker._associate_detections_to_trackers detections frame_center
      current_time self
    = VehicleTracker.Returned (matched, unmatched_dets, unmatched_trks) self'
    /\ StronglySorted Rle
         (matched_costs (association_costs detections self) matched)
    /\ forall c det_idx trk_idx,
         In c (matched_costs (association_costs detections self) matched) ->
         In det_idx unmatched_dets -> In trk_idx unmatched_trks ->
         c <= VehicleTracker.cost_at (association_costs detections self)
                det_idx trk_idx.
Proof.
  destruct (associate_greedy detections frame_center current_time self)
    as (matched & ud & ut & self' & Hret & (_ & _ & Hsorted & Hle) & _).
  exists matched, ud, ut, self'. repeat split; assumption.
Qed.

(** * Further properties of the tracker *)

(** ** Dictionaries *)

Lemma lookup_set {V : Type} (d : PyDict.t V) (k k' : nat) (v : V) :
  PyDict.lookup (PyDict.set d k v) k'
  = if (k =? k')%nat then Some v else PyDict.lookup d k'.
Proof.
  induction d as [| [k0 v0] d IH]; cbn [PyDict.set PyDict.lookup].
  - destruct (k =? k')%nat; reflexivity.
  - destruct (Nat.eqb_spec k0 k) as [-> | E]; cbn [PyDict.lookup].
    + destruct (k =? k')%nat; reflexivity.
    + rewrite IH. destruct (Nat.eqb_spec k0 k') as [-> | E'].
      * destruct (Nat.eqb_spec k k'); [congruence | reflexivity].
      * reflexivity.
Qed.

Lemma lookup_keys {V : Type} (d : PyDict.t V) (k : nat) :
  In k (PyDict.keys d) <-> exists v, PyDict.lookup d k = Some v.
Proof.
  induction d as [| [k0 v0] d IH]; cbn [PyDict.keys map fst PyDict.lookup In].
  - split; [intros [] | intros [v E]; discriminate E].
  - destruct (Nat.eqb_spec k0 k) as [-> | E].
    + split; [eauto | auto].
    + fold (PyDict.keys d). rewrite <- IH. tauto.
Qed.

Lemma lookup_absent {V : Type} (d : PyDict.t V) (k : nat) :
  ~ In k (PyDict.keys d) -> PyDict.lookup d k = None.
Proof.
  intros H. destruct (PyDict.lookup d k) eqn:E; [| reflexivity].
  exfalso. apply H. apply lookup_keys. eauto.
Qed.

Lemma keys_del {V : Type} (d : PyDict.t V) (k : nat) :
  PyDict.keys (PyDict.del d k) = VehicleTracker.list_remove k (PyDict.keys d).
Proof.
  induction d as [| [k0 v0] d IH]; [reflexivity |].
  cbn [PyDict.del PyDict.keys map fst VehicleTracker.list_remove].
  destruct (k0 =? k)%nat; [reflexivity |].
  cbn [map fst]. fold (PyDict.keys d). fold (PyDict.keys (PyDict.del d k)).
  rewrite IH. reflexivity.
Qed.

Lemma keys_set {V : Type} (d : PyDict.t V) (k : nat) (v : V) :
  PyDict.keys (PyDict.set d k v)
  = if in_dec Nat.eq_dec k (PyDict.keys d) then PyDict.keys d
    else PyDict.keys d ++ [k].
Proof.
  destruct (in_dec Nat.eq_dec k (PyDict.keys d)).
  - apply keys_set_present. assumption.
  - apply keys_set_absent. assumption.
Qed.

Lemma lookup_del_other {V : Type} (d : PyDict.t V) (k k' : nat) :
  k <> k' -> PyDict.lookup (PyDict.del d k) k' = PyDict.lookup d k'.
Proof.
  intros Hne. induction d as [| [k0 v0] d IH]; [reflexivity |].
  cbn [PyDict.del PyDict.lookup].
  destruct (Nat.eqb_spec k0 k) as [-> | E].
  - destruct (Nat.eqb_spec k k'); [contradiction | reflexivity].
  - cbn [PyDict.lookup]. rewrite IH. reflexivity.
Qed.

Lemma list_remove_absent (k : nat) (l : list nat) :
  NoDup l -> ~ In k (VehicleTracker.list_remove k l).
Proof.
  induction l as [| a l IH]; [intros _ [] |].
  intros Hnd. apply NoDup_cons_iff in Hnd. destruct Hnd as [Ha Hnd].
  cbn [VehicleTracker.list_remove].
  destruct (Nat.eqb_spec a k) as [-> | E]; [exact Ha |].
  intros [E' | Hin]; [contradiction | exact (IH Hnd Hin)].
Qed.

Lemma list_remove_other (k k' : nat) (l : list nat) :
  k <> k' -> In k' l -> In k' (VehicleTracker.list_remove k l).
Proof.
  intros Hne. induction l as [| a l IH]; [intros [] |].
  cbn [VehicleTracker.list_remove].
  destruct (Nat.eqb_spec a k) as [-> | E].
  - intros [E' | Hin]; [contradiction | exact Hin].
  - intros [E' | Hin]; [left; exact E' | right; exact (IH Hin)].
Qed.

Lemma list_remove_NoDup (k : nat) (l : list nat) :
  NoDup l -> NoDup (VehicleTracker.list_remove k l).
Proof.
  induction l as [| a l IH]; [trivial |].
  intros Hnd. apply NoDup_cons_iff in Hnd. destruct Hnd as [Ha Hnd].
  cbn [VehicleTracker.list_remove].
  destruct (a =? k)%nat; [exact Hnd |].
  apply NoDup_cons; [| exact (IH Hnd)].
  intros Hin. apply Ha. apply (list_remove_incl k l a Hin).
Qed.

Lemma lookup_del_same {V : Type} (d : PyDict.t V) (k : nat) :
  NoDup (PyDict.keys d) -> PyDict.lookup (PyDict.del d k) k = None.
Proof.
  intros Hnd. apply lookup_absent. rewrite keys_del.
  apply list_remove_absent. exact Hnd.
Qed.

(** ** The methods on a well-formed tracker *)

Lemma create_tracker_returns (detection : BBox) (frame_center : R * R)
    (current_time : R) (self : VehicleTracker.t) :
  VehicleTracker._create_tracker detection frame_center current_time self
  = VehicleTracker.Returned tt (created self detection current_time).
Proof.
  unfold VehicleTracker._create_tracker, created.
  destruct (VehicleTracker.center detection) as [cx cy]. reflexivity.
Qed.

Lemma remove_tracker_returns (object_id : nat) (self : VehicleTracker.t) :
  VehicleTracker._remove_tracker object_id self
  = VehicleTracker.Returned tt (removed self object_id).
Proof. reflexivity. Qed.

Lemma well_formed_created (self : VehicleTracker.t) (detection : BBox)
    (current_time : R) :
  well_formed self -> well_formed (created self detection current_time).
Proof.
  intros ((Hnd & Hlt) & (E1 & E2 & E3 & E4 & E5) & (Hpos & Hsp)).
  assert (Hnew : ~ In (VehicleTracker.next_id self) (live_ids self))
    by (intros Hin; specialize (Hlt _ Hin); lia).
  assert (Hkeys : forall V (d : PyDict.t V) v,
             PyDict.keys d = live_ids self ->
             PyDict.keys (PyDict.set d (VehicleTracker.next_id self) v)
             = live_ids self ++ [VehicleTracker.next_id self]).
  { intros V d v E. rewrite keys_set_absent; rewrite E; [reflexivity | exact Hnew]. }
  unfold well_formed, ids_fresh, synced, histories_bounded, created, live_ids in *.
  cbn [VehicleTracker.next_id VehicleTracker.trackers VehicleTracker.disappeared
       VehicleTracker.speeds VehicleTracker.positions_history
       VehicleTracker.timestamps VehicleTracker.bboxes].
  rewrite (Hkeys _ (VehicleTracker.trackers self) _ eq_refl).
  repeat split.
  - apply NoDup_app; [exact Hnd | repeat constructor; intros [] |].
    intros x Hx [<- | []]. contradiction.
  - intros id Hin. apply in_app_or in Hin.
    destruct Hin as [Hin | [<- | []]]; [specialize (Hlt _ Hin) |]; lia.
  - apply Hkeys, E1.
  - apply Hkeys, E2.
  - apply Hkeys, E3.
  - apply Hkeys, E4.
  - apply Hkeys, E5.
  - rewrite lookup_set in H.
    destruct (VehicleTracker.next_id self =? id)%nat;
      [injection H as <-; cbn; lia | apply (Hpos _ _ H)].
  - rewrite lookup_set in H.
    destruct (VehicleTracker.next_id self =? id)%nat;
      [injection H as <-; cbn; lia | apply (Hpos _ _ H)].
  - rewrite lookup_set in H. rewrite lookup_set.
    destruct (VehicleTracker.next_id self =? id)%nat.
    + injection H as <-. eexists. split; reflexivity.
    + apply (Hpos _ _ H).
  - rewrite lookup_set in H.
    destruct (VehicleTracker.next_id self =? id)%nat;
      [injection H as <-; cbn; lia | apply (Hsp _ _ H)].
  - rewrite lookup_set in H.
    destruct (VehicleTracker.next_id self =? id)%nat;
      [injection H as <-; cbn; lia | apply (Hsp _ _ H)].
  - rewrite lookup_set in H.
    destruct (VehicleTracker.next_id self =? id)%nat;
      [injection H as <-; repeat constructor; lra | apply (Hsp _ _ H)].
Qed.

Lemma well_formed_removed (self : VehicleTracker.t) (object_id : nat) :
  well_formed self -> well_formed (removed self object_id).
Proof.
  intros ((Hnd & Hlt) & (E1 & E2 & E3 & E4 & E5) & (Hpos & Hsp)).
  unfold well_formed, ids_fresh, synced, histories_bounded, removed, live_ids in *.
  cbn [VehicleTracker.next_id VehicleTracker.trackers VehicleTracker.disappeared
       VehicleTracker.speeds VehicleTracker.positions_history
       VehicleTracker.timestamps VehicleTracker.bboxes].
  rewrite !keys_del, E1, E2, E3, E4, E5.
  assert (Hsub : forall V (d : PyDict.t V) id v,
             PyDict.keys d = PyDict.keys (VehicleTracker.trackers self) ->
             PyDict.lookup (PyDict.del d object_id) id = Some v ->
             id <> object_id /\ PyDict.lookup d id = Some v).
  { intros V d id v E H. destruct (Nat.eq_dec object_id id) as [<- | Hne].
    - rewrite lookup_del_same in H by (rewrite E; exact Hnd). discriminate H.
    - rewrite lookup_del_other in H by exact Hne. auto. }
  repeat split; try reflexivity.
  - apply list_remove_NoDup, Hnd.
  - intros id Hin. apply Hlt. apply (list_remove_incl _ _ _ Hin).
  - apply (Hsub _ _ _ _ E3) in H. apply (Hpos _ _ (proj2 H)).
  - apply (Hsub _ _ _ _ E3) in H. apply (Hpos _ _ (proj2 H)).
  - apply (Hsub _ _ _ _ E3) in H. destruct H as [Hne H].
    destruct (Hpos _ _ H) as (_ & ts & Hts & Hlen).
    exists ts. split; [| exact Hlen].
    rewrite lookup_del_other by auto. exact Hts.
  - apply (Hsub _ _ _ _ E2) in H. apply (Hsp _ _ (proj2 H)).
  - apply (Hsub _ _ _ _ E2) in H. apply (Hsp _ _ (proj2 H)).
  - apply (Hsub _ _ _ _ E2) in H. apply (Hsp _ _ (proj2 H)).
Qed.

Lemma in_keys_set {V : Type} (d : PyDict.t V) (k : nat) (v : V) :
  In k (PyDict.keys (PyDict.set d k v)).
Proof.
  apply lookup_keys. exists v. rewrite lookup_set, Nat.eqb_refl. reflexivity.
Qed.

Lemma same_except_refl {V : Type} (id : nat) (d : PyDict.t V) :
  same_except id d d.
Proof. split; auto. Qed.

Lemma same_except_trans {V : Type} (id : nat) (d1 d2 d3 : PyDict.t V) :
  same_except id d1 d2 -> same_except id d2 d3 -> same_except id d1 d3.
Proof.
  intros [K1 L1] [K2 L2]. split; [congruence |].
  intros id' Hne. rewrite L2, L1 by exact Hne. reflexivity.
Qed.

Lemma same_except_set {V : Type} (id : nat) (d : PyDict.t V) (v : V) :
  In id (PyDict.keys d) -> same_except id d (PyDict.set d id v).
Proof.
  intros Hin. split; [apply keys_set_present; exact Hin |].
  intros id' Hne. rewrite lookup_set.
  destruct (Nat.eqb_spec id id'); [congruence | reflexivity].
Qed.

Lemma same_but_track_refl (id : nat) (self : VehicleTracker.t) :
  same_but_track id self self.
Proof. unfold same_but_track. repeat split; auto. Qed.

Lemma well_formed_track (id : nat) (self self' : VehicleTracker.t) :
  well_formed self -> same_but_track id self self' -> track_bounded id self' ->
  well_formed self'.
Proof.
  intros ((Hnd & Hlt) & (E1 & E2 & E3 & E4 & E5) & (Hpos & Hsp))
         (En & _ & [Kt _] & [Kd _] & [Ks Ls] & [Kp Lp] & [Kts Lts] & [Kb _])
         (h & ts & sp & Hh & Hts & Hs & Bh & Bts & Bsp & Psp).
  unfold well_formed, ids_fresh, synced, histories_bounded, live_ids in *.
  rewrite En, Kt, Kd, Ks, Kp, Kts, Kb.
  repeat split; try assumption.
  - destruct (Nat.eq_dec id0 id) as [-> | Hne].
    + rewrite Hh in H. injection H as <-. lia.
    + rewrite Lp in H by exact Hne. apply (Hpos _ _ H).
  - destruct (Nat.eq_dec id0 id) as [-> | Hne].
    + rewrite Hh in H. injection H as <-. lia.
    + rewrite Lp in H by exact Hne. apply (Hpos _ _ H).
  - destruct (Nat.eq_dec id0 id) as [-> | Hne].
    + rewrite Hh in H. injection H as <-. eauto.
    + rewrite Lp in H by exact Hne. rewrite Lts by exact Hne.
      apply (Hpos _ _ H).
  - destruct (Nat.eq_dec id0 id) as [-> | Hne].
    + rewrite Hs in H. injection H as <-. lia.
    + rewrite Ls in H by exact Hne. apply (Hsp _ _ H).
  - destruct (Nat.eq_dec id0 id) as [-> | Hne].
    + rewrite Hs in H. injection H as <-. lia.
    + rewrite Ls in H by exact Hne. apply (Hsp _ _ H).
  - destruct (Nat.eq_dec id0 id) as [-> | Hne].
    + rewrite Hs in H. injection H as <-. exact Psp.
    + rewrite Ls in H by exact Hne. apply (Hsp _ _ H).
Qed.

(** What a well-formed tracker holds for a live id. *)
Lemma well_formed_live (self : VehicleTracker.t) (id : nat) :
  well_formed self -> In id (live_ids self) ->
  In id (PyDict.keys (VehicleTracker.disappeared self))
  /\ In id (PyDict.keys (VehicleTracker.speeds self))
  /\ In id (PyDict.keys (VehicleTracker.positions_history self))
  /\ In id (PyDict.keys (VehicleTracker.timestamps self))
  /\ In id (PyDict.keys (VehicleTracker.bboxes self))
  /\ (exists kf, PyDict.lookup (VehicleTracker.trackers self) id = Some kf)
  /\ (exists count, PyDict.lookup (VehicleTracker.disappeared self) id = Some count)
  /\ (exists bbox, PyDict.lookup (VehicleTracker.bboxes self) id = Some bbox)
  /\ track_bounded id self.
Proof.
  intros (_ & (E1 & E2 & E3 & E4 & E5) & (Hpos & Hsp)) Hin.
  rewrite E1, E2, E3, E4, E5. repeat split; try exact Hin.
  - apply lookup_keys. exact Hin.
  - apply lookup_keys. rewrite E1. exact Hin.
  - apply lookup_keys. rewrite E5. exact Hin.
  - assert (Hh : exists h, PyDict.lookup (VehicleTracker.positions_history self) id
                           = Some h) by (apply lookup_keys; rewrite E3; exact Hin).
    assert (Hs : exists sp, PyDict.lookup (VehicleTracker.speeds self) id
                            = Some sp) by (apply lookup_keys; rewrite E2; exact Hin).
    destruct Hh as [h Hh]. destruct Hs as [sp Hs].
    destruct (Hpos _ _ Hh) as (Bh & ts & Hts & Bts).
    destruct (Hsp _ _ Hs) as (Bsp & Psp).
    exists h, ts, sp. auto 10.
Qed.

Ltac tracker_fields :=
  cbn [VehicleTracker.next_id VehicleTracker.trackers VehicleTracker.disappeared
       VehicleTracker.max_disappeared VehicleTracker.speeds
       VehicleTracker.positions_history VehicleTracker.timestamps
       VehicleTracker.bboxes VehicleTracker.set_next_id
       VehicleTracker.set_trackers VehicleTracker.set_disappeared
       VehicleTracker.set_speeds VehicleTracker.set_positions_history
       VehicleTracker.set_timestamps VehicleTracker.set_bboxes
       VehicleTracker.ret VehicleTracker.raise] in *.

Ltac unfold_monad :=
  unfold VehicleTracker.bind, VehicleTracker.gets, VehicleTracker.list_item,
    VehicleTracker.dict_item, VehicleTracker.modify, VehicleTracker.ret,
    VehicleTracker.default_item, VehicleTracker.last_item, VehicleTracker.raise.

(** Keys and values of dictionaries after assignments to a present key. *)
Ltac solve_same_except :=
  split;
  [ repeat (rewrite keys_set_present;
            [| first [assumption | apply in_keys_set]]); reflexivity
  | let id' := fresh "id'" in
    let Hne := fresh "Hne" in
    intros id' Hne; rewrite ?lookup_set;
    repeat match goal with
           | |- context [(?a =? id')%nat] =>
               destruct (Nat.eqb_spec a id'); [congruence |]
           end; reflexivity ].

Ltac eval_tracker :=
  repeat first
    [ progress tracker_fields
    | rewrite lookup_set
    | rewrite Nat.eqb_refl
    | match goal with
      | H : PyDict.lookup _ _ = Some _ |- _ => rewrite H
      end ].

Ltac solve_frame :=
  first
    [ reflexivity
    | repeat (rewrite keys_set_present;
              [| first [assumption | apply in_keys_set]]); reflexivity
    | let id' := fresh "id'" in
      let Hne := fresh "Hne" in
      intros id' Hne; rewrite ?lookup_set;
      repeat match goal with
             | |- context [(?a =? id')%nat] =>
                 destruct (Nat.eqb_spec a id'); [congruence |]
             end; reflexivity ].

Lemma rev_nonempty {A : Type} (l : list A) :
  l <> [] -> exists a rest, rev l = a :: rest.
Proof.
  intros Hne. destruct (rev l) as [| a rest] eqn:E; [| eauto].
  exfalso. apply Hne. rewrite <- (rev_involutive l), E. reflexivity.
Qed.

Lemma trimmed_bounds {A : Type} (l : list A) (a : A) (n : nat) :
  (1 <= List.length l <= n)%nat ->
  (1 <= List.length (if (n <? List.length (l ++ [a]))%nat
                     then tl (l ++ [a]) else l ++ [a]) <= n)%nat.
Proof.
  intros Hl. destruct (Nat.ltb_spec n (List.length (l ++ [a]))) as [H | H];
    rewrite length_app in H; cbn [List.length] in H.
  - destruct l as [| b l]; cbn [app tl List.length] in *; [lia |].
    rewrite length_app. cbn [List.length]. lia.
  - rewrite length_app. cbn [List.length]. lia.
Qed.

Section UpdateTracker.
Variable kf_update : Kalman.KalmanFilter -> R * R -> Kalman.KalmanFilter.

(** [_update_tracker] on a well-formed tracker: an index past the keys raises
    [IndexError] and changes nothing; an index of a live track returns, having
    changed only what the tracker holds for that track. *)
Lemma update_tracker_returns (trk_idx : nat) (detection : BBox)
    (frame_center : R * R) (current_time : R) (self : VehicleTracker.t) :
  well_formed self ->
  match nth_error (live_ids self) trk_idx with
  | None =>
      VehicleTracker._update_tracker kf_update trk_idx detection frame_center
        current_time self
      = VehicleTracker.Raised VehicleTracker.IndexError self
  | Some id =>
      exists self' kf,
        VehicleTracker._update_tracker kf_update trk_idx detection frame_center
          current_time self
        = VehicleTracker.Returned tt self'
        /\ same_but_track id self self' /\ track_bounded id self'
        /\ PyDict.lookup (VehicleTracker.disappeared self') id = Some 0%nat
        /\ PyDict.lookup (VehicleTracker.bboxes self') id = Some detection
        /\ PyDict.lookup (VehicleTracker.trackers self) id = Some kf
        /\ PyDict.lookup (VehicleTracker.trackers self') id
           = Some (kf_update (Kalman.predict kf) (VehicleTracker.center detection))
  end.
Proof.
  intros Hwf. unfold live_ids.
  destruct (nth_error (PyDict.keys (VehicleTracker.trackers self)) trk_idx)
    as [id |] eqn:Hkey.
  2: { unfold VehicleTracker._update_tracker. unfold_monad. rewrite Hkey.
       reflexivity. }
  assert (Hlive : In id (live_ids self)) by (apply (nth_error_In _ _ Hkey)).
  destruct (well_formed_live self id Hwf Hlive)
    as (Kd & Ks & Kp & Kts & Kb & [kf Hkf] & _ & _
        & (h & ts & sp & Hh & Hts & Hsp & Bh & Bts & Bsp & Psp)).
  unfold live_ids in Hlive.
  destruct (rev_nonempty h) as ([px py] & resth & Hrh);
    [intros ->; cbn in Bh; lia |].
  destruct (rev_nonempty ts) as (pt & restt & Hrt);
    [intros ->; cbn in Bts; lia |].
  assert (Hpos : (0 <? List.length h)%nat = true) by (apply Nat.ltb_lt; lia).
  destruct (VehicleTracker.center detection) as [cx cy] eqn:Hc.
  pose (speed := sqrt ((cx - px) ^ 2 + (cy - py) ^ 2) / (current_time - pt)).
  assert (Hnew_h : (1 <= List.length
                          (if (30 <? List.length (h ++ [(cx, cy)]))%nat
                           then tl (h ++ [(cx, cy)]) else h ++ [(cx, cy)])
                    <= 30)%nat) by (apply trimmed_bounds; exact Bh).
  assert (Hnew_sp : (1 <= List.length
                           (if (10 <? List.length (sp ++ [speed]))%nat
                            then tl (sp ++ [speed]) else sp ++ [speed])
                     <= 10)%nat) by (apply trimmed_bounds; exact Bsp).
  assert (Hpos_sp : 0 < current_time - pt ->
            Forall (Rle 0) (if (10 <? List.length (sp ++ [speed]))%nat
                            then tl (sp ++ [speed]) else sp ++ [speed])).
  { intros Hdt.
    assert (Hall : Forall (Rle 0) (sp ++ [speed])).
    { apply Forall_app. split; [exact Psp |]. apply Forall_cons; [| apply Forall_nil].
      unfold speed. apply Rmult_le_pos; [apply sqrt_pos |].
      left. apply Rinv_0_lt_compat. exact Hdt. }
    destruct (10 <? List.length (sp ++ [speed]))%nat; [| exact Hall].
    destruct (sp ++ [speed]); [exact Hall |].
    apply Forall_cons_iff in Hall. apply Hall. }
  unfold VehicleTracker._update_tracker. unfold_monad.
  rewrite Hkey, Hkf, Hc. eval_tracker. rewrite Hpos, Hrh. eval_tracker.
  rewrite Hrt. eval_tracker.
  assert (Hts_ne : exists t0 ts', ts ++ [current_time] = t0 :: ts'
                                  /\ List.length ts' = List.length ts).
  { destruct ts as [| t0 ts']; cbn [app]; do 2 eexists;
      (split; [reflexivity |]); [reflexivity |].
    rewrite length_app. cbn [List.length]. lia. }
  destruct Hts_ne as (t0 & ts' & Ets & Lts').
  destruct (Rlt_dec 0 (current_time - pt)) as [Hdt | Hdt]; eval_tracker;
    destruct (30 <? List.length (h ++ [(cx, cy)]))%nat eqn:H30; eval_tracker;
    rewrite ?Ets; eval_tracker;
    (eexists; exists kf; split; [reflexivity |]); eval_tracker.
  all: split; [unfold same_but_track; tracker_fields;
               repeat split; solve_frame |].
  all: split; [| repeat split; reflexivity].
  all: unfold track_bounded; tracker_fields;
    rewrite ?lookup_set, ?Nat.eqb_refl, ?Hh, ?Hts, ?Hsp;
    try rewrite H30 in Hnew_h;
    do 3 eexists;
    (split; [reflexivity |]); (split; [reflexivity |]); (split; [reflexivity |]);
    (split; [exact Hnew_h |]);
    (split;
     [ cbn [List.length]; rewrite ?Lts', ?Bts;
       destruct h; [cbn in Bh; lia |];
       cbn [app tl List.length]; rewrite ?length_app; cbn [List.length]; lia |]);
    (split; [first [exact Hnew_sp | exact Bsp]
            | first [exact (Hpos_sp Hdt) | exact Psp]]).
Qed.

End UpdateTracker.

Lemma age_tracker_returns (object_id : nat) (self : VehicleTracker.t) :
  match PyDict.lookup (VehicleTracker.disappeared self) object_id with
  | None =>
      VehicleTracker.age_tracker object_id self
      = VehicleTracker.Raised VehicleTracker.KeyError self
  | Some count =>
      VehicleTracker.age_tracker object_id self
      = VehicleTracker.Returned tt
          (if (VehicleTracker.max_disappeared self <? count + 1)%nat
           then removed (aged self object_id count) object_id
           else aged self object_id count)
  end.
Proof.
  unfold VehicleTracker.age_tracker. unfold_monad.
  destruct (PyDict.lookup (VehicleTracker.disappeared self) object_id)
    as [count |] eqn:Hc; [| reflexivity].
  tracker_fields. rewrite lookup_set, Nat.eqb_refl. tracker_fields.
  destruct (VehicleTracker.max_disappeared self <? count + 1)%nat; reflexivity.
Qed.

Lemma well_formed_aged (self : VehicleTracker.t) (id count : nat) :
  well_formed self -> In id (live_ids self) -> well_formed (aged self id count).
Proof.
  intros Hwf Hlive.
  destruct (well_formed_live self id Hwf Hlive)
    as (Kd & _ & _ & _ & _ & _ & _ & _ & Hb).
  apply (well_formed_track id self); [exact Hwf | | exact Hb].
  unfold same_but_track, aged. tracker_fields.
  repeat split; solve_frame.
Qed.

Lemma associate_frame (detections : list BBox) (frame_center : R * R)
    (current_time : R) (self : VehicleTracker.t) :
  after_association detections self
    (VehicleTracker.final_state
       (VehicleTracker._associate_detections_to_trackers detections
          frame_center current_time self)).
Proof.
  unfold VehicleTracker._associate_detections_to_trackers, after_association.
  unfold_monad.
  destruct (VehicleTracker.trackers self) as [| item items] eqn:Hitems.
  - cbn. rewrite Hitems. repeat split.
  - cbn [List.length Nat.eqb].
    pose proof (build_cost_matrix_predicts detections (item :: items)) as Hsnd.
    destruct (VehicleTracker.build_cost_matrix detections (item :: items))
      as [cost_matrix items'].
    cbn [snd] in Hsnd.
    destruct (VehicleTracker.greedy_matching _ _ _);
      cbn [VehicleTracker.final_state]; tracker_fields; repeat split; exact Hsnd.
Qed.

Lemma well_formed_associated (detections : list BBox)
    (self self' : VehicleTracker.t) :
  after_association detections self self' ->
  well_formed self -> well_formed self' /\ live_ids self' = live_ids self.
Proof.
  intros (Et & En & Ed & _ & Es & Ep & Ets & Eb) Hwf.
  assert (Hl : live_ids self' = live_ids self).
  { unfold live_ids, PyDict.keys. rewrite Et, map_map. reflexivity. }
  split; [| exact Hl].
  unfold well_formed, ids_fresh, synced, histories_bounded in *.
  rewrite Hl, En, Ed, Es, Ep, Ets, Eb. exact Hwf.
Qed.

(** ** Calls that keep the tracker well formed *)

Lemma triple_bind {A B : Type} (P : VehicleTracker.t -> Prop)
    (m : VehicleTracker.M A) (k : A -> VehicleTracker.M B)
    (Q : A -> VehicleTracker.t -> Prop) (Q' : B -> VehicleTracker.t -> Prop)
    (E : VehicleTracker.Exception -> VehicleTracker.t -> Prop) :
  triple P m Q E -> (forall a, triple (Q a) (k a) Q' E) ->
  triple P (VehicleTracker.bind m k) Q' E.
Proof.
  intros Hm Hk s HP. unfold VehicleTracker.bind. specialize (Hm s HP).
  destruct (m s) as [a s' | e s']; [apply (Hk a s' Hm) | exact Hm].
Qed.

Lemma triple_for_each {A : Type} (I : list A -> VehicleTracker.t -> Prop)
    (body : A -> VehicleTracker.M unit)
    (E : VehicleTracker.Exception -> VehicleTracker.t -> Prop) (l : list A) :
  (forall a rest, triple (I (a :: rest)) (body a) (fun _ => I rest) E) ->
  triple (I l) (VehicleTracker.for_each l body) (fun _ => I []) E.
Proof.
  intros Hbody. induction l as [| a l IH]; cbn [VehicleTracker.for_each].
  - intros s HI. exact HI.
  - apply (triple_bind _ _ _ (fun _ => I l)); [apply Hbody | intros _; exact IH].
Qed.

Lemma triple_conseq {A : Type} (P P' : VehicleTracker.t -> Prop)
    (m : VehicleTracker.M A) (Q Q' : A -> VehicleTracker.t -> Prop)
    (E : VehicleTracker.Exception -> VehicleTracker.t -> Prop) :
  (forall s, P s -> P' s) -> triple P' m Q' E ->
  (forall a s, Q' a s -> Q a s) -> triple P m Q E.
Proof.
  intros HP Hm HQ s Hs. specialize (Hm s (HP s Hs)).
  destruct (m s); [apply HQ; exact Hm | exact Hm].
Qed.

(** ** A tick without detections: one track *)

Lemma filter_all {A : Type} (f : A -> bool) (l : list A) :
  (forall x, In x l -> f x = true) -> filter f l = l.
Proof.
  induction l as [| a l IH]; intros H; [reflexivity |].
  cbn [filter]. rewrite (H a (or_introl eq_refl)).
  rewrite IH; [reflexivity |]. intros x Hx. apply H. right. exact Hx.
Qed.

Lemma filter_twice {A : Type} (f g : A -> bool) (l : list A) :
  filter f (filter g l) = filter (fun x => g x && f x) l.
Proof.
  induction l as [| a l IH]; [reflexivity |].
  cbn [filter]. destruct (g a); cbn [filter andb]; rewrite IH; reflexivity.
Qed.

Lemma list_remove_filter (k : nat) (l : list nat) :
  NoDup l -> VehicleTracker.list_remove k l = filter (fun x => negb (x =? k)%nat) l.
Proof.
  induction l as [| a l IH]; [reflexivity |].
  intros Hnd. apply NoDup_cons_iff in Hnd. destruct Hnd as [Ha Hnd].
  cbn [VehicleTracker.list_remove filter].
  destruct (Nat.eqb_spec a k) as [-> | E]; cbn [negb].
  - symmetry. apply filter_all. intros x Hx.
    destruct (Nat.eqb_spec x k) as [-> | _]; [contradiction | reflexivity].
  - rewrite (IH Hnd). reflexivity.
Qed.

(** One pass of the aging body over a live track. *)
Lemma age_live_returns (object_id : nat) (self : VehicleTracker.t) :
  well_formed self -> In object_id (live_ids self) ->
  exists self',
    VehicleTracker.age_tracker object_id self = VehicleTracker.Returned tt self'
    /\ well_formed self'
    /\ VehicleTracker.next_id self' = VehicleTracker.next_id self
    /\ VehicleTracker.max_disappeared self' = VehicleTracker.max_disappeared self
    /\ live_ids self'
       = filter (fun id => negb (id =? object_id)%nat || survives self id)
           (live_ids self)
    /\ (forall id, id <> object_id ->
          PyDict.lookup (VehicleTracker.disappeared self') id
          = PyDict.lookup (VehicleTracker.disappeared self) id)
    /\ (survives self object_id = true ->
          PyDict.lookup (VehicleTracker.disappeared self') object_id
          = Some (count_of self object_id + 1)%nat)
    /\ (forall id, In id (live_ids self') ->
          track_record self' id = track_record self id).
Proof.
  intros Hwf Hlive.
  pose proof (age_tracker_returns object_id self) as Hage.
  destruct (well_formed_live self object_id Hwf Hlive)
    as (Kd & _ & _ & _ & _ & _ & [count Hc] & _).
  rewrite Hc in Hage. rewrite Hage. clear Hage.
  pose proof (well_formed_aged self object_id count Hwf Hlive) as Hwa.
  assert (Hnd : NoDup (live_ids self)) by apply Hwf.
  assert (Hsurv : survives self object_id
                  = negb (VehicleTracker.max_disappeared self <? count + 1)%nat).
  { unfold survives, count_of. rewrite Hc. cbn [get].
    rewrite Nat.ltb_antisym, Bool.negb_involutive. reflexivity. }
  assert (Hla : live_ids (aged self object_id count) = live_ids self)
    by reflexivity.
  assert (Hda : forall id, id <> object_id ->
            PyDict.lookup (VehicleTracker.disappeared (aged self object_id count)) id
            = PyDict.lookup (VehicleTracker.disappeared self) id).
  { intros id Hne. unfold aged. tracker_fields. rewrite lookup_set.
    destruct (Nat.eqb_spec object_id id); [congruence | reflexivity]. }
  destruct (VehicleTracker.max_disappeared self <? count + 1)%nat eqn:Hover;
    cbn [negb] in Hsurv.
  - exists (removed (aged self object_id count) object_id).
    assert (Hlr : live_ids (removed (aged self object_id count) object_id)
                  = filter (fun id => negb (id =? object_id)%nat) (live_ids self)).
    { unfold live_ids at 1. unfold removed. tracker_fields.
      rewrite keys_del. apply list_remove_filter. exact Hnd. }
    split; [reflexivity |].
    split; [apply well_formed_removed; exact Hwa |].
    split; [reflexivity |]. split; [reflexivity |].
    split; [| split; [| split]].
    + rewrite Hlr. apply filter_ext_in. intros id Hid.
      destruct (Nat.eqb_spec id object_id) as [-> | Hne]; cbn [negb orb];
        [rewrite Hsurv |]; reflexivity.
    + intros id Hne. unfold removed. tracker_fields.
      rewrite lookup_del_other by congruence. apply Hda. exact Hne.
    + rewrite Hsurv. discriminate.
    + intros id Hid. rewrite Hlr in Hid. apply filter_In in Hid.
      destruct Hid as [_ Hne].
      destruct (Nat.eqb_spec id object_id) as [E | Hne']; [discriminate Hne |].
      unfold track_record, removed, aged. tracker_fields.
      rewrite !lookup_del_other by congruence. reflexivity.
  - exists (aged self object_id count).
    split; [reflexivity |]. split; [exact Hwa |].
    split; [reflexivity |]. split; [reflexivity |].
    split; [| split; [| split]].
    + rewrite Hla. symmetry. apply filter_all. intros id Hid.
      destruct (Nat.eqb_spec id object_id) as [-> | Hne]; cbn [negb orb];
        [exact Hsurv | reflexivity].
    + exact Hda.
    + intros _. unfold aged, count_of. tracker_fields.
      rewrite lookup_set, Nat.eqb_refl, Hc. reflexivity.
    + intros id _. reflexivity.
Qed.

(** ** What [update] keeps *)

Lemma track_record_box (self self' : VehicleTracker.t) (id : nat) :
  track_record self' id = track_record self id ->
  PyDict.lookup (VehicleTracker.bboxes self') id
  = PyDict.lookup (VehicleTracker.bboxes self) id.
Proof.
  unfold track_record. intros E. injection E as _ _ _ _ E. exact E.
Qed.

Section BoxInvariant.
Variable P : BBox -> Prop.
Variable kf_update : Kalman.KalmanFilter -> R * R -> Kalman.KalmanFilter.

Lemma kept_age (rest : list nat) (object_id : nat) :
  triple
    (fun s => kept P s /\ In object_id (live_ids s)
              /\ (forall id, In id rest -> In id (live_ids s) /\ id <> object_id))
    (VehicleTracker.age_tracker object_id)
    (fun _ s => kept P s /\ forall id, In id rest -> In id (live_ids s))
    (index_error_keeping (kept P)).
Proof.
  intros s ([Hwf Hbox] & Hlive & Hrest).
  destruct (age_live_returns object_id s Hwf Hlive)
    as (s' & -> & Hwf' & _ & _ & El & _ & _ & Hrec).
  split; [split; [exact Hwf' |] |].
  - intros id bbox E. apply (Hbox id).
    rewrite <- (track_record_box s s' id); [exact E |].
    apply Hrec.
    destruct Hwf' as (_ & (_ & _ & _ & _ & <-) & _).
    apply lookup_keys. exists bbox. exact E.
  - intros id Hin. destruct (Hrest id Hin) as [Hl Hne].
    rewrite El. apply filter_In. split; [exact Hl |].
    destruct (Nat.eqb_spec id object_id); [contradiction | reflexivity].
Qed.

Lemma kept_age_all (ids : list nat) :
  triple (fun s => kept P s /\ ids = PyDict.keys (VehicleTracker.disappeared s))
    (VehicleTracker.for_each ids VehicleTracker.age_tracker)
    (fun _ => kept P) (index_error_keeping (kept P)).
Proof.
  apply (triple_conseq _
           (fun s => kept P s
                     /\ (forall id, In id ids -> In id (live_ids s))
                     /\ NoDup ids)
           _ _ (fun _ s => kept P s
                           /\ (forall id, In id (@nil nat) -> In id (live_ids s))
                           /\ NoDup (@nil nat))).
  - intros s (Hk & ->). split; [exact Hk |].
    destruct Hk as [((Hnd & _) & (E1 & _) & _) _]. rewrite E1. auto.
  - apply (triple_for_each
             (fun rest s => kept P s
                            /\ (forall id, In id rest -> In id (live_ids s))
                            /\ NoDup rest)).
    intros a rest s (Hk & Hin & Hnd).
    apply NoDup_cons_iff in Hnd. destruct Hnd as [Ha Hnd].
    pose proof (kept_age rest a s) as Hage.
    assert (Hpre : kept P s /\ In a (live_ids s)
                   /\ (forall id, In id rest -> In id (live_ids s) /\ id <> a)).
    { split; [exact Hk |]. split; [apply Hin; left; reflexivity |].
      intros id Hid. split; [apply Hin; right; exact Hid |].
      intros ->. contradiction. }
    specialize (Hage Hpre).
    destruct (VehicleTracker.age_tracker a s); [| exact Hage].
    destruct Hage as [Hk' Hin']. auto.
  - intros _ s (Hk & _). exact Hk.
Qed.

Lemma kept_age_at (trk_idx : nat) :
  triple (kept P)
    (VehicleTracker.bind
       (VehicleTracker.bind (VehicleTracker.gets VehicleTracker.trackers)
          (fun d => VehicleTracker.list_item (PyDict.keys d) trk_idx))
       (fun object_id => VehicleTracker.age_tracker object_id))
    (fun _ => kept P) (index_error_keeping (kept P)).
Proof.
  intros s Hk. unfold VehicleTracker.bind at 1 2.
  unfold VehicleTracker.gets, VehicleTracker.list_item.
  destruct (nth_error (PyDict.keys (VehicleTracker.trackers s)) trk_idx)
    as [id |] eqn:Hkey; [| split; [reflexivity | exact Hk]].
  cbn [VehicleTracker.ret].
  pose proof (kept_age [] id s) as Hage.
  destruct (VehicleTracker.age_tracker id s); apply Hage;
    (split; [exact Hk |]); (split; [apply (nth_error_In _ _ Hkey) |]);
    intros id' [].
Qed.

Lemma kept_list_item {A : Type} (l : list A) (i : nat) :
  triple (kept P) (VehicleTracker.list_item l i)
    (fun a s => kept P s /\ In a l) (index_error_keeping (kept P)).
Proof.
  intros s Hk. unfold VehicleTracker.list_item.
  destruct (nth_error l i) as [a |] eqn:E.
  - split; [exact Hk | apply (nth_error_In _ _ E)].
  - split; [reflexivity | exact Hk].
Qed.

Lemma kept_create_tracker (detection : BBox) (frame_center : R * R)
    (current_time : R) :
  P detection ->
  triple (kept P)
    (VehicleTracker._create_tracker detection frame_center current_time)
    (fun _ => kept P) (index_error_keeping (kept P)).
Proof.
  intros HP s [Hwf Hbox]. rewrite create_tracker_returns.
  split; [apply well_formed_created; exact Hwf |].
  intros id bbox. unfold created. tracker_fields. rewrite lookup_set.
  destruct (VehicleTracker.next_id s =? id)%nat.
  - intros E. injection E as <-. exact HP.
  - apply Hbox.
Qed.

Lemma kept_update_tracker (trk_idx : nat) (detection : BBox)
    (frame_center : R * R) (current_time : R) :
  P detection ->
  triple (kept P)
    (VehicleTracker._update_tracker kf_update trk_idx detection frame_center
       current_time)
    (fun _ => kept P) (index_error_keeping (kept P)).
Proof.
  intros HP s [Hwf Hbox].
  pose proof (update_tracker_returns kf_update trk_idx detection frame_center
                current_time s Hwf) as Hup.
  destruct (nth_error (live_ids s) trk_idx) as [id |].
  - destruct Hup as (s' & kf & -> & Hsame & Hb & _ & Ebox & _).
    split; [apply (well_formed_track id s s' Hwf Hsame Hb) |].
    intros id' bbox E.
    destruct (Nat.eq_dec id' id) as [-> | Hne].
    + rewrite Ebox in E. injection E as <-. exact HP.
    + destruct Hsame as (_ & _ & _ & _ & _ & _ & _ & [_ Hl]).
      rewrite (Hl id' Hne) in E. apply (Hbox id' bbox E).
  - rewrite Hup. split; [reflexivity | split; assumption].
Qed.

Lemma kept_associate (detections : list BBox) (frame_center : R * R)
    (current_time : R) :
  triple (kept P)
    (VehicleTracker._associate_detections_to_trackers detections frame_center
       current_time)
    (fun _ => kept P) (index_error_keeping (kept P)).
Proof.
  intros s [Hwf Hbox].
  pose proof (associate_frame detections frame_center current_time s) as Hfr.
  destruct (associate_greedy detections frame_center current_time s)
    as (matched & ud & ut & s' & Hret & _).
  rewrite Hret in *. cbn [VehicleTracker.final_state] in Hfr.
  split; [apply (well_formed_associated detections s s' Hfr Hwf) |].
  destruct Hfr as (_ & _ & _ & _ & _ & _ & _ & Eb).
  unfold boxes_satisfy. rewrite Eb. exact Hbox.
Qed.

Lemma triple_for_each_in {A : Type} (J : VehicleTracker.t -> Prop)
    (body : A -> VehicleTracker.M unit)
    (E : VehicleTracker.Exception -> VehicleTracker.t -> Prop) (l : list A) :
  (forall a, In a l -> triple J (body a) (fun _ => J) E) ->
  triple J (VehicleTracker.for_each l body) (fun _ => J) E.
Proof.
  induction l as [| a l IH]; intros Hbody; cbn [VehicleTracker.for_each].
  - intros s HJ. exact HJ.
  - apply (triple_bind _ _ _ (fun _ => J)).
    + apply Hbody. left. reflexivity.
    + intros _. apply IH. intros a' Ha'. apply Hbody. right. exact Ha'.
Qed.

Lemma kept_item_then {A : Type} (l : list A) (i : nat)
    (k : A -> VehicleTracker.M unit) :
  (forall a, In a l ->
     triple (kept P) (k a) (fun _ => kept P) (index_error_keeping (kept P))) ->
  triple (kept P) (VehicleTracker.bind (VehicleTracker.list_item l i) k)
    (fun _ => kept P) (index_error_keeping (kept P)).
Proof.
  intros Hk.
  apply (triple_bind _ _ _ (fun a s => kept P s /\ In a l));
    [apply kept_list_item |].
  intros a s [HJ Hin]. apply (Hk a Hin s HJ).
Qed.

(** [update] keeps a well-formed tracker well formed, stores no box but one
    of its detections, and raises no exception but [IndexError]. *)
Lemma update_keeps (detections : list BBox) (frame_center : R * R)
    (current_time : R) :
  (forall d, In d detections -> P d) ->
  triple (kept P)
    (VehicleTracker.update kf_update detections frame_center current_time)
    (fun _ => kept P) (index_error_keeping (kept P)).
Proof.
  intros HP. unfold VehicleTracker.update.
  destruct (List.length detections =? 0)%nat.
  - apply (triple_bind _ _ _
             (fun ids s => kept P s
                           /\ ids = PyDict.keys (VehicleTracker.disappeared s))).
    + intros s Hk. cbn. auto.
    + intros ids. apply kept_age_all.
  - apply (triple_bind _ _ _ (fun items s => kept P s)).
    + intros s Hk. exact Hk.
    + intros items. destruct (List.length items =? 0)%nat.
      * apply triple_for_each_in. intros d Hd.
        apply kept_create_tracker, HP, Hd.
      * apply (triple_bind _ _ _ (fun _ => kept P));
          [apply kept_associate | intros [[matched ud] ut]].
        apply (triple_bind _ _ _ (fun _ => kept P)).
        { apply triple_for_each_in. intros [det_idx trk_idx] _.
          apply kept_item_then. intros d Hd.
          apply kept_update_tracker, HP, Hd. }
        intros _. apply (triple_bind _ _ _ (fun _ => kept P)).
        { apply triple_for_each_in. intros det_idx _.
          apply kept_item_then. intros d Hd.
          apply kept_create_tracker, HP, Hd. }
        intros _. apply triple_for_each_in. intros trk_idx _.
        apply kept_age_at.
Qed.

End BoxInvariant.

Lemma kept_well_formed (self : VehicleTracker.t) :
  well_formed self <-> kept (fun _ => True) self.
Proof.
  split; [| intros [H _]; exact H].
  intros H. split; [exact H | intros id bbox _; exact I].
Qed.

Section UpdateWellFormed.
Variable kf_update : Kalman.KalmanFilter -> R * R -> Kalman.KalmanFilter.

Lemma update_well_formed (detections : list BBox) (frame_center : R * R)
    (current_time : R) :
  triple well_formed
    (VehicleTracker.update kf_update detections frame_center current_time)
    (fun _ => well_formed) (index_error_keeping well_formed).
Proof.
  intros s Hwf. apply kept_well_formed in Hwf.
  pose proof (update_keeps (fun _ => True) kf_update detections frame_center
                current_time (fun _ _ => I) s Hwf) as Hup.
  destruct (VehicleTracker.update kf_update detections frame_center
              current_time s).
  - apply kept_well_formed. exact Hup.
  - destruct Hup as [-> Hk']. split; [reflexivity |].
    apply kept_well_formed. exact Hk'.
Qed.

Lemma reachable_well_formed (self : VehicleTracker.t) :
  reachable kf_update self -> well_formed self.
Proof.
  induction 1 as [n | s detections frame_center current_time _ IH].
  - unfold well_formed, ids_fresh, synced, histories_bounded, live_ids.
    cbn. repeat split; try apply NoDup_nil; try (intros id []; fail);
      discriminate.
  - unfold after_update.
    pose proof (update_well_formed detections frame_center current_time s IH)
      as Hup.
    destruct (VehicleTracker.update kf_update detections frame_center
                current_time s); [exact Hup | apply Hup].
Qed.

End UpdateWellFormed.

(** ** An example of a well-formed tracker *)

Lemma well_formed_moving_track : well_formed moving_track.
Proof.
  unfold well_formed, ids_fresh, synced, histories_bounded, live_ids, moving_track.
  tracker_fields. cbn [PyDict.keys map fst].
  split; [| split].
  - split; [repeat constructor; intros [] | intros id [<- | []]; lia].
  - repeat split.
  - split.
    + intros [| id] h E; cbn in E; [| discriminate E].
      injection E as <-. split; [cbn; lia |].
      exists [0; 1]. split; reflexivity.
    + intros [| id] sp E; cbn in E; [| discriminate E].
      injection E as <-. split; [cbn; lia |].
      repeat constructor; lra.
Qed.

(** ** What every reachable tracker satisfies *)

Section ReachableTracker.
Variable kf_update : Kalman.KalmanFilter -> R * R -> Kalman.KalmanFilter.

(** X16. From a well-formed tracker, [update] leaves a well-formed tracker
    whether it returns or raises, and the only exception it raises is
    [IndexError]. *)
Theorem update_raises_only_index_error (detections : list BBox)
    (frame_center : R * R) (current_time : R) (self : VehicleTracker.t) :
  well_formed self ->
  well_formed (after_update kf_update self detections frame_center current_time)
  /\ forall e self',
       VehicleTracker.update kf_update detections frame_center current_time self
       = VehicleTracker.Raised e self' ->
       e = VehicleTracker.IndexError.
Proof.
  intros Hwf. unfold after_update.
  pose proof (update_well_formed kf_update detections frame_center current_time
                self Hwf) as Hup.
  destruct (VehicleTracker.update kf_update detections frame_center
              current_time self) as [[] s' | e s'].
  - split; [exact Hup | intros e s'' E; discriminate E].
  - destruct Hup as [-> Hwf']. split; [exact Hwf' |].
    intros e s'' E. injection E as <- _. reflexivity.
Qed.

(** X17. In every tracker that calls of [update] lead to from a fresh one,
    each live track has a filter, a counter and a box, between 1 and 30
    recorded positions with as many timestamps, and between 1 and 10 recorded
    speeds, none of them negative. *)
Theorem reachable_tracks_complete (self : VehicleTracker.t) (id : nat) :
  reachable kf_update self -> In id (live_ids self) ->
  (exists kf, PyDict.lookup (VehicleTracker.trackers self) id = Some kf)
  /\ (exists count, PyDict.lookup (VehicleTracker.disappeared self) id = Some count)
  /\ (exists bbox, PyDict.lookup (VehicleTracker.bboxes self) id = Some bbox)
  /\ exists h ts sp,
       PyDict.lookup (VehicleTracker.positions_history self) id = Some h
       /\ PyDict.lookup (VehicleTracker.timestamps self) id = Some ts
       /\ PyDict.lookup (VehicleTracker.speeds self) id = Some sp
       /\ (1 <= List.length h <= 30)%nat /\ List.length ts = List.length h
       /\ (1 <= List.length sp <= 10)%nat /\ Forall (Rle 0) sp.
Proof.
  intros Hr Hlive.
  destruct (well_formed_live self id (reachable_well_formed kf_update self Hr)
              Hlive) as (_ & _ & _ & _ & _ & Hkf & Hc & Hb & Ht).
  repeat split; assumption.
Qed.

End ReachableTracker.

Lemma well_formed_init (max_disappeared : nat) :
  well_formed (VehicleTracker.init max_disappeared).
Proof.
  apply (reachable_well_formed (fun kf _ => kf)). apply reachable_init.
Qed.

Lemma update_raises_only_index_error_witness :
  let kf_update := fun (kf : Kalman.KalmanFilter) (_ : R * R) => kf in
  well_formed (after_update kf_update moving_track [box_one_ahead] (640, 360) 2)
  /\ forall e self',
       VehicleTracker.update kf_update [box_one_ahead] (640, 360) 2 moving_track
       = VehicleTracker.Raised e self' ->
       e = VehicleTracker.IndexError.
Proof.
  intros kf_update.
  apply (update_raises_only_index_error kf_update [box_one_ahead] (640, 360) 2
           moving_track).
  apply well_formed_moving_track.
Defined.

Lemma reachable_tracks_complete_witness :
  let kf_update := fun (kf : Kalman.KalmanFilter) (_ : R * R) => kf in
  let self := after_update kf_update (VehicleTracker.init 30) [example_bbox]
                (640, 360) 0 in
  (exists kf, PyDict.lookup (VehicleTracker.trackers self) 0%nat = Some kf)
  /\ (exists count, PyDict.lookup (VehicleTracker.disappeared self) 0%nat = Some count)
  /\ (exists bbox, PyDict.lookup (VehicleTracker.bboxes self) 0%nat = Some bbox)
  /\ exists h ts sp,
       PyDict.lookup (VehicleTracker.positions_history self) 0%nat = Some h
       /\ PyDict.lookup (VehicleTracker.timestamps self) 0%nat = Some ts
       /\ PyDict.lookup (VehicleTracker.speeds self) 0%nat = Some sp
       /\ (1 <= List.length h <= 30)%nat /\ List.length ts = List.length h
       /\ (1 <= List.length sp <= 10)%nat /\ Forall (Rle 0) sp.
Proof.
  intros kf_update self.
  apply (reachable_tracks_complete kf_update self 0%nat).
  - apply reachable_update, reachable_init.
  - left. reflexivity.
Defined.

(** ** The first detections of a tracker *)

Lemma create_all_returns (detections : list BBox) (frame_center : R * R)
    (current_time : R) (self : VehicleTracker.t) :
  VehicleTracker.for_each detections
    (fun detection =>
       VehicleTracker._create_tracker detection frame_center current_time) self
  = VehicleTracker.Returned tt
      (fold_left (fun s d => created s d current_time) detections self).
Proof.
  revert self. induction detections as [| d ds IH]; intros s; [reflexivity |].
  cbn [VehicleTracker.for_each fold_left]. unfold VehicleTracker.bind.
  rewrite create_tracker_returns. apply IH.
Qed.

(** The record of a track that has just been created for [detection]. *)
Lemma created_record (self : VehicleTracker.t) (detection : BBox)
    (current_time : R) :
  let id := VehicleTracker.next_id self in
  let c := VehicleTracker.center detection in
  PyDict.lookup (VehicleTracker.disappeared (created self detection current_time))
    id = Some 0%nat
  /\ track_record (created self detection current_time) id
     = (Some (Kalman._create_kalman_filter [fst c; snd c; 0; 0]), Some [0],
        Some [c], Some [current_time], Some detection).
Proof.
  unfold track_record, created. tracker_fields.
  rewrite !lookup_set, Nat.eqb_refl. split; reflexivity.
Qed.

Lemma created_other (self : VehicleTracker.t) (detection : BBox)
    (current_time : R) (id : nat) :
  id <> VehicleTracker.next_id self ->
  PyDict.lookup (VehicleTracker.disappeared (created self detection current_time))
    id = PyDict.lookup (VehicleTracker.disappeared self) id
  /\ track_record (created self detection current_time) id
     = track_record self id.
Proof.
  intros Hne. unfold track_record, created. tracker_fields.
  rewrite !lookup_set.
  destruct (Nat.eqb_spec (VehicleTracker.next_id self) id); [congruence |].
  split; reflexivity.
Qed.

Lemma created_all (current_time : R) (detections : list BBox) :
  forall self,
    (forall id, In id (live_ids self) -> (id < VehicleTracker.next_id self)%nat) ->
    let self' := fold_left (fun s d => created s d current_time) detections self in
    VehicleTracker.next_id self'
    = (VehicleTracker.next_id self + List.length detections)%nat
    /\ live_ids self'
       = live_ids self ++ seq (VehicleTracker.next_id self) (List.length detections)
    /\ VehicleTracker.max_disappeared self' = VehicleTracker.max_disappeared self
    /\ (forall i d, nth_error detections i = Some d ->
          let id := (VehicleTracker.next_id self + i)%nat in
          let c := VehicleTracker.center d in
          PyDict.lookup (VehicleTracker.disappeared self') id = Some 0%nat
          /\ track_record self' id
             = (Some (Kalman._create_kalman_filter [fst c; snd c; 0; 0]),
                Some [0], Some [c], Some [current_time], Some d))
    /\ (forall id, (id < VehicleTracker.next_id self)%nat ->
          PyDict.lookup (VehicleTracker.disappeared self') id
          = PyDict.lookup (VehicleTracker.disappeared self) id
          /\ track_record self' id = track_record self id).
Proof.
  induction detections as [| d ds IH]; intros s Hlt; cbn [fold_left List.length seq].
  - rewrite Nat.add_0_r, app_nil_r.
    split; [reflexivity | split; [reflexivity | split; [reflexivity |]]].
    split; [intros [| i] d' E; discriminate E | intros id _; split; reflexivity].
  - assert (Hnew : ~ In (VehicleTracker.next_id s) (live_ids s))
      by (intros Hin; specialize (Hlt _ Hin); lia).
    assert (Hlive : live_ids (created s d current_time)
                    = live_ids s ++ [VehicleTracker.next_id s]).
    { unfold live_ids, created. tracker_fields.
      apply keys_set_absent. exact Hnew. }
    assert (Hnext : VehicleTracker.next_id (created s d current_time)
                    = (VehicleTracker.next_id s + 1)%nat) by reflexivity.
    specialize (IH (created s d current_time)).
    cbv zeta in IH. rewrite Hnext, Hlive in IH.
    destruct IH as (En & El & Em & Hnew' & Hold).
    { intros id Hin. apply in_app_or in Hin.
      destruct Hin as [Hin | [<- | []]]; [specialize (Hlt _ Hin) |]; lia. }
    split; [rewrite En; lia |].
    split; [rewrite El, <- app_assoc, Nat.add_1_r; reflexivity |].
    split; [rewrite Em; reflexivity |].
    split.
    + intros [| i] d' E; cbn [nth_error] in E.
      * injection E as <-. rewrite Nat.add_0_r.
        destruct (Hold (VehicleTracker.next_id s)) as [Ec Er]; [lia |].
        rewrite Ec, Er. apply created_record.
      * replace (VehicleTracker.next_id s + S i)%nat
          with (VehicleTracker.next_id s + 1 + i)%nat by lia.
        apply (Hnew' i d' E).
    + intros id Hid. destruct (Hold id) as [Ec Er]; [lia |].
      rewrite Ec, Er. apply created_other. lia.
Qed.

Section FirstDetections.
Variable kf_update : Kalman.KalmanFilter -> R * R -> Kalman.KalmanFilter.

(** X18. When the tracker holds no track, [update] with a non-empty list of
    detections returns, and it has created one track per detection, in their
    order and with consecutive ids from [next_id] on: each has counter 0, a
    fresh filter at the center of its detection with zero velocity, the one
    position, timestamp and speed 0 of its creation, and its detection as
    box. *)
Theorem first_detections_create_tracks (detections : list BBox)
    (frame_center : R * R) (current_time : R) (self : VehicleTracker.t) :
  VehicleTracker.trackers self = [] -> detections <> [] ->
  exists self',
    VehicleTracker.update kf_update detections frame_center current_time self
    = VehicleTracker.Returned tt self'
    /\ VehicleTracker.next_id self'
       = (VehicleTracker.next_id self + List.length detections)%nat
    /\ live_ids self'
       = seq (VehicleTracker.next_id self) (List.length detections)
    /\ forall i d, nth_error detections i = Some d ->
         let id := (VehicleTracker.next_id self + i)%nat in
         let c := VehicleTracker.center d in
         PyDict.lookup (VehicleTracker.disappeared self') id = Some 0%nat
         /\ track_record self' id
            = (Some (Kalman._create_kalman_filter [fst c; snd c; 0; 0]),
               Some [0], Some [c], Some [current_time], Some d).
Proof.
  intros Hempty Hsome.
  exists (fold_left (fun s d => created s d current_time) detections self).
  assert (Hlive : live_ids self = []) by (unfold live_ids; rewrite Hempty; reflexivity).
  destruct (created_all current_time detections self) as (En & El & _ & Hnew & _).
  { rewrite Hlive. intros id []. }
  rewrite Hlive in El. cbn [app] in El.
  split; [| split; [exact En | split; [exact El | exact Hnew]]].
  unfold VehicleTracker.update.
  destruct detections as [| d ds]; [congruence |].
  cbn [List.length Nat.eqb]. unfold VehicleTracker.bind at 1.
  unfold VehicleTracker.gets at 1. rewrite Hempty. cbn [List.length Nat.eqb].
  apply create_all_returns.
Qed.

End FirstDetections.

Lemma first_detections_create_tracks_witness :
  exists self',
    VehicleTracker.update (fun kf _ => kf) [example_bbox] (640, 360) 0
      (VehicleTracker.init 30)
    = VehicleTracker.Returned tt self'
    /\ VehicleTracker.next_id self' = (0 + 1)%nat
    /\ live_ids self' = seq 0 1
    /\ forall i d, nth_error [example_bbox] i = Some d ->
         let id := (0 + i)%nat in
         let c := VehicleTracker.center d in
         PyDict.lookup (VehicleTracker.disappeared self') id = Some 0%nat
         /\ track_record self' id
            = (Some (Kalman._create_kalman_filter [fst c; snd c; 0; 0]),
               Some [0], Some [c], Some [0], Some d).
Proof.
  apply (first_detections_create_tracks (fun kf _ => kf) [example_bbox]
           (640, 360) 0 (VehicleTracker.init 30)).
  - reflexivity.
  - discriminate.
Defined.

(** ** A tick without detections *)

(** The loop that ages the tracks [ids], all of them live and no two the
    same. *)
Lemma age_all_returns (ids : list nat) :
  forall self,
    well_formed self -> NoDup ids ->
    (forall id, In id ids -> In id (live_ids self)) ->
    exists self',
      VehicleTracker.for_each ids VehicleTracker.age_tracker self
      = VehicleTracker.Returned tt self'
      /\ well_formed self'
      /\ VehicleTracker.next_id self' = VehicleTracker.next_id self
      /\ VehicleTracker.max_disappeared self' = VehicleTracker.max_disappeared self
      /\ live_ids self'
         = filter (fun id => negb (existsb (Nat.eqb id) ids) || survives self id)
             (live_ids self)
      /\ forall id, In id (live_ids self') ->
           PyDict.lookup (VehicleTracker.disappeared self') id
           = (if existsb (Nat.eqb id) ids then Some (count_of self id + 1)%nat
              else PyDict.lookup (VehicleTracker.disappeared self) id)
           /\ track_record self' id = track_record self id.
Proof.
  induction ids as [| a rest IH]; intros s Hwf Hnd Hin.
  - exists s. cbn [VehicleTracker.for_each existsb negb orb].
    split; [reflexivity |]. split; [exact Hwf |].
    split; [reflexivity |]. split; [reflexivity |].
    split; [symmetry; apply filter_all; reflexivity |].
    intros id _. split; reflexivity.
  - apply NoDup_cons_iff in Hnd. destruct Hnd as [Ha Hnd].
    destruct (age_live_returns a s Hwf (Hin a (or_introl eq_refl)))
      as (s1 & Hret & Hwf1 & En1 & Em1 & El1 & Hd1 & Ha1 & Hr1).
    assert (Hrest : forall id, In id rest -> id <> a)
      by (intros id Hid ->; contradiction).
    assert (Hmem : existsb (Nat.eqb a) rest = false).
    { destruct (existsb (Nat.eqb a) rest) eqn:E; [| reflexivity].
      apply existsb_exists in E. destruct E as (x & Hx & E).
      apply Nat.eqb_eq in E. subst x. contradiction. }
    assert (Hs1 : forall id, id <> a -> survives s1 id = survives s id).
    { intros id Hne. unfold survives, count_of. rewrite Em1, (Hd1 id Hne).
      reflexivity. }
    destruct (IH s1 Hwf1 Hnd) as (s' & Hret' & Hwf' & En' & Em' & El' & Hl').
    { intros id Hid. rewrite El1. apply filter_In.
      split; [apply Hin; right; exact Hid |].
      destruct (Nat.eqb_spec id a) as [-> | _]; [contradiction | reflexivity]. }
    exists s'. cbn [VehicleTracker.for_each]. unfold VehicleTracker.bind.
    rewrite Hret. split; [exact Hret' |]. split; [exact Hwf' |].
    split; [congruence |]. split; [congruence |].
    assert (Hlive' : live_ids s'
                     = filter (fun id => negb (existsb (Nat.eqb id) (a :: rest))
                                         || survives s id) (live_ids s)).
    { rewrite El', El1, filter_twice. apply filter_ext_in. intros id Hid.
      cbn [existsb]. destruct (Nat.eqb_spec id a) as [-> | Hne]; cbn [negb orb andb].
      - rewrite Hmem. cbn [negb orb]. apply Bool.andb_true_r.
      - rewrite (Hs1 id Hne). reflexivity. }
    split; [exact Hlive' |].
    intros id Hid. destruct (Hl' id Hid) as [Ec Er].
    assert (Hid1 : In id (live_ids s1)).
    { rewrite El' in Hid. apply filter_In in Hid. apply Hid. }
    split; [| rewrite Er; apply Hr1; exact Hid1].
    rewrite Ec. cbn [existsb].
    destruct (Nat.eqb_spec id a) as [-> | Hne]; cbn [orb].
    + rewrite Hmem. apply Ha1.
      rewrite El1 in Hid1. apply filter_In in Hid1. destruct Hid1 as [_ Hk].
      rewrite Nat.eqb_refl in Hk. exact Hk.
    + unfold count_of. rewrite (Hd1 id Hne). reflexivity.
Qed.

Section NoDetections.
Variable kf_update : Kalman.KalmanFilter -> R * R -> Kalman.KalmanFilter.

(** X19. On a well-formed tracker, [update] with no detections returns: the
    tracks that stay are those whose counter, raised by one, does not exceed
    [max_disappeared], in their order; each of them has its counter raised by
    one and its filter, histories and box untouched; no id is drawn. *)
Theorem update_without_detections (frame_center : R * R) (current_time : R)
    (self : VehicleTracker.t) :
  well_formed self ->
  exists self',
    VehicleTracker.update kf_update [] frame_center current_time self
    = VehicleTracker.Returned tt self'
    /\ VehicleTracker.next_id self' = VehicleTracker.next_id self
    /\ live_ids self' = filter (survives self) (live_ids self)
    /\ forall id, In id (live_ids self') ->
         PyDict.lookup (VehicleTracker.disappeared self') id
         = Some (count_of self id + 1)%nat
         /\ track_record self' id = track_record self id.
Proof.
  intros Hwf.
  assert (Hkeys : PyDict.keys (VehicleTracker.disappeared self) = live_ids self)
    by apply Hwf.
  assert (Hmem : forall id, In id (live_ids self) ->
            existsb (Nat.eqb id) (live_ids self) = true).
  { intros id Hid. apply existsb_exists. exists id.
    split; [exact Hid | apply Nat.eqb_refl]. }
  destruct (age_all_returns (live_ids self) self Hwf) as
    (s' & Hret & _ & En & _ & El & Hl); [apply Hwf | auto |].
  assert (Hlive : live_ids s' = filter (survives self) (live_ids self)).
  { rewrite El. apply filter_ext_in. intros id Hid.
    rewrite (Hmem id Hid). reflexivity. }
  exists s'. split; [| split; [exact En | split; [exact Hlive |]]].
  - unfold VehicleTracker.update. cbn [List.length Nat.eqb].
    unfold VehicleTracker.bind at 1. unfold VehicleTracker.gets.
    rewrite Hkeys. exact Hret.
  - intros id Hid. destruct (Hl id Hid) as [Ec Er]. split; [| exact Er].
    rewrite Ec, Hmem; [reflexivity |].
    rewrite Hlive in Hid. apply filter_In in Hid. apply Hid.
Qed.

End NoDetections.

Lemma update_without_detections_witness :
  exists self',
    VehicleTracker.update (fun kf _ => kf) [] (640, 360) 2 moving_track
    = VehicleTracker.Returned tt self'
    /\ VehicleTracker.next_id self' = VehicleTracker.next_id moving_track
    /\ live_ids self' = filter (survives moving_track) (live_ids moving_track)
    /\ forall id, In id (live_ids self') ->
         PyDict.lookup (VehicleTracker.disappeared self') id
         = Some (count_of moving_track id + 1)%nat
         /\ track_record self' id = track_record moving_track id.
Proof.
  apply (update_without_detections (fun kf _ => kf) (640, 360) 2 moving_track).
  apply well_formed_moving_track.
Defined.

(** ** The vehicles that the tracker reports *)

Lemma lookup_in {V : Type} (d : PyDict.t V) (k : nat) (v : V) :
  NoDup (PyDict.keys d) -> In (k, v) d -> PyDict.lookup d k = Some v.
Proof.
  induction d as [| [k0 v0] d IH]; [intros _ [] |].
  cbn [PyDict.keys map fst PyDict.lookup]. intros Hnd Hin.
  apply NoDup_cons_iff in Hnd. destruct Hnd as [Hk0 Hnd].
  destruct Hin as [E | Hin].
  - injection E as -> ->. rewrite Nat.eqb_refl. reflexivity.
  - destruct (Nat.eqb_spec k0 k) as [-> | _]; [| apply (IH Hnd Hin)].
    exfalso. apply Hk0. apply (in_map fst) in Hin. exact Hin.
Qed.

Lemma sum_nonneg (l : list R) : Forall (Rle 0) l -> 0 <= fold_right Rplus 0 l.
Proof.
  induction 1 as [| a l Ha _ IH]; cbn [fold_right]; lra.
Qed.

Lemma mean_nonneg (l : list R) :
  Forall (Rle 0) l -> (1 <= List.length l)%nat -> 0 <= VehicleTracker.mean l.
Proof.
  intros Hl Hlen. unfold VehicleTracker.mean.
  apply Rmult_le_pos; [apply sum_nonneg; exact Hl |].
  apply Rlt_le, Rinv_0_lt_compat. apply lt_0_INR. lia.
Qed.

(** One pass of the loop of [get_tracked_vehicles], for a track that has a
    list of speeds. *)
Lemma tracked_vehicle_returns (object_id : nat) (kf : Kalman.KalmanFilter)
    (recent : list R) (self : VehicleTracker.t) :
  PyDict.lookup (VehicleTracker.speeds self) object_id = Some recent ->
  VehicleTracker.tracked_vehicle object_id kf self
  = VehicleTracker.Returned
      (if shown self object_id
       then Some {| tv_id := object_id;
                    tv_position := (Kalman.x_at kf 0, Kalman.x_at kf 1);
                    tv_velocity := (Kalman.x_at kf 2, Kalman.x_at kf 3);
                    tv_speed := match recent with
                                | [] => 0
                                | _ => VehicleTracker.mean recent
                                end;
                    tv_trajectory :=
                      get (PyDict.lookup (VehicleTracker.positions_history self)
                             object_id) [];
                    tv_bbox :=
                      get (PyDict.lookup (VehicleTracker.bboxes self) object_id)
                        (VehicleTracker.py_int (Kalman.x_at kf 0 - 50),
                         VehicleTracker.py_int (Kalman.x_at kf 1 - 50), 100, 100)
                 |}
       else None) self.
Proof.
  intros Hsp. unfold VehicleTracker.tracked_vehicle, shown.
  unfold VehicleTracker.bind at 1. unfold VehicleTracker.gets at 1.
  destruct (PyDict.lookup (VehicleTracker.disappeared self) object_id)
    as [[| n] |]; try reflexivity;
    unfold_monad; rewrite Hsp; reflexivity.
Qed.

Lemma collect_vehicles_returns (self : VehicleTracker.t)
    (items : PyDict.t Kalman.KalmanFilter) :
  (forall id kf, In (id, kf) items ->
     exists sp, PyDict.lookup (VehicleTracker.speeds self) id = Some sp
                /\ (1 <= List.length sp)%nat) ->
  exists vehicles,
    VehicleTracker.collect_vehicles items self
    = VehicleTracker.Returned vehicles self
    /\ map tv_id vehicles = filter (shown self) (PyDict.keys items)
    /\ forall v, In v vehicles ->
         exists kf sp,
           In (tv_id v, kf) items
           /\ PyDict.lookup (VehicleTracker.speeds self) (tv_id v) = Some sp
           /\ tv_position v = (Kalman.x_at kf 0, Kalman.x_at kf 1)
           /\ tv_velocity v = (Kalman.x_at kf 2, Kalman.x_at kf 3)
           /\ tv_speed v = VehicleTracker.mean sp
           /\ tv_trajectory v
              = get (PyDict.lookup (VehicleTracker.positions_history self)
                       (tv_id v)) []
           /\ tv_bbox v
              = get (PyDict.lookup (VehicleTracker.bboxes self) (tv_id v))
                  (VehicleTracker.py_int (Kalman.x_at kf 0 - 50),
                   VehicleTracker.py_int (Kalman.x_at kf 1 - 50), 100, 100).
Proof.
  induction items as [| [id kf] items IH]; intros Hsp.
  - exists []. repeat split. intros v [].
  - destruct (Hsp id kf (or_introl eq_refl)) as (sp & Esp & Hlen).
    destruct IH as (vs & Hret & Hids & Hvs).
    { intros id' kf' Hin. apply (Hsp id' kf'). right. exact Hin. }
    cbn [VehicleTracker.collect_vehicles]. unfold VehicleTracker.bind at 1.
    rewrite (tracked_vehicle_returns id kf sp self Esp).
    unfold VehicleTracker.bind at 1. rewrite Hret.
    cbn [VehicleTracker.ret PyDict.keys map fst filter].
    fold (PyDict.keys items).
    destruct (shown self id).
    + eexists. split; [reflexivity |]. split.
      * cbn [map tv_id]. rewrite Hids. reflexivity.
      * intros v [<- | Hin].
        -- exists kf, sp. cbn [tv_id tv_position tv_velocity tv_speed
                               tv_trajectory tv_bbox].
           repeat split; try reflexivity; [left; reflexivity | exact Esp |].
           destruct sp; [cbn in Hlen; lia | reflexivity].
        -- destruct (Hvs v Hin) as (kf' & sp' & Hin' & H).
           exists kf', sp'. split; [right; exact Hin' | exact H].
    + exists vs. split; [reflexivity |]. split; [exact Hids |].
      intros v Hin. destruct (Hvs v Hin) as (kf' & sp' & Hin' & H).
      exists kf', sp'. split; [right; exact Hin' | exact H].
Qed.

(** X20. On a well-formed tracker [get_tracked_vehicles] returns and changes
    nothing.  It reports the live tracks whose counter is 0, in their order:
    each with the position and velocity of its filter, the mean of its
    recorded speeds, which is not negative, its recorded positions as
    trajectory and its stored box. *)
Theorem get_tracked_vehicles_reports (self : VehicleTracker.t) :
  well_formed self ->
  exists vehicles,
    VehicleTracker.get_tracked_vehicles self
    = VehicleTracker.Returned vehicles self
    /\ map tv_id vehicles = filter (shown self) (live_ids self)
    /\ forall v, In v vehicles ->
         PyDict.lookup (VehicleTracker.disappeared self) (tv_id v) = Some 0%nat
         /\ exists kf sp ts,
              track_record self (tv_id v)
              = (Some kf, Some sp, Some (tv_trajectory v), Some ts,
                 Some (tv_bbox v))
              /\ tv_position v = (Kalman.x_at kf 0, Kalman.x_at kf 1)
              /\ tv_velocity v = (Kalman.x_at kf 2, Kalman.x_at kf 3)
              /\ tv_speed v = VehicleTracker.mean sp
              /\ 0 <= tv_speed v.
Proof.
  intros Hwf.
  assert (Hnd : NoDup (PyDict.keys (VehicleTracker.trackers self))) by apply Hwf.
  assert (Hlive : forall id kf, In (id, kf) (VehicleTracker.trackers self) ->
            In id (live_ids self)).
  { intros id kf Hin. apply (in_map fst) in Hin. exact Hin. }
  destruct (collect_vehicles_returns self (VehicleTracker.trackers self))
    as (vs & Hret & Hids & Hvs).
  { intros id kf Hin.
    destruct (well_formed_live self id Hwf (Hlive id kf Hin))
      as (_ & _ & _ & _ & _ & _ & _ & _ & (h & ts & sp & _ & _ & Es & _ & _ & Hl & _)).
    exists sp. split; [exact Es | lia]. }
  exists vs. split; [exact Hret |]. split; [exact Hids |].
  intros v Hin.
  destruct (Hvs v Hin) as (kf & sp & Hkf & Esp & Ep & Ev & Es & Et & Eb).
  assert (Hshown : shown self (tv_id v) = true).
  { assert (Hid : In (tv_id v) (map tv_id vs)) by (apply in_map; exact Hin).
    rewrite Hids in Hid. apply filter_In in Hid. apply Hid. }
  destruct (well_formed_live self (tv_id v) Hwf (Hlive _ kf Hkf))
    as (_ & _ & _ & _ & _ & _ & [count Ec] & [bbox Ebb]
        & (h & ts & sp' & Eh & Ets & Es' & _ & _ & Hl & Hpos)).
  rewrite Esp in Es'. injection Es' as <-.
  split.
  - unfold shown in Hshown. rewrite Ec in Hshown. rewrite Ec.
    destruct count; [reflexivity | discriminate Hshown].
  - exists kf, sp, ts. unfold track_record.
    rewrite (lookup_in _ _ _ Hnd Hkf), Esp, Ets, Et, Eb, Eh, Ebb. cbn [get].
    repeat split; try assumption.
    rewrite Es. apply mean_nonneg; [exact Hpos | lia].
Qed.

Lemma get_tracked_vehicles_reports_witness :
  exists vehicles,
    VehicleTracker.get_tracked_vehicles moving_track
    = VehicleTracker.Returned vehicles moving_track
    /\ map tv_id vehicles = filter (shown moving_track) (live_ids moving_track)
    /\ forall v, In v vehicles ->
         PyDict.lookup (VehicleTracker.disappeared moving_track) (tv_id v)
         = Some 0%nat
         /\ exists kf sp ts,
              track_record moving_track (tv_id v)
              = (Some kf, Some sp, Some (tv_trajectory v), Some ts,
                 Some (tv_bbox v))
              /\ tv_position v = (Kalman.x_at kf 0, Kalman.x_at kf 1)
              /\ tv_velocity v = (Kalman.x_at kf 2, Kalman.x_at kf 3)
              /\ tv_speed v = VehicleTracker.mean sp
              /\ 0 <= tv_speed v.
Proof.
  apply (get_tracked_vehicles_reports moving_track).
  apply well_formed_moving_track.
Defined.

Section StoredBoxes.
Variable kf_update : Kalman.KalmanFilter -> R * R -> Kalman.KalmanFilter.

(** X21. [update] invents no box: from a well-formed tracker, every box
    stored after the call, whether it returned or raised, is one of the
    detections of the call or was stored before it. *)
Theorem update_stores_only_detections (detections : list BBox)
    (frame_center : R * R) (current_time : R) (self : VehicleTracker.t) :
  well_formed self ->
  forall id bbox,
    PyDict.lookup
      (VehicleTracker.bboxes
         (after_update kf_update self detections frame_center current_time))
      id = Some bbox ->
    In bbox detections
    \/ exists id', PyDict.lookup (VehicleTracker.bboxes self) id' = Some bbox.
Proof.
  intros Hwf.
  pose proof (update_keeps
                (fun bbox =>
                   In bbox detections
                   \/ exists id',
                        PyDict.lookup (VehicleTracker.bboxes self) id' = Some bbox)
                kf_update detections frame_center current_time
                (fun d Hd => or_introl Hd) self) as Hup.
  unfold after_update.
  destruct (VehicleTracker.update kf_update detections frame_center
              current_time self) as [[] s' | e s'];
    cbn [VehicleTracker.final_state]; apply Hup;
    (split; [exact Hwf | intros id bbox E; right; exists id; exact E]).
Qed.

End StoredBoxes.

Lemma update_stores_only_detections_witness :
  In example_bbox [example_bbox]
  \/ exists id', PyDict.lookup (VehicleTracker.bboxes (VehicleTracker.init 30)) id'
                 = Some example_bbox.
Proof.
  apply (update_stores_only_detections (fun kf _ => kf) [example_bbox]
           (640, 360) 0 (VehicleTracker.init 30) (well_formed_init 30) 0%nat
           example_bbox).
  reflexivity.
Defined.

(** * Properties of the pipeline *)

Lemma py_int_integer (r : R) : exists z, VehicleTracker.py_int r = IZR z.
Proof.
  unfold VehicleTracker.py_int. destruct (Rle_dec 0 r).
  - eexists. reflexivity.
  - exists (- Int_part (- r))%Z. rewrite opp_IZR. reflexivity.
Qed.

Lemma py_int_positive (r : R) :
  0 < VehicleTracker.py_int r -> 1 <= VehicleTracker.py_int r.
Proof.
  destruct (py_int_integer r) as [z ->]. intros H.
  apply lt_IZR in H. apply IZR_le. lia.
Qed.

Lemma box_detection_valid (box : VehicleCollisionDetectionSystem.Box)
    (detection : BBox) :
  VehicleCollisionDetectionSystem.box_detection box = Some detection ->
  valid_box detection.
Proof.
  unfold VehicleCollisionDetectionSystem.box_detection.
  destruct (existsb _ _); [| discriminate].
  destruct (VehicleCollisionDetectionSystem.box_xyxy box) as [[[x1 y1] x2] y2].
  unfold Rltb, Rleb.
  destruct (Rlt_dec 0 (VehicleTracker.py_int (x2 - x1))) as [Hw |];
    [| discriminate].
  destruct (Rlt_dec 0 (VehicleTracker.py_int (y2 - y1))) as [Hh |];
    [| discriminate].
  destruct (Rle_dec 0 (VehicleTracker.py_int x1)) as [Hx |]; [| discriminate].
  destruct (Rle_dec 0 (VehicleTracker.py_int y1)) as [Hy |]; [| discriminate].
  cbn [andb]. intros E. injection E as <-. unfold valid_box.
  split; [| repeat split; try assumption; apply py_int_positive; assumption].
  destruct (py_int_integer x1) as [zx Ex], (py_int_integer y1) as [zy Ey],
    (py_int_integer (x2 - x1)) as [zw Ew], (py_int_integer (y2 - y1)) as [zh Eh].
  exists zx, zy, zw, zh. auto.
Qed.

Lemma boxes_detections_valid (boxes : list VehicleCollisionDetectionSystem.Box) :
  Forall valid_box (VehicleCollisionDetectionSystem.boxes_detections boxes).
Proof.
  induction boxes as [| box boxes IH]; [constructor |].
  cbn [VehicleCollisionDetectionSystem.boxes_detections].
  destruct (VehicleCollisionDetectionSystem.box_detection box) as [d |] eqn:E;
    [| exact IH].
  constructor; [apply (box_detection_valid box d E) | exact IH].
Qed.

Lemma detect_vehicles_valid (Frame : Type)
    (model : option (Frame -> option (list VehicleCollisionDetectionSystem.Result)))
    (frame : Frame) (detection : BBox) :
  In detection (VehicleCollisionDetectionSystem._detect_vehicles Frame model frame) ->
  valid_box detection.
Proof.
  apply Forall_forall.
  unfold VehicleCollisionDetectionSystem._detect_vehicles.
  destruct model as [run |]; [| constructor].
  destruct (run frame) as [results |]; [| constructor].
  induction results as [| result results IH]; [constructor |].
  cbn [flat_map]. apply Forall_app. split; [| exact IH].
  destruct result as [boxes |]; [| constructor].
  destruct (0 <? List.length boxes)%nat; [| constructor].
  apply boxes_detections_valid.
Qed.

Lemma valid_box_distance (self : CollisionDetector.t) (bbox : BBox)
    (view : string) :
  valid_box bbox ->
  1 <= CollisionDetector.calculate_distance self bbox view <= 252 / 10.
Proof.
  destruct bbox as [[[x y] w] h]. intros (_ & _ & _ & _ & Hh).
  unfold CollisionDetector.calculate_distance, py_max, py_min. unfold_config.
  assert (Hq : 18 / 10 * 700 / h / 50 <= 252 / 10).
  { replace (18 / 10 * 700 / h / 50) with (126 / 5 * / h) by (field; lra).
    assert (/ h <= / 1) by (apply Rinv_le_contravar; lra).
    rewrite Rinv_1 in *. lra. }
  decide_reals.
Qed.

(** X22. Every box that [_detect_vehicles] returns has whole-number
    coordinates, lies right of and below the frame origin, and is at least
    one pixel wide and one pixel tall, whatever the model reports. *)
Theorem detected_boxes_valid (Frame : Type)
    (model : option (Frame -> option (list VehicleCollisionDetectionSystem.Result)))
    (frame : Frame) :
  Forall valid_box
    (VehicleCollisionDetectionSystem._detect_vehicles Frame model frame).
Proof.
  apply Forall_forall. intros detection. apply detect_vehicles_valid.
Qed.

(** X23. [calculate_distance] puts every box that [_detect_vehicles]
    returns between 1 m and 25.2 m: the far default of 100 m and the upper
    clamp at 200 m are out of reach of a detection. *)
Theorem detected_distance_range (Frame : Type)
    (model : option (Frame -> option (list VehicleCollisionDetectionSystem.Result)))
    (frame : Frame) (self : CollisionDetector.t) (view : string) :
  Forall (fun bbox =>
            1 <= CollisionDetector.calculate_distance self bbox view <= 252 / 10)
         (VehicleCollisionDetectionSystem._detect_vehicles Frame model frame).
Proof.
  apply Forall_forall. intros detection Hin.
  apply valid_box_distance. apply (detect_vehicles_valid Frame model frame _ Hin).
Qed.

Lemma analyze_vehicle_record (self : CollisionDetector.t) (bbox : BBox)
    (vehicle : TrackedVehicle) (view : string) :
  let info :=
    VehicleCollisionDetectionSystem.set_view view
      (CollisionDetector.analyze_vehicle self bbox vehicle view) in
  scored info
  /\ vi_view info = Some view
  /\ vi_id info = tv_id vehicle
  /\ vi_distance info = Some (CollisionDetector.calculate_distance self bbox view)
  /\ vi_angle info = Some (CollisionDetector.calculate_angle self bbox view).
Proof.
  cbv zeta. unfold CollisionDetector.analyze_vehicle.
  match goal with
  | |- context [CollisionDetector.predict_collision self ?v view] =>
      pose proof (verdict_classify self v view) as Hv;
      pose proof (classify_consistent (graded_distance v) (graded_speed v)
                    (graded_angle v view)) as Hc;
      destruct (CollisionDetector.predict_collision self v view)
        as [[flag ttc] sev]
  end.
  cbn [verdict] in Hv. rewrite <- Hv in Hc. cbn [fst snd] in Hc.
  unfold VehicleCollisionDetectionSystem.set_view, scored.
  cbn [vi_collision_detected vi_severity vi_view vi_id vi_distance vi_angle].
  repeat split; try reflexivity.
  exists flag, sev. repeat split; try reflexivity; apply Hc.
Qed.

Lemma kept_moving_track : kept valid_box moving_track.
Proof.
  split; [apply well_formed_moving_track |].
  intros [| id] bbox E; cbn in E; [| discriminate E].
  injection E as <-. unfold valid_box.
  split; [exists 95%Z, 95%Z, 10%Z, 10%Z; repeat split | lra].
Qed.

Section ProcessView.
Variable Frame : Type.
Variable _draw_detections :
  Frame -> list BBox -> list TrackedVehicle -> list VehicleInfo -> string -> Frame.
Variable kf_update : Kalman.KalmanFilter -> R * R -> Kalman.KalmanFilter.

(** X24. [_process_view] on a frame, from a well-formed tracker whose stored
    boxes are valid, leaves such a tracker whether it returns or raises, and
    raises nothing but [IndexError].  When it returns, [vehicles_info] has one
    record for each live track whose counter is 0, in their order; every
    record carries the view, a distance between 1 m and 25.2 m, and a
    collision flag that is set exactly when its severity is not 'none'. *)
Theorem process_view_vehicles
    (model : option (Frame -> option (list VehicleCollisionDetectionSystem.Result)))
    (frame_size : R * R) (collision_detector : CollisionDetector.t)
    (frame : Frame) (view : string) (current_time : R)
    (self : VehicleTracker.t) :
  kept valid_box self ->
  match
    VehicleCollisionDetectionSystem._process_view Frame _draw_detections
      kf_update model frame_size collision_detector (Some frame) view
      current_time self
  with
  | VehicleTracker.Returned (_, vehicles_info) self' =>
      kept valid_box self'
      /\ map vi_id vehicles_info = filter (shown self') (live_ids self')
      /\ forall v, In v vehicles_info ->
           scored v /\ vi_view v = Some view
           /\ exists d, vi_distance v = Some d /\ 1 <= d <= 252 / 10
  | VehicleTracker.Raised e self' =>
      e = VehicleTracker.IndexError /\ kept valid_box self'
  end.
Proof.
  intros Hk. unfold VehicleCollisionDetectionSystem._process_view.
  destruct frame_size as [w h].
  set (detections :=
         VehicleCollisionDetectionSystem._detect_vehicles Frame model frame).
  pose proof (update_keeps valid_box kf_update detections (w / 2, h / 2)
                current_time
                (detect_vehicles_valid Frame model frame) self Hk) as Hup.
  unfold VehicleTracker.bind at 1.
  destruct (VehicleTracker.update kf_update detections (w / 2, h / 2)
              current_time self) as [[] s' | e s']; [| exact Hup].
  destruct Hup as [Hwf Hbox].
  assert (Hlive : forall id kf, In (id, kf) (VehicleTracker.trackers s') ->
            In id (live_ids s')).
  { intros id kf Hin. apply (in_map fst) in Hin. exact Hin. }
  destruct (collect_vehicles_returns s' (VehicleTracker.trackers s'))
    as (vs & Hret & Hids & Hvs).
  { intros id kf Hin.
    destruct (well_formed_live s' id Hwf (Hlive id kf Hin))
      as (_ & _ & _ & _ & _ & _ & _ & _
          & (hh & ts & sp & _ & _ & Es & _ & _ & Hl & _)).
    exists sp. split; [exact Es | lia]. }
  unfold VehicleTracker.bind at 1.
  unfold VehicleTracker.get_tracked_vehicles, VehicleTracker.bind at 1.
  unfold VehicleTracker.gets at 1. rewrite Hret. cbn [VehicleTracker.ret].
  split; [split; assumption |]. split.
  - unfold live_ids. rewrite map_map, <- Hids. apply map_ext. intros v.
    apply (analyze_vehicle_record collision_detector (tv_bbox v) v view).
  - intros info Hin. apply in_map_iff in Hin. destruct Hin as (v & <- & Hin).
    destruct (analyze_vehicle_record collision_detector (tv_bbox v) v view)
      as (Hs & Hv & _ & Hd & _).
    split; [exact Hs |]. split; [exact Hv |].
    eexists. split; [exact Hd |]. apply valid_box_distance.
    destruct (Hvs v Hin) as (kf & sp & Hkf & _ & _ & _ & _ & _ & Eb).
    destruct (well_formed_live s' (tv_id v) Hwf (Hlive _ kf Hkf))
      as (_ & _ & _ & _ & _ & _ & _ & [bbox Ebb] & _).
    rewrite Ebb in Eb. cbn [get] in Eb. rewrite Eb.
    apply (Hbox (tv_id v) bbox Ebb).
Qed.

End ProcessView.

Lemma process_view_vehicles_witness :
  match
    VehicleCollisionDetectionSystem._process_view unit
      (fun frame _ _ _ _ => frame) (fun kf _ => kf)
      (Some (fun _ =>
               Some [Some [VehicleCollisionDetectionSystem.mkBox 2 (9 / 10)
                             (105, 95, 115, 105)]]))
      (1280, 720) example_detector (Some tt) "front" 2 moving_track
  with
  | VehicleTracker.Returned (_, vehicles_info) self' =>
      kept valid_box self'
      /\ map vi_id vehicles_info = filter (shown self') (live_ids self')
      /\ forall v, In v vehicles_info ->
           scored v /\ vi_view v = Some "front"%string
           /\ exists d, vi_distance v = Some d /\ 1 <= d <= 252 / 10
  | VehicleTracker.Raised e self' =>
      e = VehicleTracker.IndexError /\ kept valid_box self'
  end.
Proof.
  apply (process_view_vehicles unit (fun frame _ _ _ _ => frame)
           (fun kf _ => kf)
           (Some (fun _ =>
                    Some [Some [VehicleCollisionDetectionSystem.mkBox 2 (9 / 10)
                                  (105, 95, 115, 105)]]))
           (1280, 720) example_detector tt "front"%string 2 moving_track).
  apply kept_moving_track.
Defined.

(** * Properties of the input handler *)

Section InputProperties.
Variable Frame : Type.
Variable Capture : Type.
Variable cap_read : Capture -> bool * option Frame * Capture.
Variable cap_rewind : Capture -> Capture.

(** What [read] never changes. *)
Lemma read_kind (self self' : InputHandler.t Frame Capture) (ret : bool)
    (frame : option Frame) :
  InputHandler.read cap_read self = Some (ret, frame, self') ->
  InputHandler.is_image self' = InputHandler.is_image self
  /\ InputHandler.is_video self' = InputHandler.is_video self
  /\ InputHandler.is_live self' = InputHandler.is_live self
  /\ InputHandler.image self' = InputHandler.image self
  /\ InputHandler.total_frames self' = InputHandler.total_frames self.
Proof.
  destruct self as [ty c i v l im fc tf f]. unfold InputHandler.read. cbn.
  destruct i.
  - destruct (fc =? 0)%Z; [destruct im; [| discriminate] |];
      intros E; injection E as <- <- <-; repeat split.
  - destruct (v || l).
    + destruct c as [c |]; [| discriminate].
      destruct (cap_read c) as [[r fr] c'].
      intros E; injection E as <- <- <-. destruct r; repeat split.
    + intros E; injection E as <- <- <-; repeat split.
Qed.

(** X25. An image input yields its image once: from frame count 0 the first
    [read] returns it and leaves the handler finished, every later [read]
    returns [(False, None)] and changes nothing, and [reset] brings the
    handler back to where the image is read again. *)
Theorem image_read_once (self : InputHandler.t Frame Capture) (img : Frame) :
  InputHandler.is_image self = true ->
  InputHandler.image self = Some img ->
  InputHandler.frame_count self = 0%Z ->
  InputHandler.is_finished self = false
  /\ exists self',
       InputHandler.read cap_read self = Some (true, Some img, self')
       /\ InputHandler.is_finished self' = true
       /\ InputHandler.read cap_read self' = Some (false, None, self')
       /\ InputHandler.reset cap_rewind self' = self.
Proof.
  intros Hi Him Hc. destruct self as [ty c i v l im fc tf f].
  cbn in Hi, Him, Hc. subst i im fc.
  split; [reflexivity |].
  eexists. unfold InputHandler.read. cbn.
  split; [reflexivity |]. repeat split.
Qed.

(** X26. A [read] that returns raises the frame count by one when it yields
    a frame and leaves it alone when it does not; it never changes the kind
    of the input, its image or its total number of frames. *)
Theorem read_counts_frames (self self' : InputHandler.t Frame Capture)
    (ret : bool) (frame : option Frame) :
  InputHandler.read cap_read self = Some (ret, frame, self') ->
  InputHandler.frame_count self'
  = (InputHandler.frame_count self + if ret then 1 else 0)%Z
  /\ InputHandler.is_image self' = InputHandler.is_image self
  /\ InputHandler.is_video self' = InputHandler.is_video self
  /\ InputHandler.is_live self' = InputHandler.is_live self
  /\ InputHandler.image self' = InputHandler.image self
  /\ InputHandler.total_frames self' = InputHandler.total_frames self.
Proof.
  intros Hread. split; [| apply (read_kind self self' ret frame Hread)].
  destruct self as [ty c i v l im fc tf f]. unfold InputHandler.read in Hread.
  cbn in *. destruct i.
  - destruct (Z.eqb_spec fc 0) as [-> | _]; [destruct im; [| discriminate] |];
      injection Hread as <- <- <-; cbn; lia.
  - destruct (v || l).
    + destruct c as [c |]; [| discriminate].
      destruct (cap_read c) as [[r fr] c'].
      injection Hread as <- <- <-. destruct r; cbn; lia.
    + injection Hread as <- <- <-; cbn; lia.
Qed.

(** X27. A live input is never finished, however many frames have been
    read from it. *)
Theorem live_never_finished (n : nat) :
  forall self self' : InputHandler.t Frame Capture,
    InputHandler.is_image self = false ->
    InputHandler.is_video self = false ->
    InputHandler.is_live self = true ->
    after_reads cap_read n self = Some self' ->
    InputHandler.is_finished self' = false.
Proof.
  induction n as [| n IH]; intros self self' Hi Hv Hl; cbn [after_reads].
  - intros E. injection E as <-. unfold InputHandler.is_finished.
    rewrite Hi, Hv, Hl. reflexivity.
  - destruct (InputHandler.read cap_read self) as [[[ret frame] s1] |] eqn:Hread;
      [| discriminate].
    destruct (read_kind self s1 ret frame Hread) as (Ei & Ev & El & _).
    apply IH; congruence.
Qed.

End InputProperties.

Lemma image_read_once_witness :
  InputHandler.is_finished (image_handler 7) = false
  /\ exists self',
       InputHandler.read steady_camera (image_handler 7)
       = Some (true, Some 7%nat, self')
       /\ InputHandler.is_finished self' = true
       /\ InputHandler.read steady_camera self' = Some (false, None, self')
       /\ InputHandler.reset (fun c => c) self' = image_handler 7.
Proof.
  apply (image_read_once nat unit steady_camera (fun c => c) (image_handler 7)
           7%nat); reflexivity.
Defined.

Lemma read_counts_frames_witness :
  InputHandler.frame_count
    (InputHandler.set_frame_count 1 (image_handler 7))
  = (InputHandler.frame_count (image_handler 7) + 1)%Z
  /\ InputHandler.is_image
       (InputHandler.set_frame_count 1 (image_handler 7))
     = InputHandler.is_image (image_handler 7)
  /\ InputHandler.is_video
       (InputHandler.set_frame_count 1 (image_handler 7))
     = InputHandler.is_video (image_handler 7)
  /\ InputHandler.is_live
       (InputHandler.set_frame_count 1 (image_handler 7))
     = InputHandler.is_live (image_handler 7)
  /\ InputHandler.image
       (InputHandler.set_frame_count 1 (image_handler 7))
     = InputHandler.image (image_handler 7)
  /\ InputHandler.total_frames
       (InputHandler.set_frame_count 1 (image_handler 7))
     = InputHandler.total_frames (image_handler 7).
Proof.
  apply (read_counts_frames nat unit steady_camera (image_handler 7)
           (InputHandler.set_frame_count 1 (image_handler 7))
           true (Some 7%nat)).
  reflexivity.
Defined.

Lemma live_never_finished_witness :
  InputHandler.is_finished
    (InputHandler.mk nat unit "live" (Some tt) false false true None 3 (-1) 30)
  = false.
Proof.
  apply (live_never_finished nat unit steady_camera 3 live_handler);
    reflexivity.
Defined.
